(** * Wazper: the WhatsApp session lifecycle manager and campaign dispatcher

    A shallow embedding of [services/whatsapp.js] (class [WhatsAppService]):
    the per-account connect / reconnect state machine with its rate limiter
    and exponential backoff, and the sequential bulk-send loop of a campaign.

    The JavaScript code threads three in-memory [Map]s, the database and a
    handful of collaborators (transport handles, timers, the clock) through
    [async] methods that may throw.  It is embedded as a state-and-exception
    monad over an explicit [World]; JavaScript built-ins, the Baileys enum
    [DisconnectReason] and the outcomes of calls into collaborators are the
    fields of an environment record [Env].

    Modelling assumptions, stated once:
    - calls into the persistence layer (Sequelize) and [QRCode.toDataURL]
      return normally, and what they do to the tables is written out, with
      two constraints of the schema in view: the update of [accounts.phone]
      throws when another row holds the number ([UNIQUE]), and an insert
      into [activity_logs] needs the account row that its [account_id]
      refers to, which the statements about that log take as a hypothesis;
    - a call into the transport either returns or throws, as the
      environment's [ext_throws] decides for that call; what the file system
      holds at a media path is the environment's [fs_media];
    - other tasks (request handlers, event handlers of other sockets) run
      between two iterations of the dispatch loop; what they did is the
      environment's [concurrent] function. *)

From Stdlib Require Import ZArith String Ascii Lia.
From stdpp Require Import base option list gmap strings sorting pretty.

Local Open Scope Z_scope.

(** ** JavaScript values used as identifiers

    Account and campaign identifiers reach the service both as numbers
    (rows read from the database) and as strings (route parameters), and a
    [Map] distinguishes the two. *)

Inductive jsval : Type :=
  | JNum (n : Z)
  | JNaN
  | JStr (s : string).

#[global] Instance jsval_eq_dec : EqDecision jsval.
Proof. solve_decision. Defined.

Definition jsval_code (v : jsval) : Z + (unit + string) :=
  match v with
  | JNum n => inl n
  | JNaN => inr (inl tt)
  | JStr s => inr (inr s)
  end.

Definition jsval_decode (c : Z + (unit + string)) : jsval :=
  match c with
  | inl n => JNum n
  | inr (inl _) => JNaN
  | inr (inr s) => JStr s
  end.

#[global] Instance jsval_countable : Countable jsval.
Proof.
  refine (inj_countable' jsval_code jsval_decode _).
  intros v. destruct v; reflexivity.
Defined.

(** JavaScript truthiness of the values the code tests. *)

Definition truthy_num (o : option Z) : bool :=
  match o with
  | Some n => negb (n =? 0)
  | None => false
  end.

Definition truthy_str (o : option string) : bool :=
  match o with
  | Some s => negb (String.eqb s EmptyString)
  | None => false
  end.

(** [a || b] on strings. *)
Definition or_str (o : option string) (d : string) : string :=
  match o with
  | Some s => if String.eqb s EmptyString then d else s
  | None => d
  end.

(** [hay.includes(needle)] *)
Definition includes (hay needle : string) : bool :=
  match String.index 0 needle hay with
  | Some _ => true
  | None => false
  end.

(** [s.split(c)[0]]: the part of [s] before the first [c]. *)
Fixpoint split_head (c : ascii) (s : string) : string :=
  match s with
  | EmptyString => EmptyString
  | String a s' => if Ascii.eqb a c then EmptyString else String a (split_head c s')
  end.

(** [Math.ceil(x / d)] for a positive divisor. *)
Definition ceil_div (x d : Z) : Z := - ((- x) / d).

(** ** Persistent entities (the Sequelize models) *)

Inductive AccountStatus : Type :=
  | AccDisconnected | AccConnecting | AccConnected | AccReconnecting | AccError.

Inductive CampaignStatus : Type :=
  | CmpDraft | CmpRunning | CmpCompleted | CmpPaused | CmpCancelled.

Inductive MessageStatus : Type :=
  | MsgPending | MsgSent | MsgFailed | MsgDelivered | MsgRead.

#[global] Instance AccountStatus_eq_dec : EqDecision AccountStatus.
Proof. solve_decision. Defined.
#[global] Instance CampaignStatus_eq_dec : EqDecision CampaignStatus.
Proof. solve_decision. Defined.
#[global] Instance MessageStatus_eq_dec : EqDecision MessageStatus.
Proof. solve_decision. Defined.

Record Account : Type := mkAccount {
  acc_name : string;
  acc_phone : option string;
  acc_status : AccountStatus;
  acc_qr_code : option string;
  acc_last_connected : option Z
}.

Record Campaign : Type := mkCampaign {
  cmp_account_id : Z;
  cmp_status : CampaignStatus;
  cmp_delay_seconds : Z;
  cmp_sent_count : Z;
  cmp_failed_count : Z;
  cmp_completed_at : option Z
}.

Record CampaignMessage : Type := mkCampaignMessage {
  msg_campaign_id : option Z;
  msg_phone : string;
  msg_message_text : option string;
  msg_media_path : option string;
  msg_status : MessageStatus;
  msg_error_message : option string;
  msg_sent_at : option Z
}.

Record ActivityLog : Type := mkActivityLog {
  log_account_id : jsval;
  log_action : string;
  log_description : string
}.

(** ** Errors, transport payloads and observable effects *)

Inductive JsError : Type :=
  | RateLimited (remainingTime : Z) (accountId : jsval)
  | AccountNotFound
  | AccountNotConnected
  | CampaignNotRunning
  | MediaFileNotFound (mediaPath : string)
  | MediaReadFailed (why : string)
  | NullProperty (what : string)
  | CollaboratorError (why : string).

Inductive MessageContent : Type :=
  | TextContent (text : option string)
  | ImageContent (buffer : string) (caption : option string)
  | VideoContent (buffer : string) (caption : option string)
  | AudioContent (buffer : string) (mimetype : string)
  | DocumentContent (buffer : string) (mimetype fileName : string)
                    (caption : option string).

(** What the service does to its collaborators, in program order. *)
Inductive Effect : Type :=
  | EvOpen (handle : nat) (accountId : jsval)
  | EvLogout (handle : nat) (ok : bool)
  | EvSend (handle : nat) (jid : string) (content : MessageContent) (ok : bool)
  | EvDelay (ms : Z)
  | EvCleanSession (accountId : jsval) (aggressive : bool).

(** A pending [setTimeout] of [scheduleReconnect]: the callback is always the
    reconnection closure over [accountId] and [disconnectReason]. *)
Record Timer : Type := mkTimer {
  timer_delayMs : Z;
  timer_accountId : jsval;
  timer_disconnectReason : option Z
}.

(** The argument of a [connection.update] event.  [upd_statusCode] is
    [lastDisconnect?.error?.output?.statusCode] and [upd_errorMessage] is
    [lastDisconnect?.error?.message]. *)
Inductive Connection : Type := ConnClose | ConnOpen | ConnConnecting.

Record ConnectionUpdate : Type := mkUpdate {
  upd_connection : option Connection;
  upd_statusCode : option Z;
  upd_errorMessage : option string;
  upd_qr : option string
}.

(** The socket object as the event handler sees it: its handle and
    [sock.user?.id]. *)
Record Sock : Type := mkSock {
  sock_handle : nat;
  sock_user_id : option string
}.

(** ** The world

    The three [Map]s of the service object, the tables, and the runtime
    around them.  A transport handle is a number; [live] holds the handles
    that [makeWASocket] has opened and that no [logout] has torn down, each
    with the account it was opened for.  [timers] are the [setTimeout]s
    made so far, in order.  [ticks] counts the calls into the transport,
    and [effects] is the log of what was done to collaborators. *)

Record World : Type := mkWorld {
  (* fields of WhatsAppService *)
  sessions : gmap jsval nat;
  retryCount : gmap jsval Z;
  lastConnectionTime : gmap jsval Z;
  (* tables, by primary key *)
  accounts : gmap Z Account;
  campaigns : gmap Z Campaign;
  campaign_messages : gmap Z CampaignMessage;
  activity_logs : list ActivityLog;
  (* runtime *)
  clock : Z;
  ticks : nat;
  timers : list Timer;
  live : gmap nat jsval;
  next_handle : nat;
  effects : list Effect
}.

Definition set_sessions (f : gmap jsval nat → gmap jsval nat) (w : World) : World :=
  mkWorld (f (sessions w)) (retryCount w) (lastConnectionTime w) (accounts w)
          (campaigns w) (campaign_messages w) (activity_logs w) (clock w)
          (ticks w) (timers w) (live w) (next_handle w) (effects w).

Definition set_retryCount (f : gmap jsval Z → gmap jsval Z) (w : World) : World :=
  mkWorld (sessions w) (f (retryCount w)) (lastConnectionTime w) (accounts w)
          (campaigns w) (campaign_messages w) (activity_logs w) (clock w)
          (ticks w) (timers w) (live w) (next_handle w) (effects w).

Definition set_lastConnectionTime (f : gmap jsval Z → gmap jsval Z) (w : World) : World :=
  mkWorld (sessions w) (retryCount w) (f (lastConnectionTime w)) (accounts w)
          (campaigns w) (campaign_messages w) (activity_logs w) (clock w)
          (ticks w) (timers w) (live w) (next_handle w) (effects w).

Definition set_accounts (f : gmap Z Account → gmap Z Account) (w : World) : World :=
  mkWorld (sessions w) (retryCount w) (lastConnectionTime w) (f (accounts w))
          (campaigns w) (campaign_messages w) (activity_logs w) (clock w)
          (ticks w) (timers w) (live w) (next_handle w) (effects w).

Definition set_campaigns (f : gmap Z Campaign → gmap Z Campaign) (w : World) : World :=
  mkWorld (sessions w) (retryCount w) (lastConnectionTime w) (accounts w)
          (f (campaigns w)) (campaign_messages w) (activity_logs w) (clock w)
          (ticks w) (timers w) (live w) (next_handle w) (effects w).

Definition set_campaign_messages
    (f : gmap Z CampaignMessage → gmap Z CampaignMessage) (w : World) : World :=
  mkWorld (sessions w) (retryCount w) (lastConnectionTime w) (accounts w)
          (campaigns w) (f (campaign_messages w)) (activity_logs w) (clock w)
          (ticks w) (timers w) (live w) (next_handle w) (effects w).

Definition set_activity_logs (f : list ActivityLog → list ActivityLog) (w : World) : World :=
  mkWorld (sessions w) (retryCount w) (lastConnectionTime w) (accounts w)
          (campaigns w) (campaign_messages w) (f (activity_logs w)) (clock w)
          (ticks w) (timers w) (live w) (next_handle w) (effects w).

Definition set_clock (f : Z → Z) (w : World) : World :=
  mkWorld (sessions w) (retryCount w) (lastConnectionTime w) (accounts w)
          (campaigns w) (campaign_messages w) (activity_logs w) (f (clock w))
          (ticks w) (timers w) (live w) (next_handle w) (effects w).

Definition set_ticks (f : nat → nat) (w : World) : World :=
  mkWorld (sessions w) (retryCount w) (lastConnectionTime w) (accounts w)
          (campaigns w) (campaign_messages w) (activity_logs w) (clock w)
          (f (ticks w)) (timers w) (live w) (next_handle w) (effects w).

Definition set_timers (f : list Timer → list Timer) (w : World) : World :=
  mkWorld (sessions w) (retryCount w) (lastConnectionTime w) (accounts w)
          (campaigns w) (campaign_messages w) (activity_logs w) (clock w)
          (ticks w) (f (timers w)) (live w) (next_handle w) (effects w).

Definition set_live (f : gmap nat jsval → gmap nat jsval) (w : World) : World :=
  mkWorld (sessions w) (retryCount w) (lastConnectionTime w) (accounts w)
          (campaigns w) (campaign_messages w) (activity_logs w) (clock w)
          (ticks w) (timers w) (f (live w)) (next_handle w) (effects w).

Definition set_next_handle (f : nat → nat) (w : World) : World :=
  mkWorld (sessions w) (retryCount w) (lastConnectionTime w) (accounts w)
          (campaigns w) (campaign_messages w) (activity_logs w) (clock w)
          (ticks w) (timers w) (live w) (f (next_handle w)) (effects w).

Definition set_effects (f : list Effect → list Effect) (w : World) : World :=
  mkWorld (sessions w) (retryCount w) (lastConnectionTime w) (accounts w)
          (campaigns w) (campaign_messages w) (activity_logs w) (clock w)
          (ticks w) (timers w) (live w) (next_handle w) (f (effects w)).

(** ** The monad of [async] methods: state and exceptions *)

Inductive Res (A : Type) : Type :=
  | Ok (a : A)
  | Throw (e : JsError).
Arguments Ok {A} a.
Arguments Throw {A} e.

Definition M (A : Type) : Type := World → Res A * World.

#[global] Instance M_ret : MRet M := λ A a w, (Ok a, w).

#[global] Instance M_bind : MBind M := λ A B f m w,
  match m w with
  | (Ok a, w') => f a w'
  | (Throw e, w') => (Throw e, w')
  end.

Definition throw {A : Type} (e : JsError) : M A := λ w, (Throw e, w).

(** [try { m } catch (e) { h e }] *)
Definition try_catch {A : Type} (m : M A) (h : JsError → M A) : M A := λ w,
  match m w with
  | (Ok a, w') => (Ok a, w')
  | (Throw e, w') => h e w'
  end.

Definition gets {A : Type} (f : World → A) : M A := λ w, (Ok (f w), w).
Definition modify (f : World → World) : M unit := λ w, (Ok tt, f w).
Definition emit (e : Effect) : M unit := modify (set_effects (λ l, l ++ [e])).

(** ** The environment: built-ins and collaborators that are not in the
    repository *)

(** The members of Baileys' [DisconnectReason] that the service reads; a
    member the library does not define reads as [undefined], here [None]. *)
Record DisconnectReasonT : Type := mkDisconnectReason {
  dr_loggedOut : option Z;
  dr_forbidden : option Z;
  dr_banned : option Z;
  dr_multideviceMismatch : option Z
}.

(** What [fs.stat] followed by [fs.readFile] finds at a media path. *)
Inductive MediaProbe : Type :=
  | StatFails (why : string)
  | ReadFails (why : string)
  | MediaBuffer (bytes : string).

Record Env : Type := mkEnv {
  js_parseInt : jsval → jsval;
  js_String : jsval → string;
  js_trim : string → string;
  js_toLowerCase : string → string;
  path_extname : string → string;
  path_basename : string → string;
  (* the row an [id = ?] clause of the persistence layer selects *)
  db_id : jsval → option Z;
  DisconnectReason : DisconnectReasonT;
  QRCode_toDataURL : string → string;
  fs_media : string → MediaProbe;
  (* whether the n-th call into the transport throws, and with what message *)
  ext_throws : nat → option string;
  (* what other tasks did before the i-th status re-read of a dispatch pass *)
  concurrent : nat → World → World
}.

(** Row updates written by the service. *)

Definition account_status (s : AccountStatus) (a : Account) : Account :=
  mkAccount (acc_name a) (acc_phone a) s (acc_qr_code a) (acc_last_connected a).

Definition account_status_qr (s : AccountStatus) (qr : option string) (a : Account) : Account :=
  mkAccount (acc_name a) (acc_phone a) s qr (acc_last_connected a).

Definition account_opened (name : string) (phone : option string) (now : Z)
    (a : Account) : Account :=
  mkAccount name phone AccConnected None (Some now).

Definition campaign_status (s : CampaignStatus) (c : Campaign) : Campaign :=
  mkCampaign (cmp_account_id c) s (cmp_delay_seconds c) (cmp_sent_count c)
             (cmp_failed_count c) (cmp_completed_at c).

Definition campaign_completed (now : Z) (c : Campaign) : Campaign :=
  mkCampaign (cmp_account_id c) CmpCompleted (cmp_delay_seconds c) (cmp_sent_count c)
             (cmp_failed_count c) (Some now).

Definition campaign_increment (sent failed : Z) (c : Campaign) : Campaign :=
  mkCampaign (cmp_account_id c) (cmp_status c) (cmp_delay_seconds c)
             (cmp_sent_count c + sent) (cmp_failed_count c + failed)
             (cmp_completed_at c).

Definition message_sent (now : Z) (m : CampaignMessage) : CampaignMessage :=
  mkCampaignMessage (msg_campaign_id m) (msg_phone m) (msg_message_text m)
                    (msg_media_path m) MsgSent (msg_error_message m) (Some now).

Definition message_failed (why : string) (m : CampaignMessage) : CampaignMessage :=
  mkCampaignMessage (msg_campaign_id m) (msg_phone m) (msg_message_text m)
                    (msg_media_path m) MsgFailed (Some why) (msg_sent_at m).

Inductive LoopCtl : Type := Continue | Break.

(** [order: [['id', 'ASC']]] *)
Definition id_le (a b : Z * CampaignMessage) : Prop := a.1 ≤ b.1.

#[global] Instance id_le_dec (a b : Z * CampaignMessage) : Decision (id_le a b).
Proof. unfold id_le. apply _. Defined.

Section Service.

Context (E : Env).

(** [error.message] *)
Definition message (e : JsError) : string :=
  match e with
  | RateLimited remainingTime accountId =>
      "Rate limited: Wait " +:+ js_String E (JNum remainingTime) +:+
      "s before reconnecting account " +:+ js_String E accountId
  | AccountNotFound => "Account not found"
  | AccountNotConnected => "Account not connected"
  | CampaignNotRunning => "Campaign not found or not running"
  | MediaFileNotFound mediaPath => "Media file not found: " +:+ mediaPath
  | MediaReadFailed why => "Failed to read media file: " +:+ why
  | NullProperty what => "Cannot read properties of null (reading '" +:+ what +:+ "')"
  | CollaboratorError why => why
  end.

(** *** Collaborators *)

(** A call into the transport. *)
Definition external : M unit := λ w,
  match ext_throws E (ticks w) with
  | Some why => (Throw (CollaboratorError why), set_ticks S w)
  | None => (Ok tt, set_ticks S w)
  end.

(** [Date.now()] and [new Date()] *)
Definition Date_now : M Z := gets clock.

(** Baileys' [delay(ms)] *)
Definition delay (ms : Z) : M unit :=
  emit (EvDelay ms);; modify (set_clock (λ t, t + ms)).

Definition setTimeout (t : Timer) : M unit :=
  modify (set_timers (λ l, l ++ [t])).

(** [models.Account] *)
Definition account_row (id : jsval) (w : World) : option Account :=
  db_id E id ≫= λ k, accounts w !! k.

Definition Account_findByPk (id : jsval) : M (option Account) :=
  gets (account_row id).

Definition Account_update (f : Account → Account) (id : jsval) : M unit :=
  modify (set_accounts (λ t,
    match db_id E id with
    | Some k => alter f k t
    | None => t
    end)).

(** [models.Campaign] *)
Definition campaign_row (id : jsval) (w : World) : option Campaign :=
  db_id E id ≫= λ k, campaigns w !! k.

Definition Campaign_findByPk (id : jsval) : M (option Campaign) :=
  gets (campaign_row id).

(** [findOne({ where: { id, status: 'running' } })] *)
Definition Campaign_findOne_running (id : jsval) : M (option Campaign) :=
  gets (λ w,
    campaign_row id w ≫= λ c,
    if decide (cmp_status c = CmpRunning) then Some c else None).

Definition Campaign_update (f : Campaign → Campaign) (id : jsval) : M unit :=
  modify (set_campaigns (λ t,
    match db_id E id with
    | Some k => alter f k t
    | None => t
    end)).

(** [Campaign.increment({ sent_count, failed_count }, { where: { id } })] *)
Definition Campaign_increment_counts (cnt : Z * Z) (id : jsval) : M unit :=
  Campaign_update (campaign_increment cnt.1 cnt.2) id.

(** [models.CampaignMessage] *)
Definition pending_rows (campaignId : jsval) (w : World) : list (Z * CampaignMessage) :=
  match db_id E campaignId with
  | Some k =>
      filter (λ r, msg_campaign_id r.2 = Some k ∧ msg_status r.2 = MsgPending)
             (map_to_list (campaign_messages w))
  | None => []
  end.

(** [findAll({ where: { campaign_id, status: 'pending' }, order: [['id', 'ASC']] })] *)
Definition CampaignMessage_findAll_pending (campaignId : jsval)
    : M (list (Z * CampaignMessage)) :=
  gets (λ w, merge_sort id_le (pending_rows campaignId w)).

Definition CampaignMessage_count_pending (campaignId : jsval) : M Z :=
  gets (λ w, Z.of_nat (length (pending_rows campaignId w))).

Definition CampaignMessage_update (f : CampaignMessage → CampaignMessage) (id : Z)
    : M unit :=
  modify (set_campaign_messages (alter f id)).

(** [models.ActivityLog.create].  [activity_logs.account_id] is a foreign key
    on [accounts.id]: the insert returns when [account_id] selects an account
    row, which is the case this definition gives. *)
Definition ActivityLog_create (account_id : jsval) (action description : string)
    : M unit :=
  modify (set_activity_logs (λ l, l ++ [mkActivityLog account_id action description])).

(** Lines 96-124 of [connectAccount]: the session directory, the auth state
    and [makeWASocket].  The new socket is live from here on. *)
Definition makeWASocket (accountId : jsval) : M nat :=
  external;;
  h ← gets next_handle;
  modify (set_next_handle S);;
  modify (set_live <[h := accountId]>);;
  emit (EvOpen h accountId);;
  mret h.

(** [sock.logout()]: tears the handle down unless the call throws. *)
Definition sock_logout (h : nat) : M unit := λ w,
  match ext_throws E (ticks w) with
  | Some why =>
      (Throw (CollaboratorError why),
       set_effects (λ l, l ++ [EvLogout h false]) (set_ticks S w))
  | None =>
      (Ok tt,
       set_effects (λ l, l ++ [EvLogout h true])
         (set_live (delete h) (set_ticks S w)))
  end.

(** [sock.sendMessage(jid, content)] *)
Definition sock_sendMessage (h : nat) (jid : string) (content : MessageContent)
    : M unit := λ w,
  match ext_throws E (ticks w) with
  | Some why =>
      (Throw (CollaboratorError why),
       set_effects (λ l, l ++ [EvSend h jid content false]) (set_ticks S w))
  | None =>
      (Ok tt, set_effects (λ l, l ++ [EvSend h jid content true]) (set_ticks S w))
  end.

(** What the other tasks did; the effect log is this task's own. *)
Definition interleave (i : nat) (w : World) : World :=
  set_effects (λ _, effects w) (concurrent E i w).

(** *** [WhatsAppService] *)

Definition CONNECTION_COOLDOWN : Z := 30000.

(** [connectAccount(accountId)].  The handlers registered on the new socket
    are closures over [accountId]; [live] keeps that binding. *)
Definition connectAccount (accountId : jsval) : M nat :=
  try_catch
    (lastAttempt ← gets (λ w, lastConnectionTime w !! accountId);
     now ← Date_now;
     if truthy_num lastAttempt && (now - default 0 lastAttempt <? CONNECTION_COOLDOWN)
     then
       let remainingTime :=
         ceil_div (CONNECTION_COOLDOWN - (now - default 0 lastAttempt)) 1000 in
       throw (RateLimited remainingTime accountId)
     else
       modify (set_lastConnectionTime <[accountId := now]>);;
       accountData ← Account_findByPk accountId;
       match accountData with
       | None => throw AccountNotFound
       | Some _ =>
           sock ← makeWASocket accountId;
           modify (set_sessions <[accountId := sock]>);;
           Account_update (account_status AccConnecting) accountId;;
           mret sock
       end)
    (λ error,
       Account_update (account_status AccError) accountId;;
       throw error).

(** [cleanSessionFiles(accountId, aggressive)]: touches only the session
    directory and swallows every error. *)
Definition cleanSessionFiles (accountId : jsval) (aggressive : bool) : M unit :=
  emit (EvCleanSession accountId aggressive).

Definition maxRetries : Z := 5.

(** [Math.min(5000 * Math.pow(3, currentRetries), 300000)] *)
Definition delayMs (currentRetries : Z) : Z :=
  Z.min (5000 * 3 ^ currentRetries) 300000.

(** [scheduleReconnect(accountId, disconnectReason)] *)
Definition scheduleReconnect (accountId : jsval) (disconnectReason : option Z)
    : M unit :=
  currentRetries ← gets (λ w, default 0 (retryCount w !! accountId));
  if maxRetries <=? currentRetries
  then
    Account_update (account_status AccError) accountId;;
    modify (set_retryCount (delete accountId))
  else
    modify (set_retryCount <[accountId := currentRetries + 1]>);;
    Account_update (account_status AccReconnecting) accountId;;
    setTimeout (mkTimer (delayMs currentRetries) accountId disconnectReason).

(** The callback that [scheduleReconnect] hands to [setTimeout]. *)
Definition reconnectTimer (accountId : jsval) (disconnectReason : option Z)
    : M unit :=
  try_catch
    (cleanSessionFiles accountId false;;
     connectAccount accountId;;
     modify (set_retryCount (delete accountId)))
    (λ error, scheduleReconnect accountId disconnectReason).

Definition shouldAttemptReconnect (statusCode : option Z) (errorMessage : string)
    : bool :=
  if bool_decide (statusCode = dr_loggedOut (DisconnectReason E)) then false
  else if negb (String.eqb errorMessage "") && includes errorMessage "rate limit"
  then false
  else if bool_decide (statusCode = dr_forbidden (DisconnectReason E))
          || bool_decide (statusCode = dr_banned (DisconnectReason E))
  then false
  else true.

Definition isPermanentError (statusCode : option Z) : bool :=
  bool_decide (statusCode ∈ [dr_forbidden (DisconnectReason E);
                             dr_banned (DisconnectReason E);
                             dr_multideviceMismatch (DisconnectReason E)]).

(** The three branches of [handleConnectionUpdate]. *)

Definition onQr (accountId : jsval) (qr : string) : M unit :=
  let qrDataURL := QRCode_toDataURL E qr in
  Account_update (account_status_qr AccConnecting (Some qrDataURL)) accountId.

Definition onClose (accountId : jsval) (update : ConnectionUpdate) : M unit :=
  let statusCode := upd_statusCode update in
  let errorMessage := or_str (upd_errorMessage update) "Unknown error" in
  modify (set_sessions (delete accountId));;
  if shouldAttemptReconnect statusCode errorMessage
  then
    if negb (isPermanentError statusCode)
    then scheduleReconnect accountId statusCode
    else Account_update (account_status_qr AccError None) accountId
  else
    Account_update (account_status_qr AccDisconnected None) accountId;;
    modify (set_retryCount (delete accountId));;
    modify (set_lastConnectionTime (delete accountId)).

(** [user.id.split('@')[0].split(':')[0]], when [user && user.id]. *)
Definition detectPhone (sock : Sock) : option string :=
  if truthy_str (sock_user_id sock)
  then Some (split_head ":" (split_head "@" (default "" (sock_user_id sock))))
  else None.

(** [phoneChanged]: set inside [if (user && user.id)], when
    [currentPhone && currentPhone !== detectedPhone]. *)
Definition phone_changed (currentPhone : option string) (sock : Sock) : bool :=
  match detectPhone sock with
  | Some detectedPhone =>
      truthy_str currentPhone
      && negb (bool_decide (currentPhone = Some detectedPhone))
  | None => false
  end.

(** [accounts.phone] is [UNIQUE]: writing [phone] to the row of [id] is
    refused when another row holds that number ([NULL]s do not collide, and
    an update that selects no row writes nothing). *)
Definition phone_taken (id : jsval) (phone : option string) (w : World) : bool :=
  match db_id E id, phone with
  | Some k, Some p =>
      bool_decide (is_Some (accounts w !! k)
                   ∧ Exists (λ r, r.1 ≠ k ∧ acc_phone r.2 = Some p)
                            (map_to_list (accounts w)))
  | _, _ => false
  end.

(** [Account.update] of fields that include [phone]; Sequelize's
    [UniqueConstraintError] has the message "Validation error". *)
Definition Account_update_phone (phone : option string) (f : Account → Account)
    (id : jsval) : M unit :=
  gets (phone_taken id phone) ≫= λ taken : bool,
  if taken then throw (CollaboratorError "Validation error")
  else Account_update f id.

Definition onOpen (accountId : jsval) (sock : Sock) : M unit :=
  currentAccount ← Account_findByPk accountId;
  let accountName :=
    or_str (acc_name <$> currentAccount) ("device-" +:+ js_String E accountId) in
  let detectedPhone := detectPhone sock in
  let currentPhone := currentAccount ≫= acc_phone in
  let phoneChanged := phone_changed currentPhone sock in
  now ← Date_now;
  Account_update_phone detectedPhone
    (account_opened accountName detectedPhone now) accountId;;
  let logDescription :=
    if phoneChanged
    then "Account reconnected with new phone number: " +:+ default "null" detectedPhone
         +:+ " (previously: " +:+ default "null" currentPhone +:+ ")"
    else "Account connected successfully"
         +:+ (if truthy_str detectedPhone
              then " - Phone: " +:+ default "" detectedPhone else "") in
  ActivityLog_create accountId
    (if phoneChanged then "phone_updated" else "connected") logDescription.

(** [handleConnectionUpdate(accountId, accountData, update, sock)] *)
Definition handleConnectionUpdate (accountId : jsval) (accountData : Account)
    (update : ConnectionUpdate) (sock : Sock) : M unit :=
  try_catch
    ((if truthy_str (upd_qr update)
      then onQr accountId (default "" (upd_qr update))
      else mret tt);;
     match upd_connection update with
     | Some ConnClose => onClose accountId update
     | Some ConnOpen => onOpen accountId sock
     | _ => mret tt
     end)
    (λ error, Account_update (account_status AccError) accountId).

(** [forceReconnectAccount(accountId)] *)
Definition forceReconnectAccount (accountId : jsval) : M unit :=
  try_catch
    (existingSock ← gets (λ w, sessions w !! accountId);
     match existingSock with
     | Some h =>
         try_catch (sock_logout h) (λ logoutError, mret tt);;
         modify (set_sessions (delete accountId))
     | None => mret tt
     end;;
     modify (set_retryCount (delete accountId));;
     modify (set_lastConnectionTime (delete accountId));;
     cleanSessionFiles accountId true;;
     Account_update (account_status_qr AccConnecting None) accountId;;
     connectAccount accountId;;
     mret tt)
    (λ error,
       Account_update (account_status AccError) accountId;;
       throw error).

(** [disconnectAccount(accountId)]: the second definition in the class body,
    which is the one in force. *)
Definition disconnectAccount (accountId : jsval) : M unit :=
  try_catch
    (sock ← gets (λ w, sessions w !! accountId);
     match sock with
     | Some h => sock_logout h
     | None => mret tt
     end;;
     modify (set_sessions (delete accountId));;
     modify (set_retryCount (delete accountId));;
     modify (set_lastConnectionTime (delete accountId));;
     Account_update (account_status_qr AccDisconnected None) accountId)
    (λ error, mret tt).

(** [getMimeType(filePath)] *)
Definition mimeTypes : list (string * string) :=
  [ (".jpg", "image/jpeg"); (".jpeg", "image/jpeg"); (".png", "image/png");
    (".gif", "image/gif"); (".webp", "image/webp"); (".mp4", "video/mp4");
    (".mov", "video/quicktime"); (".avi", "video/x-msvideo");
    (".mp3", "audio/mpeg"); (".wav", "audio/wav"); (".ogg", "audio/ogg");
    (".pdf", "application/pdf"); (".doc", "application/msword");
    (".docx", "application/vnd.openxmlformats-officedocument.wordprocessingml.document");
    (".xls", "application/vnd.ms-excel");
    (".xlsx", "application/vnd.openxmlformats-officedocument.spreadsheetml.sheet") ].

Definition getMimeType (filePath : string) : string :=
  let ext := js_toLowerCase E (path_extname E filePath) in
  match list_find (λ kv, kv.1 = ext) mimeTypes with
  | Some (_, kv) => kv.2
  | None => "application/octet-stream"
  end.

(** [message && message.trim()], the caption of a media message. *)
Definition caption_of (message : option string) : option string :=
  if truthy_str message && negb (String.eqb (js_trim E (default "" message)) "")
  then Some (js_trim E (default "" message))
  else None.

(** The [if (mediaPath)] block of [sendMessage]. *)
Definition mediaContent (message : option string) (mediaPath : string)
    (mimeType originalName : option string) : M MessageContent :=
  match fs_media E mediaPath with
  | StatFails _ => throw (MediaFileNotFound mediaPath)
  | ReadFails why => throw (MediaReadFailed why)
  | MediaBuffer mediaBuffer =>
      let finalMimeType := or_str mimeType (getMimeType mediaPath) in
      if String.prefix "image/" finalMimeType
      then mret (ImageContent mediaBuffer (caption_of message))
      else if String.prefix "video/" finalMimeType
      then mret (VideoContent mediaBuffer (caption_of message))
      else if String.prefix "audio/" finalMimeType
      then mret (AudioContent mediaBuffer finalMimeType)
      else
        let fileName := or_str originalName (path_basename E mediaPath) in
        mret (DocumentContent mediaBuffer finalMimeType fileName (caption_of message))
  end.

(** The session lookup of [sendMessage]: the numeric key first, then the
    string key. *)
Definition lookupSession (accountId : jsval) : M (option nat) :=
  gets (λ w,
    match sessions w !! js_parseInt E accountId with
    | Some sock => Some sock
    | None => sessions w !! JStr (js_String E accountId)
    end).

(** [sendMessage(accountId, phone, message, mediaPath, mimeType, originalName)] *)
Definition sendMessage (accountId : jsval) (phone : string) (text : option string)
    (mediaPath mimeType originalName : option string) : M unit :=
  try_catch
    (sock ← lookupSession accountId;
     match sock with
     | None => throw AccountNotConnected
     | Some h =>
         let jid :=
           if includes phone "@" then phone else phone +:+ "@s.whatsapp.net" in
         messageContent ←
           (if truthy_str mediaPath
            then mediaContent text (default "" mediaPath) mimeType originalName
            else mret (TextContent text));
         sock_sendMessage h jid messageContent;;
         ActivityLog_create accountId "message_sent" ("Message sent to " +:+ phone)
     end)
    (λ error,
       ActivityLog_create accountId "message_failed"
         ("Failed to send message to " +:+ phone +:+ ": " +:+ message error);;
       throw error).

(** One iteration of the [for (const messageData of pendingMessages)] loop
    of [sendBulkMessages], with its [try]/[catch]; [cnt] is
    [(sentCount, failedCount)].  Nothing after [sentCount++] throws, so the
    counters the handler sees are those at the start of the iteration. *)
Definition dispatchOne (campaignId accountId : jsval) (campaign : Campaign)
    (i : nat) (messageData : Z * CampaignMessage) (cnt : Z * Z)
    : M (LoopCtl * (Z * Z)) :=
  try_catch
    (modify (interleave i);;
     currentCampaign ← Campaign_findByPk campaignId;
     if bool_decide (cmp_status <$> currentCampaign = Some CmpRunning)
     then
       sendMessage accountId (msg_phone messageData.2)
         (msg_message_text messageData.2) (msg_media_path messageData.2) None None;;
       now ← Date_now;
       CampaignMessage_update (message_sent now) messageData.1;;
       delay (cmp_delay_seconds campaign * 1000);;
       mret (Continue, (cnt.1 + 1, cnt.2))
     else mret (Break, cnt))
    (λ error,
       CampaignMessage_update (message_failed (message error)) messageData.1;;
       mret (Continue, (cnt.1, cnt.2 + 1))).

Fixpoint dispatchLoop (campaignId accountId : jsval) (campaign : Campaign)
    (i : nat) (pendingMessages : list (Z * CampaignMessage)) (cnt : Z * Z)
    : M (LoopCtl * (Z * Z)) :=
  match pendingMessages with
  | [] => mret (Continue, cnt)
  | messageData :: rest =>
      r ← dispatchOne campaignId accountId campaign i messageData cnt;
      match r.1 with
      | Break => mret r
      | Continue => dispatchLoop campaignId accountId campaign (S i) rest r.2
      end
  end.

(** The part of [sendBulkMessages] after the loop: the campaign's counters,
    and its completion when no message is left [pending]. *)
Definition finishPass (campaignId : jsval) (cnt : Z * Z) : M (Z * Z) :=
  Campaign_increment_counts cnt campaignId;;
  remainingCount ← CampaignMessage_count_pending campaignId;
  (if remainingCount =? 0
   then now ← Date_now;
        Campaign_update (campaign_completed now) campaignId
   else mret tt);;
  mret cnt.

(** [sendBulkMessages(campaignId)].  [campaign.account] is the row joined in
    by the [include]; reading [.id] of a missing one throws. *)
Definition sendBulkMessages (campaignId : jsval) : M (Z * Z) :=
  try_catch
    (campaign ← Campaign_findOne_running campaignId;
     match campaign with
     | None => throw CampaignNotRunning
     | Some c =>
         account ← gets (λ w, accounts w !! cmp_account_id c);
         match account with
         | None => throw (NullProperty "id")
         | Some _ =>
             let accountId := JNum (cmp_account_id c) in
             pendingMessages ← CampaignMessage_findAll_pending campaignId;
             r ← dispatchLoop campaignId accountId c 0 pendingMessages (0, 0);
             finishPass campaignId r.2
         end
     end)
    (λ error,
       Campaign_update (campaign_status CmpCancelled) campaignId;;
       throw error).

(** *** Runs used to state the properties *)

(** The account has no reservation, or the cooldown window has elapsed
    since the last one. *)
Definition cooledDown (accountId : jsval) (w : World) : Prop :=
  lastConnectionTime w !! accountId = None
  ∨ ∃ t, lastConnectionTime w !! accountId = Some t
         ∧ CONNECTION_COOLDOWN ≤ clock w - t.

(** Time passes. *)
Definition elapse (ms : Z) (w : World) : World := set_clock (λ t, t + ms) w.

(** The timer set last fires, [timer_delayMs] after it was set. *)
Definition fireTimer (w : World) : World :=
  match last (timers w) with
  | Some t =>
      (reconnectTimer (timer_accountId t) (timer_disconnectReason t)
         (elapse (timer_delayMs t) w)).2
  | None => w
  end.

(** The reconnection attempt of that timer throws. *)
Definition timerFails (w : World) : Prop :=
  match last (timers w) with
  | Some t =>
      ∃ error,
        (connectAccount (timer_accountId t)
           (cleanSessionFiles (timer_accountId t) false
              (elapse (timer_delayMs t) w)).2).1
        = Throw error
  | None => False
  end.

(** A transient close has been handled by [scheduleReconnect], and then [n]
    reconnection timers have fired, each when it was due. *)
Definition afterFailures (accountId : jsval) (disconnectReason : option Z)
    (n : nat) (w : World) : World :=
  Nat.iter n fireTimer (scheduleReconnect accountId disconnectReason w).2.

(** The world in which the dispatch loop re-reads the campaign status for
    the [i]-th time. *)
Definition observed (campaignId : jsval) (i : nat) (w : World) : option Campaign :=
  campaign_row campaignId (interleave i w).


End Service.

(** ** Pacing of an effect log

    After a successful send a sleep of [d] milliseconds is owed; while it is
    owed nothing else may happen, and the log may not end. *)
Fixpoint paced_from (owed : bool) (d : Z) (log : list Effect) : bool :=
  match log with
  | [] => negb owed
  | EvSend _ _ _ ok :: log' => negb owed && paced_from ok d log'
  | EvDelay ms :: log' => owed && (ms =? d) && paced_from false d log'
  | _ :: _ => false
  end.

Definition paced (d : Z) (log : list Effect) : bool := paced_from false d log.

Definition sleeps (log : list Effect) : list Z :=
  omap (λ e, match e with EvDelay ms => Some ms | _ => None end) log.

(** The recipients of the sends that succeeded. *)
Definition delivered (log : list Effect) : list string :=
  omap (λ e, match e with EvSend _ jid _ true => Some jid | _ => None end) log.



(** ** The rest of the service, and its callers *)

(** [new Error(msg)]: an error known by its message only. *)
Definition ErrorOf (msg : string) : JsError := CollaboratorError msg.

(** An uploaded file as multer hands it over ([path], [mimetype],
    [originalname]); [sendMediaMessage] also accepts a bare path. *)
Record UploadedFile : Type := mkUploadedFile {
  file_path : string;
  file_mimetype : option string;
  file_originalname : option string
}.

(** [getAccountStatus(accountId)] *)
Definition getAccountStatus (accountId : jsval) (w : World) : AccountStatus :=
  match sessions w !! accountId with
  | Some _ => AccConnected
  | None => AccDisconnected
  end.

(** *** [cleanSessionFiles]: which files go

    The directory is the list of its file names; [unlink_ok] tells whether
    [fs.unlink] of a file returns.  A throw inside the loop over one pattern
    is caught around that loop: the rest of the pattern is skipped. *)

Definition filesToClean : list string :=
  [ "app-state-sync-version.json"; "session-*.json"; "sender-keys.json" ].

(** [s.replace(c, '')]: the first [c] taken out. *)
Fixpoint replace_first (c : ascii) (s : string) : string :=
  match s with
  | EmptyString => EmptyString
  | String a s' => if Ascii.eqb a c then s' else String a (replace_first c s')
  end.

(** [filePattern.includes('*') ? file.includes(filePattern.replace('*', ''))
    : file === filePattern] *)
Definition cleanMatches (filePattern file : string) : bool :=
  if includes filePattern "*"
  then includes file (replace_first "*" filePattern)
  else String.eqb file filePattern.

(** The loop over [files], the listing read for one pattern. *)
Fixpoint cleanPattern (unlink_ok : string → bool) (filePattern : string)
    (files dir : list string) : list string :=
  match files with
  | [] => dir
  | file :: rest =>
      if cleanMatches filePattern file
      then if unlink_ok file
           then cleanPattern unlink_ok filePattern rest
                  (filter (λ f, f ≠ file) dir)
           else dir
      else cleanPattern unlink_ok filePattern rest dir
  end.

(** What [cleanSessionFiles] leaves of the session directory; [None] is a
    path that does not exist.  [remove_ok] tells whether [fs.remove] of the
    directory returns; its throw is caught by the outer handler. *)
Definition cleanSessionDir (aggressive remove_ok : bool) (unlink_ok : string → bool)
    (dir : option (list string)) : option (list string) :=
  match dir with
  | None => None
  | Some files =>
      if aggressive
      then if remove_ok then Some [] else Some files
      else Some (foldl (λ d filePattern, cleanPattern unlink_ok filePattern d d)
                       files filesToClean)
  end.

(** The file matches one of the patterns of [filesToClean]. *)
Definition cleanable (file : string) : bool :=
  existsb (λ filePattern, cleanMatches filePattern file) filesToClean.

(** *** The campaign routes that drive the dispatcher

    Each answers with its HTTP status; [true] says that the route has set
    the timer that calls [sendBulkMessages] a second later. *)

Section Operations.

Context (E : Env).

(** [Campaign.update(fields, { where: { id, status in allowed } })], with
    the number of rows it changed. *)
Definition Campaign_update_where (allowed : list CampaignStatus)
    (f : Campaign → Campaign) (id : jsval) : M nat := λ w,
  match campaign_row E id w with
  | Some c =>
      if bool_decide (cmp_status c ∈ allowed)
      then (Ok 1%nat, (Campaign_update E f id w).2)
      else (Ok 0%nat, w)
  | None => (Ok 0%nat, w)
  end.

(** [POST /:id/start]; [started_at], which nothing reads, is not kept. *)
Definition route_start (id : jsval) : M (Z * bool) :=
  updated ← Campaign_update_where [CmpDraft] (campaign_status CmpRunning) id;
  if bool_decide (updated = 0%nat) then mret (400, false) else mret (200, true).

(** [POST /:id/pause] *)
Definition route_pause (id : jsval) : M (Z * bool) :=
  updated ← Campaign_update_where [CmpRunning] (campaign_status CmpPaused) id;
  if bool_decide (updated = 0%nat) then mret (400, false) else mret (200, false).

(** [POST /:id/resume] *)
Definition route_resume (id : jsval) : M (Z * bool) :=
  updated ← Campaign_update_where [CmpPaused] (campaign_status CmpRunning) id;
  if bool_decide (updated = 0%nat) then mret (400, false) else mret (200, true).

(** [POST /:id/cancel] *)
Definition route_cancel (id : jsval) : M (Z * bool) :=
  updated ← Campaign_update_where [CmpRunning; CmpPaused; CmpDraft]
              (campaign_status CmpCancelled) id;
  if bool_decide (updated = 0%nat) then mret (400, false) else mret (200, false).

(** A request to one of the four control routes. *)
Inductive Control : Type :=
  | Start (id : jsval) | Pause (id : jsval) | Resume (id : jsval) | Cancel (id : jsval).

Definition control (c : Control) : M (Z * bool) :=
  match c with
  | Start id => route_start id
  | Pause id => route_pause id
  | Resume id => route_resume id
  | Cancel id => route_cancel id
  end.

(** The requests of a list, one after the other. *)
Fixpoint controls (cs : list Control) (w : World) : World :=
  match cs with
  | [] => w
  | c :: rest => controls rest (control c w).2
  end.

(** *** [sendTextMessage], [sendMediaMessage] *)

(** [sendTextMessage(accountId, toNumber, message)] *)
Definition sendTextMessage (accountId : jsval) (toNumber text : string) : M unit :=
  try_catch
    (sock ← lookupSession E accountId;
     match sock with
     | None =>
         throw (ErrorOf ("Account " +:+ js_String E accountId +:+ " is not connected"))
     | Some h =>
         let formattedNumber :=
           if includes toNumber "@" then toNumber else toNumber +:+ "@s.whatsapp.net" in
         sock_sendMessage E h formattedNumber (TextContent (Some text))
     end)
    (λ error, throw (ErrorOf ("Failed to send message: " +:+ message E error))).

(** [sendMediaMessage(accountId, toNumber, mediaFileOrPath, caption)] *)
Definition sendMediaMessage (accountId : jsval) (toNumber : string)
    (mediaFileOrPath : string + UploadedFile) (caption : string) : M unit :=
  try_catch
    (match mediaFileOrPath with
     | inl mediaPath =>
         sendMessage E accountId toNumber (Some caption) (Some mediaPath)
           (Some (getMimeType E mediaPath)) None
     | inr file =>
         let mimeType :=
           or_str (file_mimetype file)
             (getMimeType E (or_str (file_originalname file) (file_path file))) in
         sendMessage E accountId toNumber (Some caption) (Some (file_path file))
           (Some mimeType) (file_originalname file)
     end)
    (λ error, throw error).

(** *** [initialize], [disconnectAll] *)

(** The [for (const account of accounts)] loop of [initialize]. *)
Fixpoint connectEach (accounts : list (Z * Account)) : M unit :=
  match accounts with
  | [] => mret tt
  | account :: rest =>
      try_catch
        (connectAccount E (JNum account.1);; mret tt)
        (λ accountError,
           Account_update E (account_status AccError) (JNum account.1));;
      connectEach rest
  end.

(** [findAll({ where: { status: { [Op.ne]: 'disconnected' } } })]; the query
    gives no order, the rows come as the table lists them. *)
Definition accounts_to_connect (w : World) : list (Z * Account) :=
  filter (λ r, acc_status r.2 ≠ AccDisconnected) (map_to_list (accounts w)).

(** [initialize()]: the sessions directory is made first; whatever throws is
    caught. *)
Definition initialize : M unit :=
  try_catch
    (external E;;
     accounts ← gets accounts_to_connect;
     connectEach accounts)
    (λ error, mret tt).

(** The [for (const [accountId, sock] of this.sessions)] loop of
    [disconnectAll]. *)
Fixpoint logoutEach (sessions : list (jsval * nat)) : M unit :=
  match sessions with
  | [] => mret tt
  | entry :: rest =>
      try_catch (sock_logout E entry.2) (λ error, mret tt);;
      logoutEach rest
  end.

(** [disconnectAll()].  A [Map] is walked in insertion order, which the
    world does not keep; the entries are taken as the map lists them.
    [stores], which the class never writes, is left out. *)
Definition disconnectAll : M unit :=
  entries ← gets (λ w, map_to_list (sessions w));
  logoutEach entries;;
  modify (set_sessions (λ _, ∅));;
  modify (set_retryCount (λ _, ∅));;
  modify (set_lastConnectionTime (λ _, ∅)).

End Operations.

(** A close whose reason is none that the classification knows, and whose
    message does not speak of a rate limit. *)
Definition transientClose (E : Env) (update : ConnectionUpdate) : Prop :=
  upd_statusCode update ≠ dr_loggedOut (DisconnectReason E)
  ∧ upd_statusCode update ≠ dr_forbidden (DisconnectReason E)
  ∧ upd_statusCode update ≠ dr_banned (DisconnectReason E)
  ∧ upd_statusCode update ≠ dr_multideviceMismatch (DisconnectReason E)
  ∧ includes (or_str (upd_errorMessage update) "Unknown error") "rate limit" = false.

(** ** Operations on the service, as its callers and the runtime make them *)



(** ** Invariants of the retry bookkeeping *)





(** ** Dispatch passes *)

(** What a pass does with one message when all goes well. *)
Definition sent_and_slept (h : nat) (d : Z) (m : Z * CampaignMessage) : list Effect :=
  [ EvSend h (if includes (msg_phone m.2) "@" then msg_phone m.2
              else msg_phone m.2 +:+ "@s.whatsapp.net")
      (TextContent (msg_message_text m.2)) true;
    EvDelay d ].

#[global] Instance id_le_total : Total id_le.
Proof. intros x y. unfold id_le. lia. Qed.

#[global] Instance id_le_trans : Transitive id_le.
Proof. intros x y z. unfold id_le. lia. Qed.

(** ** A concrete environment

    Identifiers are integers and their decimal spellings; the built-ins are
    given on those.  The general results below do not depend on it. *)

Module Sample.

Definition digit_of (a : ascii) : option Z :=
  let d := Z.of_nat (nat_of_ascii a) - 48 in
  if (0 <=? d) && (d <=? 9) then Some d else None.

(** The value of the longest prefix of digits, if the string starts with one. *)
Fixpoint digits_prefix (acc : option Z) (s : string) : option Z :=
  match s with
  | EmptyString => acc
  | String a s' =>
      match digit_of a with
      | Some d => digits_prefix (Some (10 * default 0 acc + d)) s'
      | None => acc
      end
  end.

Fixpoint all_digits (s : string) : bool :=
  match s with
  | EmptyString => true
  | String a s' => bool_decide (is_Some (digit_of a)) && all_digits s'
  end.

Definition parseInt (v : jsval) : jsval :=
  match v with
  | JNum n => JNum n
  | JNaN => JNaN
  | JStr s =>
      match digits_prefix None s with
      | Some n => JNum n
      | None => JNaN
      end
  end.

Definition toString (v : jsval) : string :=
  match v with
  | JNum n => pretty n
  | JNaN => "NaN"
  | JStr s => s
  end.

Definition row_id (v : jsval) : option Z :=
  match v with
  | JNum n => Some n
  | JNaN => None
  | JStr s => if all_digits s then digits_prefix None s else None
  end.

Fixpoint drop_spaces (s : string) : string :=
  match s with
  | String " " s' => drop_spaces s'
  | _ => s
  end.

Definition trim (s : string) : string :=
  String.rev (drop_spaces (String.rev (drop_spaces s))).

Definition lower (a : ascii) : ascii :=
  let n := nat_of_ascii a in
  if ((65 <=? n) && (n <=? 90))%nat then ascii_of_nat (n + 32) else a.

Fixpoint toLowerCase (s : string) : string :=
  match s with
  | EmptyString => EmptyString
  | String a s' => String (lower a) (toLowerCase s')
  end.

(** The part after the last [c], or the whole string. *)
Fixpoint after_last (c : ascii) (s : string) : string :=
  match s with
  | EmptyString => EmptyString
  | String a s' =>
      if includes s' (String c EmptyString) then after_last c s'
      else if Ascii.eqb a c then s' else s
  end.

Definition basename (p : string) : string := after_last "/" p.

Definition extname (p : string) : string :=
  let b := basename p in
  match b with
  | EmptyString => ""
  | String _ rest =>
      if includes rest "." then "." +:+ after_last "." rest else ""
  end.

(** Baileys' enum, which has no member [banned]. *)
Definition reasons : DisconnectReasonT :=
  mkDisconnectReason (Some 401) (Some 403) None (Some 411).

Definition env (throws : nat → option string) (conc : nat → World → World) : Env :=
  mkEnv parseInt toString trim toLowerCase extname basename row_id reasons
        (λ qr, "data:image/png;base64," +:+ qr)
        (λ _, StatFails "ENOENT") throws conc.

Definition reliable : nat → option string := λ _, None.
Definition unreachable : nat → option string := λ _, Some "Connection Failure".
Definition alone : nat → World → World := λ _ w, w.

(** [POST /:id/pause] of the campaign routes. *)
Definition pause (k : Z) (w : World) : World :=
  set_campaigns
    (alter (λ c, if decide (cmp_status c = CmpRunning)
                 then campaign_status CmpPaused c else c) k) w.

Definition account0 : Account :=
  mkAccount "sales" (Some "6281234") AccConnected None (Some 1000).

Definition campaign0 (s : CampaignStatus) : Campaign :=
  mkCampaign 7 s 2 0 0 None.

Definition message0 (phone : string) : CampaignMessage :=
  mkCampaignMessage (Some 1) phone (Some "hello") None MsgPending None None.

(** Account 7 exists; nothing is connected. *)
Definition idle : World :=
  mkWorld ∅ ∅ ∅ {[ 7 := account0 ]} ∅ ∅ [] 1700000000000 0%nat [] ∅ 0%nat [].

(** Account 7 is connected on handle 0 under the numeric key. *)
Definition online : World :=
  mkWorld {[ JNum 7 := 0%nat ]} ∅ {[ JNum 7 := 1699999000000 ]}
          {[ 7 := account0 ]} ∅ ∅ [] 1700000000000 0%nat []
          {[ 0%nat := JNum 7 ]} 1%nat [].

(** Campaign 1 of account 7 with the given pending messages. *)
Definition with_campaign (s : CampaignStatus) (ms : list (Z * CampaignMessage))
    (w : World) : World :=
  set_campaign_messages (λ _, list_to_map ms)
    (set_campaigns (λ _, {[ 1 := campaign0 s ]}) w).

(** Account 7 is being retried for the third time and has been connected by
    hand meanwhile. *)
Definition retrying : World := set_retryCount (λ _, {[ JNum 7 := 3 ]}) online.

Definition three_pending : World :=
  with_campaign CmpRunning
    [ (1, message0 "111"); (2, message0 "222"); (3, message0 "333") ] online.

Definition two_pending : World :=
  with_campaign CmpRunning [ (1, message0 "111"); (2, message0 "222") ] online.

(** The account of the campaign is not connected. *)
Definition two_pending_offline : World :=
  with_campaign CmpRunning [ (1, message0 "111"); (2, message0 "222") ] idle.

Definition closed (statusCode : Z) : ConnectionUpdate :=
  mkUpdate (Some ConnClose) (Some statusCode) (Some "Connection Failure") None.

Definition opened : ConnectionUpdate := mkUpdate (Some ConnOpen) None None None.

Definition sock0 : Sock := mkSock 0 (Some "6289999:12@s.whatsapp.net").

(** Every call into the transport returns, and nobody interferes. *)
Definition up : Env := env reliable alone.

(** Every call into the transport throws. *)
Definition down : Env := env unreachable alone.

(** Campaign 1 is paused while the first message of a pass is under way. *)
Definition paused_midway : Env :=
  env reliable (λ i w, if decide (i = 1%nat) then pause 1 w else w).

(** The runs that the concrete statements below are about. *)

Definition after_forbidden : World :=
  (handleConnectionUpdate up (JNum 7) account0 (closed 403) sock0 online).2.


Definition after_open : World :=
  (handleConnectionUpdate up (JNum 7) account0 opened sock0 retrying).2.

Definition second_connect : Res nat * World :=
  connectAccount up (JNum 7) (elapse 60000 online).

Definition hasty_connect : Res nat * World :=
  connectAccount up (JNum 7) (elapse 12500 (connectAccount up (JNum 7) idle).2).


Definition paused_pass : Res (Z * Z) * World :=
  sendBulkMessages paused_midway (JStr "1") three_pending.

Definition idle_pass : Res (Z * Z) * World :=
  sendBulkMessages up (JStr "1") (with_campaign CmpPaused [] online).

(** A close whose message speaks of a rate limit. *)
Definition rate_limited_close : ConnectionUpdate :=
  mkUpdate (Some ConnClose) (Some 428) (Some "rate limit exceeded") None.

(** Account 7 has just been connected from [idle]. *)
Definition just_connected : World := (connectAccount up (JNum 7) idle).2.

(** The media files that exist. *)
Definition stored (p : string) : MediaProbe :=
  if String.eqb p "uploads/voice.ogg" then MediaBuffer "OggS"
  else if String.eqb p "uploads/notes.xyz" then MediaBuffer "notes"
  else if String.eqb p "uploads/ab12" then MediaBuffer "PNG"
  else StatFails "ENOENT".

Definition with_files : Env :=
  mkEnv parseInt toString trim toLowerCase extname basename row_id reasons
        (λ qr, "data:image/png;base64," +:+ qr) stored reliable alone.

(** An upload declared as a PNG image under the name of a PDF. *)
Definition upload0 : UploadedFile :=
  mkUploadedFile "uploads/ab12" (Some "image/png") (Some "report.pdf").

(** A session directory of Baileys' multi-file auth state. *)
Definition session_dir : list string :=
  [ "creds.json"; "app-state-sync-version.json"; "session-6281.json";
    "sender-keys.json"; "pre-key-1.json" ].

(** Campaign 1 has not been started. *)
Definition drafted : World :=
  with_campaign CmpDraft [ (1, message0 "111"); (2, message0 "222") ] online.

(** Campaign 1 is over. *)
Definition finished : World := with_campaign CmpCompleted [] online.

(** A fresh process: account 7 was connected when the last one stopped,
    account 8 was not. *)
Definition at_boot : World :=
  mkWorld ∅ ∅ ∅ {[ 7 := account0; 8 := account_status AccDisconnected account0 ]}
          ∅ ∅ [] 1700000000000 0%nat [] ∅ 0%nat [].


(** Account 8 holds the number that [sock0] resolves to. *)
Definition shared_number : World :=
  set_accounts
    <[ 8 := mkAccount "support" (Some "6289999") AccDisconnected None None ]>
    retrying.

(** The connection of account 7 closes for a transient reason; the timer
    fires when it is due. *)
Definition close_and_retry (w : World) : World :=
  fireTimer up (handleConnectionUpdate up (JNum 7) account0 (closed 428) sock0 w).2.

(** It closes again after the reconnection attempt. *)
Definition reclosed : World :=
  (handleConnectionUpdate up (JNum 7) account0 (closed 428) sock0
     (close_and_retry online)).2.

(** Account 7 is connected under the number and then under the string of
    the connect route, one second later. *)
Definition string_connect : Res nat * World :=
  connectAccount up (JStr "7") (elapse 1000 (connectAccount up (JNum 7) idle).2).

End Sample.

(** * Properties *)

Section Properties.

Context (E : Env).

Ltac unmonad :=
  unfold try_catch, throw, gets, modify, emit, mbind, M_bind, mret, M_ret in *.

(** ** Rows after an update *)

Lemma account_row_update f id w :
  account_row E id (Account_update E f id w).2 = f <$> account_row E id w.
Proof.
  unfold account_row, Account_update. unmonad. cbn.
  destruct (db_id E id) as [k|]; cbn; [|done].
  by rewrite lookup_alter_eq.
Qed.

Lemma campaign_row_update f id w :
  campaign_row E id (Campaign_update E f id w).2 = f <$> campaign_row E id w.
Proof.
  unfold campaign_row, Campaign_update. unmonad. cbn.
  destruct (db_id E id) as [k|]; cbn; [|done].
  by rewrite lookup_alter_eq.
Qed.

(** ** Close events *)


Lemma shouldAttemptReconnect_blocked statusCode errorMessage :
  statusCode = dr_forbidden (DisconnectReason E)
  ∨ statusCode = dr_banned (DisconnectReason E) →
  shouldAttemptReconnect E statusCode errorMessage = false.
Proof.
  intros Hcode. unfold shouldAttemptReconnect.
  destruct (bool_decide (statusCode = dr_loggedOut _)); [done|].
  destruct (negb _ && _); [done|].
  destruct Hcode as [-> | ->]; repeat case_bool_decide; done.
Qed.

(** What the handler does on a close event that it does not retry. *)
Lemma close_without_retry accountId accountData update sock w :
  upd_connection update = Some ConnClose →
  shouldAttemptReconnect E (upd_statusCode update)
    (or_str (upd_errorMessage update) "Unknown error") = false →
  let w' := (handleConnectionUpdate E accountId accountData update sock w).2 in
  account_row E accountId w'
    = account_status_qr AccDisconnected None <$> account_row E accountId w
  ∧ timers w' = timers w
  ∧ effects w' = effects w
  ∧ live w' = live w
  ∧ sessions w' = delete accountId (sessions w)
  ∧ retryCount w' = delete accountId (retryCount w)
  ∧ lastConnectionTime w' = delete accountId (lastConnectionTime w).
Proof.
  intros Hc Hs. unfold handleConnectionUpdate. rewrite Hc.
  unfold onClose. rewrite Hs.
  destruct (truthy_str (upd_qr update));
    unfold onQr, Account_update, account_row; unmonad; cbn;
    (destruct (db_id E accountId) as [k|]; cbn;
     [rewrite !lookup_alter_eq; by destruct (accounts w !! k)|done]).
Qed.


(** C2, as the code has it: a close event whose reason is [forbidden] or
    [banned] schedules no reconnect, but the status it persists is
    [disconnected], not [error]: [shouldAttemptReconnect] answers [false]
    for these reasons, so the branch that consults [isPermanentError] and
    persists [error] is not reached. *)
Theorem forbidden_close_persists_disconnected accountId accountData update sock w a :
  upd_connection update = Some ConnClose →
  upd_statusCode update = dr_forbidden (DisconnectReason E)
  ∨ upd_statusCode update = dr_banned (DisconnectReason E) →
  account_row E accountId w = Some a →
  let w' := (handleConnectionUpdate E accountId accountData update sock w).2 in
  isPermanentError E (upd_statusCode update) = true
  ∧ acc_status <$> account_row E accountId w' = Some AccDisconnected
  ∧ timers w' = timers w.
Proof.
  intros Hc Hcode Ha.
  destruct (close_without_retry accountId accountData update sock w Hc)
    as (Hrow & Ht & _).
  { by apply shouldAttemptReconnect_blocked. }
  cbn zeta. rewrite Hrow, Ht, Ha. split; [|done].
  unfold isPermanentError. apply bool_decide_eq_true_2.
  destruct Hcode as [-> | ->]; set_solver.
Qed.


(** ** Open events *)

(** The audit entry says [phone_updated] exactly when an identity was
    resolved and a non-empty stored phone differs from it. *)
Lemma phone_changed_spec stored sock :
  phone_changed stored sock = true
  ↔ ∃ detected previous,
      detectPhone sock = Some detected
      ∧ stored = Some previous
      ∧ previous ≠ ""
      ∧ previous ≠ detected.
Proof.
  unfold phone_changed. destruct (detectPhone sock) as [d|].
  - destruct stored as [p|]; cbn.
    + destruct (String.eqb_spec p "") as [Hempty|Hfull]; cbn.
      * split; [done|]. intros (? & ? & _ & [= <-] & Hne & _). done.
      * case_bool_decide as Heq; cbn.
        -- split; [done|].
           intros (d' & p' & [= <-] & [= <-] & _ & Hne). congruence.
        -- split; [|done]. intros _. exists d, p.
           repeat split; try done. congruence.
    + split; [done|]. intros (? & ? & _ & ? & _). done.
  - split; [done|]. intros (? & ? & ? & _). done.
Qed.

(** When the [UNIQUE] constraint of [accounts.phone] refuses a number. *)
Lemma phone_taken_spec id phone w :
  phone_taken E id phone w = true
  ↔ ∃ k p k' a',
      db_id E id = Some k ∧ phone = Some p ∧ is_Some (accounts w !! k)
      ∧ accounts w !! k' = Some a' ∧ k' ≠ k ∧ acc_phone a' = Some p.
Proof.
  unfold phone_taken. destruct (db_id E id) as [k|].
  2: { split; [done|]. intros (? & ? & ? & ? & ? & _). done. }
  destruct phone as [p|].
  2: { split; [done|]. intros (? & ? & ? & ? & _ & ? & _). done. }
  rewrite bool_decide_eq_true, Exists_exists. split.
  - intros (Hrow & [k' a'] & Hin & Hne & Hp).
    apply elem_of_map_to_list in Hin. exists k, p, k', a'. done.
  - intros (? & ? & k' & a' & [= <-] & [= <-] & Hrow & Hin & Hne & Hp).
    split; [done|]. exists (k', a'). split; [|done]. by apply elem_of_map_to_list.
Qed.

(** A write to the row of [id] that leaves its phone alone does not change
    what the constraint refuses for [id]. *)
Lemma phone_taken_update f id phone w :
  phone_taken E id phone (Account_update E f id w).2 = phone_taken E id phone w.
Proof.
  destruct (phone_taken E id phone w) eqn:Ht.
  - apply phone_taken_spec in Ht as (k & p & k' & a' & Hid & -> & Hrow & Hin & Hne & Hp).
    apply phone_taken_spec. exists k, p, k', a'.
    unfold Account_update. unmonad. cbn. rewrite Hid.
    rewrite lookup_alter_eq, lookup_alter_ne by done. repeat split; try done.
    by apply fmap_is_Some.
  - apply not_true_is_false. intros Ht'. apply not_true_iff_false in Ht. apply Ht.
    apply phone_taken_spec in Ht' as (k & p & k' & a' & Hid & -> & Hrow & Hin & Hne & Hp).
    apply phone_taken_spec. exists k, p, k', a'.
    unfold Account_update in *. unmonad. cbn in *. rewrite Hid in *.
    rewrite lookup_alter_eq in Hrow. rewrite lookup_alter_ne in Hin by done.
    repeat split; try done. by apply fmap_is_Some in Hrow.
Qed.

(** C9: what the open branch of the handler does.  When no other account
    row holds the detected phone number, it persists status [connected], a
    null QR payload, the connection time and the resolved name and phone,
    and appends exactly one audit entry: [phone_updated] when an identity
    was resolved and a non-empty stored phone differs from it, [connected]
    otherwise.  When another row holds the number, the update is refused,
    the handler persists [error], keeps the stored phone and appends no
    audit entry.  In neither case does it touch the retry counter, which
    stays at the value the last scheduling left. *)
Theorem open_persists_connected accountId accountData update sock w a :
  upd_connection update = Some ConnOpen →
  account_row E accountId w = Some a →
  let w' := (handleConnectionUpdate E accountId accountData update sock w).2 in
  retryCount w' = retryCount w
  ∧ timers w' = timers w
  ∧ ((∀ p k' a', detectPhone sock = Some p → accounts w !! k' = Some a' →
                 acc_phone a' = Some p → db_id E accountId = Some k') →
     account_row E accountId w'
       = Some (mkAccount (or_str (Some (acc_name a)) ("device-" +:+ js_String E accountId))
                         (detectPhone sock) AccConnected None (Some (clock w)))
     ∧ ∃ description,
         activity_logs w'
         = activity_logs w
           ++ [mkActivityLog accountId
                 (if phone_changed (acc_phone a) sock then "phone_updated" else "connected")
                 description])
  ∧ (∀ p k' a', detectPhone sock = Some p → accounts w !! k' = Some a' →
                acc_phone a' = Some p → db_id E accountId ≠ Some k' →
     acc_status <$> account_row E accountId w' = Some AccError
     ∧ acc_phone <$> account_row E accountId w' = Some (acc_phone a)
     ∧ activity_logs w' = activity_logs w).
Proof.
  intros Hc Ha. cbn zeta.
  set (w0 := ((if truthy_str (upd_qr update)
               then onQr E accountId (default "" (upd_qr update))
               else mret tt) w).2).
  assert (Hw0 : ∃ a0, account_row E accountId w0 = Some a0
                      ∧ acc_name a0 = acc_name a ∧ acc_phone a0 = acc_phone a
                      ∧ retryCount w0 = retryCount w ∧ timers w0 = timers w
                      ∧ activity_logs w0 = activity_logs w ∧ clock w0 = clock w
                      ∧ phone_taken E accountId (detectPhone sock) w0
                        = phone_taken E accountId (detectPhone sock) w).
  { subst w0. destruct (truthy_str (upd_qr update)).
    - unfold onQr. rewrite account_row_update, Ha, phone_taken_update.
      eexists. split; [reflexivity|]. done.
    - exists a. done. }
  destruct Hw0 as (a0 & Ha0 & Hname & Hphone & Hr0 & Ht0 & Hl0 & Hclk & Htaken).
  assert (Hrun : handleConnectionUpdate E accountId accountData update sock w
                 = if phone_taken E accountId (detectPhone sock) w
                   then (Ok (), (Account_update E (account_status AccError) accountId w0).2)
                   else (Ok (),
                         (ActivityLog_create accountId
                            (if phone_changed (acc_phone a) sock
                             then "phone_updated" else "connected")
                            (if phone_changed (acc_phone a) sock
                             then "Account reconnected with new phone number: "
                                  +:+ default "null" (detectPhone sock)
                                  +:+ " (previously: " +:+ default "null" (acc_phone a)
                                  +:+ ")"
                             else "Account connected successfully"
                                  +:+ (if truthy_str (detectPhone sock)
                                       then " - Phone: " +:+ default "" (detectPhone sock)
                                       else ""))
                            (Account_update E
                               (account_opened
                                  (or_str (Some (acc_name a))
                                     ("device-" +:+ js_String E accountId))
                                  (detectPhone sock) (clock w))
                               accountId w0).2).2)).
  { unfold handleConnectionUpdate. rewrite Hc. unfold try_catch at 1.
    unfold mbind at 1. unfold M_bind at 1.
    fold w0.
    assert (Hfst : ((if truthy_str (upd_qr update)
                     then onQr E accountId (default "" (upd_qr update))
                     else mret tt) w).1 = Ok ()).
    { by destruct (truthy_str (upd_qr update)). }
    destruct ((if truthy_str (upd_qr update)
               then onQr E accountId (default "" (upd_qr update))
               else mret tt) w) as [res w0'] eqn:Hq.
    cbn in Hfst. subst res. subst w0. cbn [snd] in *.
    unfold onOpen, Account_findByPk, Account_update_phone, Date_now. unmonad.
    rewrite Ha0, Htaken. cbn [fmap option_fmap option_map mbind option_bind].
    rewrite Hname, Hphone, Hclk.
    destruct (phone_taken E accountId (detectPhone sock) w); cbn; done. }
  rewrite Hrun.
  destruct (phone_taken E accountId (detectPhone sock) w) eqn:Ht; cbn [snd].
  - split; [done|]. split; [done|]. split.
    + intros Hfree. exfalso.
      apply phone_taken_spec in Ht as (k & p & k' & a' & Hid & Hp & _ & Hin & Hne & Hp').
      specialize (Hfree p k' a' Hp Hin Hp'). congruence.
    + intros _ _ _ _ _ _ _.
      rewrite account_row_update, Ha0. cbn. rewrite Hphone.
      unfold Account_update. unmonad. cbn. done.
  - split; [done|]. split; [done|]. split.
    + intros _. unfold ActivityLog_create. unmonad. cbn.
      split.
      * change (account_row E accountId
                  (Account_update E
                     (account_opened
                        (or_str (Some (acc_name a)) ("device-" +:+ js_String E accountId))
                        (detectPhone sock) (clock w)) accountId w0).2
                = Some (mkAccount
                          (or_str (Some (acc_name a))
                             ("device-" +:+ js_String E accountId))
                          (detectPhone sock) AccConnected None (Some (clock w)))).
        by rewrite account_row_update, Ha0.
      * rewrite Hl0. eauto.
    + intros p k' a' Hp Hin Hp' Hne. exfalso.
      apply not_true_iff_false in Ht. apply Ht. apply phone_taken_spec.
      unfold account_row in Ha. destruct (db_id E accountId) as [k|] eqn:Hid; [|done].
      cbn in Ha. exists k, p, k', a'. repeat split; eauto; congruence.
Qed.

(** ** The not-running guard of the dispatcher *)

(** C10: dispatching a campaign that does not exist or is not [running]
    throws, and the handler of that error has set the status of the
    campaign's row, whatever it was, to [cancelled]. *)
Theorem dispatch_of_idle_campaign_cancels_it campaignId w :
  cmp_status <$> campaign_row E campaignId w ≠ Some CmpRunning →
  let r := sendBulkMessages E campaignId w in
  r.1 = Throw CampaignNotRunning
  ∧ message E CampaignNotRunning = "Campaign not found or not running"
  ∧ campaign_row E campaignId r.2
    = campaign_status CmpCancelled <$> campaign_row E campaignId w
  ∧ cmp_status <$> campaign_row E campaignId r.2
    = (λ _, CmpCancelled) <$> campaign_row E campaignId w
  ∧ campaign_messages r.2 = campaign_messages w
  ∧ effects r.2 = effects w.
Proof.
  intros Hs. cbn zeta.
  assert (Hnone : (Campaign_findOne_running E campaignId w).1 = Ok None).
  { unfold Campaign_findOne_running. unmonad. cbn.
    destruct (campaign_row E campaignId w) as [c|]; cbn in *; [|done].
    case_decide; [congruence|done]. }
  assert (Hrun : sendBulkMessages E campaignId w
                 = (Throw CampaignNotRunning,
                    (Campaign_update E (campaign_status CmpCancelled) campaignId w).2)).
  { unfold sendBulkMessages. unmonad.
    unfold Campaign_findOne_running in *. unmonad. cbn in *.
    injection Hnone as ->. done. }
  rewrite Hrun. cbn [fst snd]. rewrite campaign_row_update.
  repeat split; try done.
  by destruct (campaign_row E campaignId w).
Qed.

(** ** [connectAccount] *)

Lemma ceil_div_pos x d : 0 < x → 0 < d → 0 < ceil_div x d.
Proof.
  intros Hx Hd. unfold ceil_div.
  assert (- x / d < 0) by (apply Z.div_lt_upper_bound; lia). lia.
Qed.

Lemma cooledDown_passes accountId w :
  cooledDown accountId w →
  truthy_num (lastConnectionTime w !! accountId)
  && (clock w - default 0 (lastConnectionTime w !! accountId) <? CONNECTION_COOLDOWN)
  = false.
Proof.
  intros [-> | (t & -> & Ht)]; [done|]. cbn.
  apply andb_false_intro2. apply Z.ltb_ge. done.
Qed.

(** A connect call that the rate limiter lets through records the clock
    and ends in one of three ways. *)
Lemma connectAccount_allowed accountId w :
  cooledDown accountId w →
  let r := connectAccount E accountId w in
  lastConnectionTime r.2 = <[accountId := clock w]> (lastConnectionTime w)
  ∧ (r.1 = Throw AccountNotFound
     ∨ (∃ why, r.1 = Throw (CollaboratorError why))
     ∨ r.1 = Ok (next_handle w)).
Proof.
  intros Hcool. cbn zeta. unfold connectAccount, Date_now. unmonad.
  cbn. rewrite (cooledDown_passes _ _ Hcool).
  unfold Account_findByPk, makeWASocket, external, Account_update, account_row.
  unmonad. cbn.
  destruct (db_id E accountId) as [k|]; cbn; [|by split; [|left]].
  destruct (accounts w !! k) as [a|] eqn:Ha; cbn; [|by split; [|left]].
  destruct (ext_throws E (ticks w)) as [why|] eqn:Hx; cbn.
  - split; [done|]. right. left. eauto.
  - split; [done|]. by right; right.
Qed.

(** The connect call that goes through. *)
Lemma connectAccount_opens accountId w a :
  cooledDown accountId w →
  account_row E accountId w = Some a →
  ext_throws E (ticks w) = None →
  let r := connectAccount E accountId w in
  r.1 = Ok (next_handle w)
  ∧ sessions r.2 = <[accountId := next_handle w]> (sessions w)
  ∧ live r.2 = <[next_handle w := accountId]> (live w)
  ∧ effects r.2 = effects w ++ [EvOpen (next_handle w) accountId]
  ∧ account_row E accountId r.2 = Some (account_status AccConnecting a).
Proof.
  intros Hcool Ha Hx. cbn zeta. unfold connectAccount, Date_now. unmonad.
  cbn. rewrite (cooledDown_passes _ _ Hcool).
  unfold Account_findByPk, makeWASocket, external, Account_update, account_row in *.
  unmonad. cbn.
  destruct (db_id E accountId) as [k|]; cbn in *; [|done].
  rewrite Ha. cbn. rewrite Hx. cbn.
  by rewrite lookup_alter_eq, Ha.
Qed.

(** The rate limiter under one key of its [Map]: an attempt with no prior
    reservation, or after the 30 s window, is allowed and records the clock
    as the reservation of that key whatever becomes of the connect work; a
    second attempt under the same key, made while that reservation stands
    and fewer than 30000 ms later, is rejected with a strictly positive
    remaining time.  The clock of the first attempt is not zero (a zero
    timestamp reads as no reservation). *)
Lemma rate_limiter_reserves_then_rejects accountId :
  (∀ w, cooledDown accountId w →
        (∀ remaining a,
           (connectAccount E accountId w).1 ≠ Throw (RateLimited remaining a))
        ∧ lastConnectionTime (connectAccount E accountId w).2 !! accountId
          = Some (clock w))
  ∧ (∀ w1 w2,
       cooledDown accountId w1 →
       clock w1 ≠ 0 →
       lastConnectionTime w2 !! accountId
       = lastConnectionTime (connectAccount E accountId w1).2 !! accountId →
       clock w2 - clock w1 < CONNECTION_COOLDOWN →
       ∃ remaining,
         (connectAccount E accountId w2).1 = Throw (RateLimited remaining accountId)
         ∧ 0 < remaining
         ∧ remaining = ceil_div (CONNECTION_COOLDOWN - (clock w2 - clock w1)) 1000).
Proof.
  assert (HA : ∀ w, cooledDown accountId w →
        (∀ remaining a,
           (connectAccount E accountId w).1 ≠ Throw (RateLimited remaining a))
        ∧ lastConnectionTime (connectAccount E accountId w).2 !! accountId
          = Some (clock w)).
  { intros w Hcool.
    destruct (connectAccount_allowed accountId w Hcool) as [Hl Hr].
    rewrite Hl, lookup_insert_eq. split; [|done].
    intros remaining a.
    destruct Hr as [-> | [[why ->] | ->]]; done. }
  split; [exact HA|].
  intros w1 w2 Hcool Hnz Hkeep Hsoon.
  destruct (HA w1 Hcool) as [_ Hrec]. rewrite Hrec in Hkeep.
  exists (ceil_div (CONNECTION_COOLDOWN - (clock w2 - clock w1)) 1000).
  split; [|split; [|done]].
  - unfold connectAccount, Date_now. unmonad. cbn. rewrite Hkeep. cbn.
    apply Z.eqb_neq in Hnz. rewrite Hnz. cbn.
    apply Z.ltb_lt in Hsoon. rewrite Hsoon. done.
  - apply ceil_div_pos; lia.
Qed.

(** The connect call that goes through, in full. *)
Lemma connectAccount_opens_world accountId w a :
  cooledDown accountId w →
  account_row E accountId w = Some a →
  ext_throws E (ticks w) = None →
  let r := connectAccount E accountId w in
  lastConnectionTime r.2 = <[accountId := clock w]> (lastConnectionTime w)
  ∧ next_handle r.2 = S (next_handle w)
  ∧ ticks r.2 = S (ticks w)
  ∧ clock r.2 = clock w.
Proof.
  intros Hcool Ha Hx. cbn zeta. unfold connectAccount, Date_now. unmonad.
  cbn. rewrite (cooledDown_passes _ _ Hcool).
  unfold Account_findByPk, makeWASocket, external, Account_update, account_row in *.
  unmonad. cbn.
  destruct (db_id E accountId) as [k|]; cbn in *; [|done].
  rewrite Ha. cbn. rewrite Hx. done.
Qed.

(** C5: the limiter reserves per key of its [Map], and the key is the
    identifier as the caller passed it.  Two identifiers of one account row,
    the number that [initialize] passes and the string that the connect
    route passes, have a reservation each: after a first attempt under one
    of them, an attempt under the other is allowed however soon it comes,
    and opens a second live handle for the account; only an attempt under
    the same key is rejected, with a strictly positive remaining time. *)
Theorem rate_limiter_is_keyed_by_the_value_passed accountId other w a ms :
  other ≠ accountId →
  db_id E other = db_id E accountId →
  account_row E accountId w = Some a →
  lastConnectionTime w !! accountId = None →
  lastConnectionTime w !! other = None →
  ext_throws E (ticks w) = None →
  ext_throws E (S (ticks w)) = None →
  clock w ≠ 0 →
  0 ≤ ms < CONNECTION_COOLDOWN →
  let first := connectAccount E accountId w in
  let second := connectAccount E other (elapse ms first.2) in
  first.1 = Ok (next_handle w)
  ∧ lastConnectionTime first.2 !! accountId = Some (clock w)
  ∧ second.1 = Ok (S (next_handle w))
  ∧ live second.2 !! next_handle w = Some accountId
  ∧ live second.2 !! S (next_handle w) = Some other
  ∧ account_row E other second.2 = account_row E accountId second.2
  ∧ ∃ remaining,
      (connectAccount E accountId (elapse ms first.2)).1
      = Throw (RateLimited remaining accountId)
      ∧ 0 < remaining.
Proof.
  intros Hne Hid Ha Hl1 Hl2 Hx0 Hx1 Hclk Hms. cbn zeta.
  assert (Hcool : cooledDown accountId w) by by left.
  destruct (connectAccount_opens accountId w a Hcool Ha Hx0)
    as (Hr1 & _ & Hlive1 & _ & Hrow1).
  destruct (connectAccount_opens_world accountId w a Hcool Ha Hx0)
    as (Hlct1 & Hnh1 & Htk1 & Hck1).
  set (w1 := (connectAccount E accountId w).2) in *.
  assert (Hrow2 : account_row E other (elapse ms w1)
                  = Some (account_status AccConnecting a)).
  { unfold account_row in *. rewrite Hid. exact Hrow1. }
  assert (Hcool2 : cooledDown other (elapse ms w1)).
  { left. cbn. rewrite Hlct1, lookup_insert_ne by done. exact Hl2. }
  destruct (connectAccount_opens other (elapse ms w1) _ Hcool2 Hrow2)
    as (Hr2 & _ & Hlive2 & _ & _).
  { cbn. by rewrite Htk1. }
  cbn [elapse set_clock next_handle live] in Hr2, Hlive2.
  rewrite Hnh1 in Hr2, Hlive2.
  split; [exact Hr1|]. split; [by rewrite Hlct1, lookup_insert_eq|].
  split; [exact Hr2|]. split.
  { rewrite Hlive2, lookup_insert_ne by lia. by rewrite Hlive1, lookup_insert_eq. }
  split; [by rewrite Hlive2, lookup_insert_eq|].
  split; [unfold account_row; by rewrite Hid|].
  destruct (proj2 (rate_limiter_reserves_then_rejects accountId) w (elapse ms w1))
    as (remaining & Hrej & Hpos & _); [done|done|done| |by eauto].
  cbn. rewrite Hck1. lia.
Qed.

(** C4, as the code has it: a connect call for an account that already has
    a registered, live handle opens a second handle and registers it in the
    old one's place; the old handle is neither logged out nor discarded and
    stays live. *)
Theorem connect_leaves_old_handle_live accountId w h0 a :
  sessions w !! accountId = Some h0 →
  live w !! h0 = Some accountId →
  (h0 < next_handle w)%nat →
  cooledDown accountId w →
  account_row E accountId w = Some a →
  ext_throws E (ticks w) = None →
  let r := connectAccount E accountId w in
  let h1 := next_handle w in
  r.1 = Ok h1
  ∧ h1 ≠ h0
  ∧ sessions r.2 !! accountId = Some h1
  ∧ live r.2 !! h0 = Some accountId
  ∧ live r.2 !! h1 = Some accountId
  ∧ effects r.2 = effects w ++ [EvOpen h1 accountId].
Proof.
  intros Hs Hl Hlt Hcool Ha Hx. cbn zeta.
  destruct (connectAccount_opens accountId w a Hcool Ha Hx)
    as (Hr & Hss & Hll & He & _).
  rewrite Hr, Hss, Hll, He, lookup_insert_eq, lookup_insert_eq.
  rewrite lookup_insert_ne by lia.
  repeat split; try done. lia.
Qed.

(** ** Reconnection backoff *)

Lemma scheduleReconnect_retries accountId reason w :
  default 0 (retryCount w !! accountId) < maxRetries →
  let n := default 0 (retryCount w !! accountId) in
  let r := scheduleReconnect E accountId reason w in
  r.1 = Ok ()
  ∧ timers r.2 = timers w ++ [mkTimer (delayMs n) accountId reason]
  ∧ retryCount r.2 = <[accountId := n + 1]> (retryCount w)
  ∧ account_row E accountId r.2
    = account_status AccReconnecting <$> account_row E accountId w.
Proof.
  intros Hn. cbn zeta. unfold scheduleReconnect, setTimeout. unmonad. cbn.
  apply Z.leb_gt in Hn. rewrite Hn.
  unfold Account_update, account_row. unmonad. cbn.
  repeat split; try done.
  destruct (db_id E accountId) as [k|]; cbn; [|done].
  by rewrite lookup_alter_eq.
Qed.

Lemma scheduleReconnect_gives_up accountId reason w :
  maxRetries ≤ default 0 (retryCount w !! accountId) →
  let r := scheduleReconnect E accountId reason w in
  r.1 = Ok ()
  ∧ timers r.2 = timers w
  ∧ retryCount r.2 = delete accountId (retryCount w)
  ∧ account_row E accountId r.2
    = account_status AccError <$> account_row E accountId w.
Proof.
  intros Hn. cbn zeta. unfold scheduleReconnect, setTimeout. unmonad. cbn.
  apply Z.leb_le in Hn. rewrite Hn.
  unfold Account_update, account_row. unmonad. cbn.
  repeat split; try done.
  destruct (db_id E accountId) as [k|]; cbn; [|done].
  by rewrite lookup_alter_eq.
Qed.

(** A connect call, however it ends, touches neither the retry counters nor
    the timers, and deletes no account. *)
Lemma connectAccount_frame accountId w :
  let r := connectAccount E accountId w in
  retryCount r.2 = retryCount w
  ∧ timers r.2 = timers w
  ∧ (is_Some (account_row E accountId w) → is_Some (account_row E accountId r.2)).
Proof.
  cbn zeta. unfold connectAccount, Date_now. unmonad. cbn.
  unfold Account_findByPk, makeWASocket, external, Account_update, account_row.
  unmonad.
  destruct (truthy_num _ && _); cbn.
  - repeat split; try done.
    destruct (db_id E accountId) as [k|]; cbn; [|done].
    rewrite lookup_alter_eq. by intros [a ->].
  - destruct (db_id E accountId) as [k|]; cbn; [|done].
    destruct (accounts w !! k) as [a|] eqn:Ha; cbn; [|by repeat split; intros []].
    destruct (ext_throws E (ticks w)); cbn;
      rewrite lookup_alter_eq, ?lookup_alter_eq, Ha; done.
Qed.

(** A timer whose reconnection attempt throws hands over to
    [scheduleReconnect]. *)
Lemma fireTimer_failed accountId reason w d :
  last (timers w) = Some (mkTimer d accountId reason) →
  timerFails E w →
  ∃ w1,
    fireTimer E w = (scheduleReconnect E accountId reason w1).2
    ∧ retryCount w1 = retryCount w
    ∧ timers w1 = timers w
    ∧ (is_Some (account_row E accountId w) → is_Some (account_row E accountId w1)).
Proof.
  intros Hlast Hfail. unfold timerFails, fireTimer in *. rewrite Hlast in *.
  cbn [timer_accountId timer_disconnectReason timer_delayMs] in *.
  destruct Hfail as [error Herr].
  pose proof (connectAccount_frame accountId
                (cleanSessionFiles accountId false (elapse d w)).2)
    as (Hr & Ht & Ha).
  exists (connectAccount E accountId (cleanSessionFiles accountId false (elapse d w)).2).2.
  split; [|by split; [|split]].
  unfold reconnectTimer. unmonad. cbn in *.
  destruct (connectAccount E accountId _) as [res w1]. cbn in *. by subst res.
Qed.

Lemma afterFailures_0 accountId reason w :
  afterFailures E accountId reason 0 w = (scheduleReconnect E accountId reason w).2.
Proof. reflexivity. Qed.

Lemma afterFailures_S accountId reason n w :
  afterFailures E accountId reason (S n) w
  = fireTimer E (afterFailures E accountId reason n w).
Proof. reflexivity. Qed.

(** The backoff when the reconnection attempts themselves throw: after a
    transient close, while every [connectAccount] call of a timer throws,
    the timers are set to 5000, 15000, 45000, 135000 and 300000 ms (the
    fifth is [min (5000 * 3^4) 300000], not 405000); each scheduling
    increments the retry counter and persists [reconnecting]; the failure
    that finds the counter at 5 persists [error] and sets no timer. *)
Lemma backoff_sequence accountId reason w a :
  retryCount w !! accountId = None →
  account_row E accountId w = Some a →
  (∀ n, (n ≤ 4)%nat → timerFails E (afterFailures E accountId reason n w)) →
  let after := λ n, afterFailures E accountId reason n w in
  (∀ n, (n ≤ 4)%nat →
     timers (after n)
     = timers w ++ ((λ d, mkTimer d accountId reason)
                      <$> take (S n) [5000; 15000; 45000; 135000; 300000])
     ∧ retryCount (after n) !! accountId = Some (Z.of_nat n + 1)
     ∧ acc_status <$> account_row E accountId (after n) = Some AccReconnecting)
  ∧ timers (after 5%nat) = timers (after 4%nat)
  ∧ acc_status <$> account_row E accountId (after 5%nat) = Some AccError
  ∧ delayMs <$> [0; 1; 2; 3; 4] = [5000; 15000; 45000; 135000; 300000]
  ∧ 5000 * 3 ^ 4 = 405000.
Proof.
  intros Hfresh Ha Hfail. cbn zeta.
  assert (Hinv : ∀ n, (n ≤ 4)%nat →
     (timers (afterFailures E accountId reason n w)
      = timers w ++ ((λ d, mkTimer d accountId reason)
                       <$> take (S n) [5000; 15000; 45000; 135000; 300000])
      ∧ retryCount (afterFailures E accountId reason n w) !! accountId
        = Some (Z.of_nat n + 1)
      ∧ acc_status <$> account_row E accountId (afterFailures E accountId reason n w)
        = Some AccReconnecting)
     ∧ last (timers (afterFailures E accountId reason n w))
       = Some (mkTimer (delayMs (Z.of_nat n)) accountId reason)).
  { induction n as [|n IH]; intros Hn.
    - rewrite afterFailures_0.
      destruct (scheduleReconnect_retries accountId reason w)
        as (_ & Ht & Hr & Hrow).
      { rewrite Hfresh. done. }
      rewrite Ht, Hr, Hrow, Hfresh, Ha, lookup_insert_eq, last_snoc. done.
    - destruct IH as ((Ht & Hr & Hrow) & Hlast); [lia|].
      destruct (fireTimer_failed accountId reason _ _ Hlast (Hfail n ltac:(lia)))
        as (w1 & Hstep & Hr1 & Ht1 & Ha1).
      rewrite afterFailures_S, Hstep.
      destruct (scheduleReconnect_retries accountId reason w1)
        as (_ & Ht' & Hr' & Hrow').
      { rewrite Hr1, Hr. cbn. unfold maxRetries. lia. }
      rewrite Ht', Hr', Hrow', Ht1, Hr1, Hr, Ht, lookup_insert_eq, last_snoc.
      cbn [default]. unfold id.
      destruct Ha1 as [a1 Ha1].
      { apply (fmap_is_Some acc_status). rewrite Hrow. eauto. }
      rewrite Ha1. repeat split.
      + rewrite <- app_assoc. f_equal.
        do 4 (destruct n as [|n]; [reflexivity|]). lia.
      + f_equal. lia.
      + replace (Z.of_nat (S n)) with (Z.of_nat n + 1) by lia. done. }
  split; [intros n Hn; by apply Hinv|].
  destruct (Hinv 4%nat ltac:(lia)) as ((Ht & Hr & Hrow) & Hlast).
  destruct (fireTimer_failed accountId reason _ _ Hlast (Hfail 4%nat ltac:(lia)))
    as (w1 & Hstep & Hr1 & Ht1 & Ha1).
  rewrite afterFailures_S, Hstep.
  destruct (scheduleReconnect_gives_up accountId reason w1)
    as (_ & Ht' & _ & Hrow').
  { rewrite Hr1, Hr. cbn. unfold maxRetries. lia. }
  rewrite Ht', Hrow', Ht1.
  destruct Ha1 as [a1 Ha1].
  { apply (fmap_is_Some acc_status). rewrite Hrow. eauto. }
  rewrite Ha1. done.
Qed.

(** ** The dispatch loop *)

(** [sendMessage] writes to the activity log and the effect log only; it
    logs at most one send, and a successful one exactly when it returns. *)
Lemma sendMessage_log accountId phone text mediaPath mimeType originalName w :
  let r := sendMessage E accountId phone text mediaPath mimeType originalName w in
  campaign_messages r.2 = campaign_messages w
  ∧ campaigns r.2 = campaigns w
  ∧ clock r.2 = clock w
  ∧ ((r.1 = Ok () ∧ ∃ h jid content,
        effects r.2 = effects w ++ [EvSend h jid content true])
     ∨ (∃ error, r.1 = Throw error
        ∧ (effects r.2 = effects w
           ∨ ∃ h jid content, effects r.2 = effects w ++ [EvSend h jid content false]))).
Proof.
  cbn zeta. unfold sendMessage, lookupSession, ActivityLog_create. unmonad. cbn.
  destruct (match sessions w !! js_parseInt E accountId with
            | Some sock => Some sock
            | None => sessions w !! JStr (js_String E accountId)
            end) as [h|]; cbn; [|by eauto 10].
  assert (Hsend : ∀ content,
    let r := sock_sendMessage E h
               (if includes phone "@" then phone else phone +:+ "@s.whatsapp.net")
               content w in
    (r.1 = Ok () ∧ campaign_messages r.2 = campaign_messages w
     ∧ campaigns r.2 = campaigns w ∧ clock r.2 = clock w
     ∧ ∃ jid, effects r.2 = effects w ++ [EvSend h jid content true])
    ∨ (∃ error, r.1 = Throw error ∧ campaign_messages r.2 = campaign_messages w
       ∧ campaigns r.2 = campaigns w ∧ clock r.2 = clock w
       ∧ ∃ jid, effects r.2 = effects w ++ [EvSend h jid content false])).
  { intros content. unfold sock_sendMessage.
    destruct (ext_throws E (ticks w)); cbn; [right|left]; eauto 10. }
  destruct (truthy_str mediaPath); cbn.
  - unfold mediaContent. unmonad.
    destruct (fs_media E (default "" mediaPath)) as [?|?|buf]; cbn; [by eauto 10..|].
    repeat (match goal with |- context [if ?b then _ else _] => destruct b end);
      match goal with
      | |- context [sock_sendMessage E h ?jid ?content w] =>
          destruct (Hsend content) as [(Hr & ? & ? & ? & ? & ?)|(? & Hr & ? & ? & ? & ? & ?)];
          destruct (sock_sendMessage E h jid content w) as [[[]|] ?];
          cbn in *; simplify_eq; eauto 12
      end.
  - match goal with
      | |- context [sock_sendMessage E h ?jid ?content w] =>
          destruct (Hsend content) as [(Hr & ? & ? & ? & ? & ?)|(? & Hr & ? & ? & ? & ? & ?)];
          destruct (sock_sendMessage E h jid content w) as [[[]|] ?];
          cbn in *; simplify_eq; eauto 12
      end.
Qed.

(** The three ways an iteration ends. *)

Lemma dispatchOne_break campaignId accountId c i m cnt w :
  cmp_status <$> observed E campaignId i w ≠ Some CmpRunning →
  dispatchOne E campaignId accountId c i m cnt w
  = (Ok (Break, cnt), interleave E i w).
Proof.
  intros Hs. unfold dispatchOne, Campaign_findByPk, observed in *. unmonad. cbn.
  by rewrite bool_decide_eq_false_2.
Qed.

Lemma dispatchOne_sent campaignId accountId c i m cnt w w1 :
  cmp_status <$> observed E campaignId i w = Some CmpRunning →
  sendMessage E accountId (msg_phone m.2) (msg_message_text m.2)
              (msg_media_path m.2) None None (interleave E i w) = (Ok (), w1) →
  dispatchOne E campaignId accountId c i m cnt w
  = (Ok (Continue, (cnt.1 + 1, cnt.2)),
     (delay (cmp_delay_seconds c * 1000)
        (CampaignMessage_update (message_sent (clock w1)) m.1 w1).2).2).
Proof.
  intros Hs Hsend. unfold dispatchOne, Campaign_findByPk, observed in *.
  unmonad. cbn. rewrite bool_decide_eq_true_2 by done.
  rewrite Hsend. done.
Qed.

Lemma dispatchOne_failed campaignId accountId c i m cnt w error w1 :
  cmp_status <$> observed E campaignId i w = Some CmpRunning →
  sendMessage E accountId (msg_phone m.2) (msg_message_text m.2)
              (msg_media_path m.2) None None (interleave E i w) = (Throw error, w1) →
  dispatchOne E campaignId accountId c i m cnt w
  = (Ok (Continue, (cnt.1, cnt.2 + 1)),
     (CampaignMessage_update (message_failed (message E error)) m.1 w1).2).
Proof.
  intros Hs Hsend. unfold dispatchOne, Campaign_findByPk, observed in *.
  unmonad. cbn. rewrite bool_decide_eq_true_2 by done.
  rewrite Hsend. done.
Qed.

Lemma dispatchLoop_cons campaignId accountId c i m rest cnt w :
  dispatchLoop E campaignId accountId c i (m :: rest) cnt w
  = match dispatchOne E campaignId accountId c i m cnt w with
    | (Ok (Continue, cnt'), w') =>
        dispatchLoop E campaignId accountId c (S i) rest cnt' w'
    | (Ok (Break, cnt'), w') => (Ok (Break, cnt'), w')
    | (Throw error, w') => (Throw error, w')
    end.
Proof.
  cbn [dispatchLoop]. unmonad.
  destruct (dispatchOne E campaignId accountId c i m cnt w) as [[[[] ?]|] ?]; done.
Qed.

(** The loop over [pre ++ post] is the loop over [pre], and then, unless
    that one broke off, the loop over [post]. *)
Lemma dispatchLoop_app campaignId accountId c pre post :
  ∀ i cnt w,
  dispatchLoop E campaignId accountId c i (pre ++ post) cnt w
  = match dispatchLoop E campaignId accountId c i pre cnt w with
    | (Ok (Continue, cnt'), w') =>
        dispatchLoop E campaignId accountId c (i + length pre) post cnt' w'
    | other => other
    end.
Proof.
  induction pre as [|m pre IH]; intros i cnt w.
  - cbn. unmonad. by rewrite Nat.add_0_r.
  - rewrite <- app_comm_cons, !dispatchLoop_cons.
    destruct (dispatchOne E campaignId accountId c i m cnt w) as [[[[] cnt']|] w'];
      [|done..].
    rewrite IH. cbn [length]. by rewrite Nat.add_succ_r.
Qed.

(** ** Pacing *)

Lemma paced_from_app d log1 log2 :
  ∀ owed,
  paced_from owed d log1 = true →
  paced d log2 = true →
  paced_from owed d (log1 ++ log2) = true.
Proof.
  induction log1 as [|e log1 IH]; intros owed H1 H2.
  - destruct owed; [done|]. exact H2.
  - destruct e; cbn in *; try done.
    + apply andb_true_iff in H1 as [-> H1]. cbn. by apply IH.
    + apply andb_true_iff in H1 as [H1' H1]. rewrite H1'. cbn. by apply IH.
Qed.

Lemma paced_app d log1 log2 :
  paced d log1 = true → paced d log2 = true → paced d (log1 ++ log2) = true.
Proof. apply paced_from_app. Qed.

Lemma sleeps_app log1 log2 : sleeps (log1 ++ log2) = sleeps log1 ++ sleeps log2.
Proof. apply omap_app. Qed.

Lemma delivered_app log1 log2 :
  delivered (log1 ++ log2) = delivered log1 ++ delivered log2.
Proof. apply omap_app. Qed.


(** What one iteration adds to the effect log. *)
Lemma dispatchOne_log campaignId accountId c i m cnt w :
  let r := dispatchOne E campaignId accountId c i m cnt w in
  let d := cmp_delay_seconds c * 1000 in
  ∃ ctl cnt' log,
    r.1 = Ok (ctl, cnt')
    ∧ effects r.2 = effects w ++ log
    ∧ paced d log = true
    ∧ cnt'.1 = cnt.1 + Z.of_nat (length (sleeps log))
    ∧ sleeps log = replicate (length (delivered log)) d.
Proof.
  cbn zeta.
  destruct (decide (cmp_status <$> observed E campaignId i w = Some CmpRunning))
    as [Hrun|Hrun].
  - pose proof (sendMessage_log accountId (msg_phone m.2) (msg_message_text m.2)
                  (msg_media_path m.2) None None (interleave E i w)) as Hlog.
    destruct (sendMessage E accountId (msg_phone m.2) (msg_message_text m.2)
                (msg_media_path m.2) None None (interleave E i w)) as [[[]|error] w1] eqn:Hsend.
    + rewrite (dispatchOne_sent _ _ _ _ _ _ _ _ Hrun Hsend).
      cbn in Hlog. destruct Hlog as (_ & _ & _ & [(_ & h & jid & content & He)|(? & ? & _)]);
        [|done].
      exists Continue, (cnt.1 + 1, cnt.2),
             [EvSend h jid content true; EvDelay (cmp_delay_seconds c * 1000)].
      unfold delay, CampaignMessage_update. unmonad. cbn.
      rewrite He, <- app_assoc, Z.eqb_refl. done.
    + rewrite (dispatchOne_failed _ _ _ _ _ _ _ _ _ Hrun Hsend).
      cbn in Hlog.
      destruct Hlog as (_ & _ & _ & [(? & _)|(? & _ & [He|(h & jid & content & He)])]);
        [done| |].
      * exists Continue, (cnt.1, cnt.2 + 1), [].
        unfold CampaignMessage_update. unmonad. cbn.
        rewrite He, app_nil_r. repeat split; try done. lia.
      * exists Continue, (cnt.1, cnt.2 + 1), [EvSend h jid content false].
        unfold CampaignMessage_update. unmonad. cbn.
        rewrite He. repeat split; try done. lia.
  - rewrite (dispatchOne_break _ _ _ _ _ _ _ Hrun).
    exists Break, cnt, []. cbn. rewrite app_nil_r. repeat split; try done. lia.
Qed.

(** The loop never throws, and its log is paced: one sleep follows each
    successful send, and there is no other sleep. *)
Lemma dispatchLoop_log campaignId accountId c pendingMessages :
  ∀ i cnt w,
  let r := dispatchLoop E campaignId accountId c i pendingMessages cnt w in
  let d := cmp_delay_seconds c * 1000 in
  ∃ ctl cnt' log,
    r.1 = Ok (ctl, cnt')
    ∧ effects r.2 = effects w ++ log
    ∧ paced d log = true
    ∧ cnt'.1 = cnt.1 + Z.of_nat (length (sleeps log))
    ∧ sleeps log = replicate (length (delivered log)) d.
Proof.
  cbn zeta.
  induction pendingMessages as [|m rest IH]; intros i cnt w.
  - exists Continue, cnt, []. cbn. rewrite app_nil_r. repeat split; try done. lia.
  - rewrite dispatchLoop_cons.
    destruct (dispatchOne_log campaignId accountId c i m cnt w)
      as (ctl & cnt1 & log1 & Hr & He & Hp & Hc & Hs).
    destruct (dispatchOne E campaignId accountId c i m cnt w) as [res w1].
    cbn in Hr, He. subst res. destruct ctl.
    + destruct (IH (S i) cnt1 w1) as (ctl & cnt2 & log2 & Hr2 & He2 & Hp2 & Hc2 & Hs2).
      exists ctl, cnt2, (log1 ++ log2).
      rewrite He2, He, <- app_assoc, sleeps_app, delivered_app, !length_app.
      split; [done|]. split; [done|]. split; [by apply paced_app|].
      split; [lia|]. by rewrite replicate_add, <- Hs, <- Hs2.
    + exists Break, cnt1, log1. done.
Qed.

(** ** A whole pass *)

Lemma findOne_running_Some campaignId w c :
  campaign_row E campaignId w = Some c →
  cmp_status c = CmpRunning →
  (Campaign_findOne_running E campaignId w) = (Ok (Some c), w).
Proof.
  intros Hc Hs. unfold Campaign_findOne_running. unmonad. rewrite Hc. cbn.
  by rewrite decide_True.
Qed.

Lemma finishPass_frame campaignId cnt w :
  let r := finishPass E campaignId cnt w in
  r.1 = Ok cnt
  ∧ campaign_messages r.2 = campaign_messages w
  ∧ effects r.2 = effects w.
Proof.
  cbn zeta. unfold finishPass, Campaign_increment_counts, Campaign_update,
    CampaignMessage_count_pending, Date_now. unmonad. cbn.
  destruct (_ =? 0); done.
Qed.

(** A pass over a running campaign is the loop over its pending messages
    followed by the bookkeeping. *)
Lemma sendBulkMessages_running campaignId w c a ctl cnt w1 :
  campaign_row E campaignId w = Some c →
  cmp_status c = CmpRunning →
  accounts w !! cmp_account_id c = Some a →
  dispatchLoop E campaignId (JNum (cmp_account_id c)) c 0
    (merge_sort id_le (pending_rows E campaignId w)) (0, 0) w
  = (Ok (ctl, cnt), w1) →
  sendBulkMessages E campaignId w = finishPass E campaignId cnt w1.
Proof.
  intros Hc Hs Ha Hloop.
  pose proof (finishPass_frame campaignId cnt w1) as (Hr & _).
  unfold sendBulkMessages, CampaignMessage_findAll_pending. unmonad.
  rewrite (findOne_running_Some _ _ _ Hc Hs). cbn. rewrite Ha, Hloop. cbn.
  destruct (finishPass E campaignId cnt w1) as [res w2]. cbn in Hr. by subst res.
Qed.


(** C7: a send for an existing account without a registered handle throws
    "Account not connected" and reaches no transport; and when a send
    throws during a dispatch pass, whatever the error, the iteration writes
    that one message row with status [failed] and the error's text, leaves
    every other row, the campaign and the clock as they were, counts one
    more failure, and the loop goes on with the next message; the loop
    itself never throws. *)
Theorem failed_send_is_recorded_and_dispatch_continues accountId :
  (∀ phone text mediaPath mimeType originalName w,
     is_Some (account_row E accountId w) →
     sessions w !! js_parseInt E accountId = None →
     sessions w !! JStr (js_String E accountId) = None →
     let r := sendMessage E accountId phone text mediaPath mimeType originalName w in
     r.1 = Throw AccountNotConnected ∧ effects r.2 = effects w)
  ∧ message E AccountNotConnected = "Account not connected"
  ∧ (∀ campaignId c i m rest cnt w error w1,
       cmp_status <$> observed E campaignId i w = Some CmpRunning →
       sendMessage E accountId (msg_phone m.2) (msg_message_text m.2)
                   (msg_media_path m.2) None None (interleave E i w)
       = (Throw error, w1) →
       ∃ w2,
         dispatchOne E campaignId accountId c i m cnt w
         = (Ok (Continue, (cnt.1, cnt.2 + 1)), w2)
         ∧ dispatchLoop E campaignId accountId c i (m :: rest) cnt w
           = dispatchLoop E campaignId accountId c (S i) rest (cnt.1, cnt.2 + 1) w2
         ∧ (∀ row, campaign_messages (interleave E i w) !! m.1 = Some row →
              campaign_messages w2 !! m.1
              = Some (mkCampaignMessage (msg_campaign_id row) (msg_phone row)
                        (msg_message_text row) (msg_media_path row) MsgFailed
                        (Some (message E error)) (msg_sent_at row)))
         ∧ (∀ k, k ≠ m.1 →
              campaign_messages w2 !! k = campaign_messages (interleave E i w) !! k)
         ∧ campaigns w2 = campaigns (interleave E i w)
         ∧ clock w2 = clock (interleave E i w))
  ∧ (∀ campaignId c i pendingMessages cnt w,
       ∃ ctl cnt',
         (dispatchLoop E campaignId accountId c i pendingMessages cnt w).1
         = Ok (ctl, cnt')).
Proof.
  split; [|split; [done|split]].
  - intros phone text mediaPath mimeType originalName w _ H1 H2. cbn zeta.
    unfold sendMessage, lookupSession, ActivityLog_create. unmonad. cbn.
    rewrite H1, H2. done.
  - intros campaignId c i m rest cnt w error w1 Hrun Hsend.
    pose proof (sendMessage_log accountId (msg_phone m.2) (msg_message_text m.2)
                  (msg_media_path m.2) None None (interleave E i w)) as (Hm & Hc & Hk & _).
    rewrite Hsend in Hm, Hc, Hk. cbn in Hm, Hc, Hk.
    eexists. split; [exact (dispatchOne_failed _ _ _ _ _ _ _ _ _ Hrun Hsend)|].
    split.
    { by rewrite dispatchLoop_cons, (dispatchOne_failed _ _ _ _ _ _ _ _ _ Hrun Hsend). }
    unfold CampaignMessage_update. unmonad. cbn. rewrite Hm, Hc, Hk.
    split; [|split; [|done]].
    + intros row Hrow. by rewrite lookup_alter_eq, Hrow.
    + intros k Hne. by rewrite lookup_alter_ne.
  - intros campaignId c i pendingMessages cnt w.
    destruct (dispatchLoop_log campaignId accountId c pendingMessages i cnt w)
      as (ctl & cnt' & _ & Hr & _). eauto.
Qed.

(** C8: when the status re-read of an iteration finds the campaign no
    longer [running], the loop stops there: the pass returns the counts
    reached so far, and sends nothing and writes no message row from that
    point on, so every message from the pause point on is as it was when the
    change was observed. *)
Theorem pause_stops_dispatch campaignId w c a pre m rest cnt wk :
  campaign_row E campaignId w = Some c →
  cmp_status c = CmpRunning →
  accounts w !! cmp_account_id c = Some a →
  merge_sort id_le (pending_rows E campaignId w) = pre ++ m :: rest →
  dispatchLoop E campaignId (JNum (cmp_account_id c)) c 0 pre (0, 0) w
  = (Ok (Continue, cnt), wk) →
  cmp_status <$> observed E campaignId (length pre) wk ≠ Some CmpRunning →
  let r := sendBulkMessages E campaignId w in
  let seen := interleave E (length pre) wk in
  r.1 = Ok cnt
  ∧ campaign_messages r.2 = campaign_messages seen
  ∧ effects r.2 = effects wk
  ∧ (∀ k row, (k, row) ∈ m :: rest →
       campaign_messages r.2 !! k = campaign_messages seen !! k).
Proof.
  intros Hc Hs Ha Hpending Hpre Hseen. cbn zeta.
  assert (Hloop :
    dispatchLoop E campaignId (JNum (cmp_account_id c)) c 0
      (merge_sort id_le (pending_rows E campaignId w)) (0, 0) w
    = (Ok (Break, cnt), interleave E (length pre) wk)).
  { rewrite Hpending, dispatchLoop_app, Hpre. cbn [Nat.add].
    by rewrite dispatchLoop_cons, dispatchOne_break. }
  rewrite (sendBulkMessages_running _ _ _ _ _ _ _ Hc Hs Ha Hloop).
  destruct (finishPass_frame campaignId cnt (interleave E (length pre) wk))
    as (Hres & Hmsgs & Heff).
  rewrite Hres, Hmsgs, Heff. done.
Qed.


(** A pass over a running campaign whose account row exists returns its
    counts: no failure of a send aborts it. *)
Lemma running_pass_returns campaignId w c a :
  campaign_row E campaignId w = Some c →
  cmp_status c = CmpRunning →
  accounts w !! cmp_account_id c = Some a →
  ∃ cnt, (sendBulkMessages E campaignId w).1 = Ok cnt.
Proof.
  intros Hc Hs Ha.
  destruct (dispatchLoop_log campaignId (JNum (cmp_account_id c)) c
              (merge_sort id_le (pending_rows E campaignId w)) 0%nat (0, 0) w)
    as (ctl & cnt & _ & Hr & _).
  destruct (dispatchLoop E campaignId (JNum (cmp_account_id c)) c 0
              (merge_sort id_le (pending_rows E campaignId w)) (0, 0) w)
    as [res w1] eqn:Hloop.
  cbn in Hr. subst res.
  rewrite (sendBulkMessages_running _ _ _ _ _ _ _ Hc Hs Ha Hloop).
  exists cnt. apply finishPass_frame.
Qed.

(** ** The sibling of [connectAccount] *)

(** [forceReconnectAccount] logs the registered handle out before it calls
    [connectAccount]: afterwards only the new handle is live for the
    account. *)
Lemma forceReconnect_tears_down accountId w h0 a :
  sessions w !! accountId = Some h0 →
  account_row E accountId w = Some a →
  ext_throws E (ticks w) = None →
  ext_throws E (S (ticks w)) = None →
  let r := forceReconnectAccount E accountId w in
  r.1 = Ok ()
  ∧ effects r.2
    = effects w ++ [EvLogout h0 true; EvCleanSession accountId true;
                    EvOpen (next_handle w) accountId]
  ∧ live r.2 = <[next_handle w := accountId]> (delete h0 (live w))
  ∧ sessions r.2 = <[accountId := next_handle w]> (delete accountId (sessions w)).
Proof.
  intros Hs Ha Hx0 Hx1. cbn zeta.
  unfold forceReconnectAccount, sock_logout, cleanSessionFiles. unmonad. cbn.
  rewrite Hs, Hx0. cbn.
  match goal with
  | |- context [connectAccount E accountId ?w0] =>
      destruct (connectAccount_opens accountId w0 (account_status_qr AccConnecting None a))
        as (Hr & Hss & Hl & He & _);
      [ left; cbn; apply lookup_delete_eq
      | unfold account_row, Account_update in *; unmonad; cbn in *;
        destruct (db_id E accountId) as [k|]; cbn in *; [|done];
        by rewrite lookup_alter_eq, Ha
      | exact Hx1
      | destruct (connectAccount E accountId w0) as [res w1] ]
  end.
  cbn in *. subst res. cbn. rewrite He, Hl, Hss, <- !app_assoc. done.
Qed.

(** ** Where the retry counter is reset *)

(** The callback of the reconnection timer drops the counter as soon as its
    [connectAccount] call returns. *)
Lemma reconnectTimer_resets_counter accountId reason w h w1 :
  connectAccount E accountId (cleanSessionFiles accountId false w).2 = (Ok h, w1) →
  reconnectTimer E accountId reason w
  = (Ok (), set_retryCount (delete accountId) w1).
Proof.
  intros Hc. unfold reconnectTimer. unmonad. cbn in *. by rewrite Hc.
Qed.

(** ** The zero timestamp *)

(** [lastAttempt && ...] reads a reservation made at clock 0 as none. *)
Lemma zero_timestamp_is_no_reservation accountId w :
  lastConnectionTime w !! accountId = Some 0 →
  ∀ remaining a,
    (connectAccount E accountId w).1 ≠ Throw (RateLimited remaining a).
Proof.
  intros H0 remaining a. unfold connectAccount, Date_now. unmonad. cbn.
  rewrite H0. cbn.
  unfold Account_findByPk, makeWASocket, external, Account_update, account_row.
  unmonad. cbn.
  destruct (db_id E accountId) as [k|]; cbn; [|done].
  destruct (accounts w !! k); cbn; [|done].
  destruct (ext_throws E (ticks w)); done.
Qed.

End Properties.

(** * Further properties of the service *)

Section MoreProperties.

Context (E : Env).

Ltac unmonad :=
  unfold try_catch, throw, gets, modify, emit, mbind, M_bind, mret, M_ret in *.

(** ** Close events, by reason *)

Lemma includes_nonempty hay needle :
  needle ≠ "" → includes hay needle = true → hay ≠ "".
Proof.
  intros Hn Hi ->. destruct needle as [|a needle]; [done|].
  unfold includes in Hi. cbn in Hi. done.
Qed.

Lemma transientClose_classified update :
  transientClose E update →
  shouldAttemptReconnect E (upd_statusCode update)
    (or_str (upd_errorMessage update) "Unknown error") = true
  ∧ isPermanentError E (upd_statusCode update) = false.
Proof.
  intros (H1 & H2 & H3 & H4 & H5). unfold shouldAttemptReconnect, isPermanentError.
  rewrite H5, andb_false_r.
  rewrite !bool_decide_eq_false_2 by done. split; [done|].
  apply bool_decide_eq_false_2. rewrite !elem_of_cons, elem_of_nil. tauto.
Qed.

(** [scheduleReconnect] touches the retry counter, the account row and the
    timers, and nothing else. *)
Lemma scheduleReconnect_frame accountId reason w :
  let r := scheduleReconnect E accountId reason w in
  sessions r.2 = sessions w
  ∧ lastConnectionTime r.2 = lastConnectionTime w
  ∧ live r.2 = live w
  ∧ effects r.2 = effects w
  ∧ campaigns r.2 = campaigns w.
Proof.
  cbn zeta. unfold scheduleReconnect, setTimeout, Account_update. unmonad. cbn.
  destruct (maxRetries <=? _); done.
Qed.

Lemma scheduleReconnect_ok accountId reason w :
  (scheduleReconnect E accountId reason w).1 = Ok ().
Proof.
  unfold scheduleReconnect, setTimeout, Account_update. unmonad. cbn.
  destruct (maxRetries <=? _); done.
Qed.

(** The world in which the close branch decides, after the QR part of the
    update and the removal of the session. *)
Lemma close_reaches_decision accountId accountData update sock w :
  upd_connection update = Some ConnClose →
  ∃ w0,
    sessions w0 = delete accountId (sessions w)
    ∧ retryCount w0 = retryCount w
    ∧ lastConnectionTime w0 = lastConnectionTime w
    ∧ timers w0 = timers w
    ∧ live w0 = live w
    ∧ effects w0 = effects w
    ∧ (is_Some (account_row E accountId w) → is_Some (account_row E accountId w0))
    ∧ (truthy_str (upd_qr update) = false → accounts w0 = accounts w)
    ∧ (handleConnectionUpdate E accountId accountData update sock w).2
      = (if shouldAttemptReconnect E (upd_statusCode update)
              (or_str (upd_errorMessage update) "Unknown error")
         then if negb (isPermanentError E (upd_statusCode update))
              then (scheduleReconnect E accountId (upd_statusCode update) w0).2
              else (Account_update E (account_status_qr AccError None) accountId w0).2
         else set_lastConnectionTime (delete accountId)
                (set_retryCount (delete accountId)
                   (Account_update E (account_status_qr AccDisconnected None)
                      accountId w0).2)).
Proof.
  intros Hc.
  exists (set_sessions (delete accountId)
            ((if truthy_str (upd_qr update)
              then onQr E accountId (default "" (upd_qr update))
              else mret ()) w).2).
  unfold handleConnectionUpdate. rewrite Hc. unfold onClose.
  destruct (truthy_str (upd_qr update)) eqn:Hq.
  - repeat split; try done.
    + intros [a Ha]. unfold onQr, Account_update, account_row in *.
      unmonad. cbn in *.
      destruct (db_id E accountId) as [k|]; cbn in *; [|done].
      rewrite lookup_alter_eq, Ha. eauto.
    + unmonad. unfold onQr, Account_update. unmonad. cbn.
      destruct (shouldAttemptReconnect E _ _); [|done].
      destruct (negb _); [|done].
      match goal with
    | |- context [scheduleReconnect E accountId ?c ?w0] =>
        pose proof (scheduleReconnect_ok accountId c w0) as Hok;
        destruct (scheduleReconnect E accountId c w0) as [res w1]
    end.
    cbn in Hok. by subst res.
  - repeat split; try done.
    unmonad. unfold Account_update. unmonad. cbn.
    destruct (shouldAttemptReconnect E _ _); [|done].
    destruct (negb _); [|done].
    match goal with
    | |- context [scheduleReconnect E accountId ?c ?w0] =>
        pose proof (scheduleReconnect_ok accountId c w0) as Hok;
        destruct (scheduleReconnect E accountId c w0) as [res w1]
    end.
    cbn in Hok. by subst res.
Qed.

(** X1: whatever its reason and whichever socket reports it, a close event
    takes the account's handle out of the session store, so that
    [getAccountStatus] says [disconnected]; the handler itself logs no
    handle out and opens none. *)
Theorem close_unregisters_the_account accountId accountData update sock w :
  upd_connection update = Some ConnClose →
  let w' := (handleConnectionUpdate E accountId accountData update sock w).2 in
  sessions w' = delete accountId (sessions w)
  ∧ getAccountStatus accountId w' = AccDisconnected
  ∧ live w' = live w
  ∧ effects w' = effects w.
Proof.
  intros Hc. cbn zeta.
  destruct (close_reaches_decision accountId accountData update sock w Hc)
    as (w0 & Hs & _ & _ & _ & Hl & He & _ & _ & Hw).
  assert (Hgoal : sessions (handleConnectionUpdate E accountId accountData update sock w).2
                  = sessions w0
                  ∧ live (handleConnectionUpdate E accountId accountData update sock w).2
                    = live w0
                  ∧ effects (handleConnectionUpdate E accountId accountData update sock w).2
                    = effects w0).
  { rewrite Hw.
    destruct (shouldAttemptReconnect E _ _); [|done].
    destruct (negb _); [|done].
    pose proof (scheduleReconnect_frame accountId (upd_statusCode update) w0)
      as (? & _ & ? & ? & _). done. }
  destruct Hgoal as (Hs' & Hl' & He').
  unfold getAccountStatus.
  rewrite Hs', Hl', He', Hs, Hl, He, lookup_delete_eq. done.
Qed.

(** X2: a close for a transient reason sets one reconnection timer of
    [min (5000 * 3^n) 300000] ms, where [n] is the retry counter, raises the
    counter to [n + 1] and persists [reconnecting]; with the counter at 5 it
    sets no timer, drops the counter and persists [error].  The rate-limit
    timestamp is kept in both cases. *)
Theorem transient_close_schedules_reconnect accountId accountData update sock w a :
  upd_connection update = Some ConnClose →
  transientClose E update →
  account_row E accountId w = Some a →
  let n := default 0 (retryCount w !! accountId) in
  let w' := (handleConnectionUpdate E accountId accountData update sock w).2 in
  lastConnectionTime w' = lastConnectionTime w
  ∧ (n < maxRetries →
       timers w' = timers w ++ [mkTimer (delayMs n) accountId (upd_statusCode update)]
       ∧ retryCount w' !! accountId = Some (n + 1)
       ∧ acc_status <$> account_row E accountId w' = Some AccReconnecting)
  ∧ (maxRetries ≤ n →
       timers w' = timers w
       ∧ retryCount w' !! accountId = None
       ∧ acc_status <$> account_row E accountId w' = Some AccError).
Proof.
  intros Hc Ht Ha. cbn zeta.
  destruct (close_reaches_decision accountId accountData update sock w Hc)
    as (w0 & _ & Hr & Hl & Htm & _ & _ & Hrow & _ & Hw).
  destruct (transientClose_classified update Ht) as [Hshould Hperm].
  rewrite Hshould, Hperm in Hw. cbn [negb] in Hw. rewrite Hw.
  destruct Hrow as [a0 Ha0]; [eauto|].
  pose proof (scheduleReconnect_frame accountId (upd_statusCode update) w0)
    as (_ & Hl' & _).
  rewrite Hl', Hl. split; [done|]. rewrite <- Hr. split; intros Hn.
  - destruct (scheduleReconnect_retries E accountId (upd_statusCode update) w0 Hn)
      as (_ & Ht' & Hr' & Hrow').
    rewrite Ht', Hr', Hrow', Htm, Ha0, lookup_insert_eq. done.
  - destruct (scheduleReconnect_gives_up E accountId (upd_statusCode update) w0 Hn)
      as (_ & Ht' & Hr' & Hrow').
    rewrite Ht', Hr', Hrow', Htm, Ha0, lookup_delete_eq. done.
Qed.

(** X3: a close with reason [multideviceMismatch] (and no other known
    reason, no rate-limit message) persists [error] with a null QR payload
    and sets no timer; the retry counter and the rate-limit timestamp stay
    as they were. *)
Theorem multidevice_mismatch_is_permanent accountId accountData update sock w a :
  upd_connection update = Some ConnClose →
  upd_statusCode update = dr_multideviceMismatch (DisconnectReason E) →
  upd_statusCode update ≠ dr_loggedOut (DisconnectReason E) →
  upd_statusCode update ≠ dr_forbidden (DisconnectReason E) →
  upd_statusCode update ≠ dr_banned (DisconnectReason E) →
  includes (or_str (upd_errorMessage update) "Unknown error") "rate limit" = false →
  account_row E accountId w = Some a →
  let w' := (handleConnectionUpdate E accountId accountData update sock w).2 in
  acc_status <$> account_row E accountId w' = Some AccError
  ∧ acc_qr_code <$> account_row E accountId w' = Some None
  ∧ timers w' = timers w
  ∧ retryCount w' = retryCount w
  ∧ lastConnectionTime w' = lastConnectionTime w.
Proof.
  intros Hc Hm H1 H2 H3 H5 Ha. cbn zeta.
  destruct (close_reaches_decision accountId accountData update sock w Hc)
    as (w0 & _ & Hr & Hl & Htm & _ & _ & Hrow & _ & Hw).
  assert (Hshould : shouldAttemptReconnect E (upd_statusCode update)
            (or_str (upd_errorMessage update) "Unknown error") = true).
  { unfold shouldAttemptReconnect. rewrite H5, andb_false_r.
    by rewrite !bool_decide_eq_false_2 by done. }
  assert (Hperm : isPermanentError E (upd_statusCode update) = true).
  { unfold isPermanentError. apply bool_decide_eq_true_2.
    rewrite Hm, !elem_of_cons. tauto. }
  rewrite Hshould, Hperm in Hw. cbn [negb] in Hw. rewrite Hw, account_row_update.
  destruct Hrow as [a0 Ha0]; [eauto|]. rewrite Ha0.
  unfold Account_update. unmonad. cbn. by rewrite Htm, Hr, Hl.
Qed.

(** X4: a close whose message mentions a rate limit (and whose reason is
    not [loggedOut]) is handled like a logout: it persists [disconnected],
    sets no timer, and drops the rate-limit timestamp, so that the next
    connect call is not turned away by the rate limiter. *)
Theorem rate_limit_close_clears_the_limiter accountId accountData update sock w a msg :
  upd_connection update = Some ConnClose →
  upd_errorMessage update = Some msg →
  includes msg "rate limit" = true →
  account_row E accountId w = Some a →
  let w' := (handleConnectionUpdate E accountId accountData update sock w).2 in
  acc_status <$> account_row E accountId w' = Some AccDisconnected
  ∧ timers w' = timers w
  ∧ lastConnectionTime w' !! accountId = None
  ∧ ∀ remaining a',
      (connectAccount E accountId w').1 ≠ Throw (RateLimited remaining a').
Proof.
  intros Hc Hm Hi Ha. 
  assert (Hshould : shouldAttemptReconnect E (upd_statusCode update)
            (or_str (upd_errorMessage update) "Unknown error") = false).
  { assert (Hne : msg ≠ "") by (by apply (includes_nonempty msg "rate limit")).
    unfold shouldAttemptReconnect, or_str. rewrite Hm.
    apply String.eqb_neq in Hne. rewrite !Hne, Hi. cbn.
    by destruct (bool_decide _). }
  destruct (close_without_retry E accountId accountData update sock w Hc Hshould)
    as (Hrow & Ht & _ & _ & _ & _ & Hl).
  cbn zeta. rewrite Hrow, Ht, Hl, Ha, lookup_delete_eq.
  repeat split; try done.
  intros remaining a'.
  destruct (connectAccount_allowed E accountId
              (handleConnectionUpdate E accountId accountData update sock w).2)
    as [_ [-> | [[why ->] | ->]]]; [|done..].
  left. by rewrite Hl, lookup_delete_eq.
Qed.


(** ** Where the retry counter is dropped *)

(** A connect call that returns has persisted [connecting]: no connection
    is open yet. *)
Lemma connectAccount_returns accountId w h w' :
  connectAccount E accountId w = (Ok h, w') →
  acc_status <$> account_row E accountId w' = Some AccConnecting
  ∧ sessions w' !! accountId = Some h.
Proof.
  unfold connectAccount, Date_now. unmonad. cbn.
  unfold Account_findByPk, makeWASocket, external, Account_update, account_row.
  unmonad.
  destruct (truthy_num _ && _); cbn; [done|].
  destruct (db_id E accountId) as [k|]; cbn; [|done].
  destruct (accounts w !! k) as [a|] eqn:Ha; cbn; [|done].
  destruct (ext_throws E (ticks w)); cbn; [done|].
  intros [= <- <-]. cbn. by rewrite lookup_insert_eq, lookup_alter_eq, Ha.
Qed.

(** The timer whose reconnection attempt returns. *)
Lemma fireTimer_returned accountId reason w d :
  last (timers w) = Some (mkTimer d accountId reason) →
  ¬ timerFails E w →
  retryCount (fireTimer E w) = delete accountId (retryCount w)
  ∧ timers (fireTimer E w) = timers w
  ∧ acc_status <$> account_row E accountId (fireTimer E w) = Some AccConnecting.
Proof.
  intros Hlast Hok. unfold timerFails, fireTimer in *. rewrite Hlast in *.
  cbn [timer_accountId timer_disconnectReason timer_delayMs] in *.
  pose proof (connectAccount_frame E accountId
                (cleanSessionFiles accountId false (elapse d w)).2) as (Hr & Ht & _).
  destruct (connectAccount E accountId (cleanSessionFiles accountId false (elapse d w)).2)
    as [[h|error] w1] eqn:Hc.
  - rewrite (reconnectTimer_resets_counter E _ _ _ _ _ Hc).
    destruct (connectAccount_returns _ _ _ _ Hc) as [Hs _].
    cbn in *. by rewrite Hr, Ht.
  - destruct Hok. by exists error.
Qed.

(** C1: the delay that [scheduleReconnect] sets is [min (5000 * 3^n) 300000]
    for retry counter [n], but the counter does not count consecutive
    transient failures.  The timer callback drops it as soon as its
    [connectAccount] call returns, which is when the socket has been
    created and [connecting] persisted, before any connection has opened.
    So when the connection closes again for a transient reason after such
    an attempt, the next delay is 5000 ms again and the counter is 1,
    whatever it was before: the delays 15000, 45000, ... and the status
    [error] are reached only through attempts that throw. *)
Theorem returning_reconnect_restarts_the_backoff
    accountId accountData update sock w a :
  upd_connection update = Some ConnClose →
  transientClose E update →
  account_row E accountId w = Some a →
  let n := default 0 (retryCount w !! accountId) in
  n < maxRetries →
  let closed := (handleConnectionUpdate E accountId accountData update sock w).2 in
  ¬ timerFails E closed →
  let reconnected := fireTimer E closed in
  timers closed = timers w ++ [mkTimer (delayMs n) accountId (upd_statusCode update)]
  ∧ retryCount closed !! accountId = Some (n + 1)
  ∧ retryCount reconnected !! accountId = None
  ∧ timers reconnected = timers closed
  ∧ acc_status <$> account_row E accountId reconnected = Some AccConnecting
  ∧ ∀ accountData' sock',
      let again :=
        (handleConnectionUpdate E accountId accountData' update sock' reconnected).2 in
      timers again = timers closed ++ [mkTimer 5000 accountId (upd_statusCode update)]
      ∧ retryCount again !! accountId = Some 1
      ∧ acc_status <$> account_row E accountId again = Some AccReconnecting.
Proof.
  intros Hc Htrans Ha. cbn zeta. intros Hn Hok.
  destruct (transientClose_classified update Htrans) as [Hshould Hperm].
  assert (Hclose : ∀ accountData0 sock0 w0 a0,
            account_row E accountId w0 = Some a0 →
            default 0 (retryCount w0 !! accountId) < maxRetries →
            let w' := (handleConnectionUpdate E accountId accountData0 update sock0 w0).2 in
            timers w'
            = timers w0 ++ [mkTimer (delayMs (default 0 (retryCount w0 !! accountId)))
                              accountId (upd_statusCode update)]
            ∧ retryCount w' !! accountId
              = Some (default 0 (retryCount w0 !! accountId) + 1)
            ∧ acc_status <$> account_row E accountId w' = Some AccReconnecting).
  { intros accountData0 sock0 w0 a0 Ha0 Hn0. cbn zeta.
    destruct (close_reaches_decision accountId accountData0 update sock0 w0 Hc)
      as (w00 & _ & Hr & _ & Htm & _ & _ & Hrow & _ & Hw).
    rewrite Hw, Hshould, Hperm. cbn [negb].
    destruct (scheduleReconnect_retries E accountId (upd_statusCode update) w00)
      as (_ & Ht' & Hr' & Hrow').
    { by rewrite Hr. }
    destruct Hrow as [a00 Ha00]; [by eexists|].
    rewrite Ht', Hr', Hrow', Htm, Hr, Ha00, lookup_insert_eq. done. }
  destruct (Hclose accountData sock w a Ha Hn) as (Ht1 & Hr1 & Hs1).
  set (closed := (handleConnectionUpdate E accountId accountData update sock w).2) in *.
  destruct (fireTimer_returned accountId (upd_statusCode update) closed
              (delayMs (default 0 (retryCount w !! accountId))))
    as (Hr2 & Ht2 & Hs2); [by rewrite Ht1, last_snoc|done|].
  split; [done|]. split; [done|]. split; [by rewrite Hr2, lookup_delete_eq|].
  split; [done|]. split; [done|].
  intros accountData' sock'.
  destruct (account_row E accountId (fireTimer E closed)) as [a2|] eqn:Ha2; [|done].
  assert (Hzero : default 0 (retryCount (fireTimer E closed) !! accountId) = 0).
  { by rewrite Hr2, lookup_delete_eq. }
  destruct (Hclose accountData' sock' (fireTimer E closed) a2 Ha2) as (Ht3 & Hr3 & Hs3).
  { rewrite Hzero. done. }
  rewrite Ht3, Hr3, Hs3, Hzero, Ht2. done.
Qed.

(** ** Connecting and disconnecting *)

(** A connect call that throws has changed, besides the rate-limit
    timestamp and the tick count, the status of the account's row only. *)
Lemma connectAccount_throws accountId w error w' :
  connectAccount E accountId w = (Throw error, w') →
  accounts w'
  = match db_id E accountId with
    | Some k => alter (account_status AccError) k (accounts w)
    | None => accounts w
    end
  ∧ sessions w' = sessions w
  ∧ live w' = live w
  ∧ effects w' = effects w
  ∧ next_handle w' = next_handle w.
Proof.
  unfold connectAccount, Date_now. unmonad. cbn.
  unfold Account_findByPk, makeWASocket, external, Account_update, account_row.
  unmonad.
  destruct (truthy_num _ && _); cbn.
  - by intros [= <- <-].
  - destruct (db_id E accountId) as [k|]; cbn; [|by intros [= <- <-]].
    destruct (accounts w !! k) as [a|] eqn:Ha; cbn.
    + destruct (ext_throws E (ticks w)); cbn; [|done].
      by intros [= <- <-].
    + by intros [= <- <-].
Qed.

(** X5: a connect call that throws, for whatever reason, persists [error]
    for the account although it leaves the session store, the live handles,
    the retry counters and the timers as they were: an account that is
    connected is marked [error] by a connect call that the rate limiter
    turns away. *)
Theorem failed_connect_marks_error accountId w error w' a :
  connectAccount E accountId w = (Throw error, w') →
  account_row E accountId w = Some a →
  account_row E accountId w' = Some (account_status AccError a)
  ∧ getAccountStatus accountId w' = getAccountStatus accountId w
  ∧ sessions w' = sessions w
  ∧ live w' = live w
  ∧ retryCount w' = retryCount w
  ∧ timers w' = timers w
  ∧ effects w' = effects w.
Proof.
  intros Hc Ha.
  destruct (connectAccount_throws accountId w error w' Hc) as (Hacc & Hs & Hl & He & _).
  pose proof (connectAccount_frame E accountId w) as (Hr & Ht & _).
  rewrite Hc in Hr, Ht. cbn in Hr, Ht.
  unfold getAccountStatus. rewrite Hs, Hl, He, Hr, Ht.
  repeat split; try done.
  unfold account_row in *. rewrite Hacc.
  destruct (db_id E accountId) as [k|]; cbn in *; [|done].
  by rewrite lookup_alter_eq, Ha.
Qed.

(** What [disconnectAccount] does when there is no session, or when the
    logout returns. *)
Lemma disconnectAccount_clean accountId w :
  sessions w !! accountId = None ∨ ext_throws E (ticks w) = None →
  let r := disconnectAccount E accountId w in
  r.1 = Ok ()
  ∧ sessions r.2 = delete accountId (sessions w)
  ∧ retryCount r.2 = delete accountId (retryCount w)
  ∧ lastConnectionTime r.2 = delete accountId (lastConnectionTime w)
  ∧ account_row E accountId r.2
    = account_status_qr AccDisconnected None <$> account_row E accountId w
  ∧ timers r.2 = timers w
  ∧ clock r.2 = clock w
  ∧ (∀ h, sessions w !! accountId = Some h → live r.2 = delete h (live w))
  ∧ (sessions w !! accountId = None → live r.2 = live w).
Proof.
  intros Hcase. cbn zeta.
  unfold disconnectAccount, sock_logout, Account_update, account_row. unmonad. cbn.
  destruct (sessions w !! accountId) as [h|] eqn:Hs; cbn.
  - destruct Hcase as [|Hx]; [done|]. rewrite Hx. cbn.
    repeat split; try done.
    + destruct (db_id E accountId) as [k|]; cbn; [|done]. by rewrite lookup_alter_eq.
    + by intros ? [= <-].
  - repeat split; try done.
    destruct (db_id E accountId) as [k|]; cbn; [|done]. by rewrite lookup_alter_eq.
Qed.

(** X6: [disconnectAccount] never throws.  With no registered handle, or
    when the logout returns, it removes the account's session, retry counter
    and rate-limit timestamp, tears the handle down and persists
    [disconnected] with a null QR payload. *)
Theorem disconnect_clears_the_account accountId w a :
  sessions w !! accountId = None ∨ ext_throws E (ticks w) = None →
  account_row E accountId w = Some a →
  let r := disconnectAccount E accountId w in
  r.1 = Ok ()
  ∧ sessions r.2 !! accountId = None
  ∧ retryCount r.2 !! accountId = None
  ∧ lastConnectionTime r.2 !! accountId = None
  ∧ account_row E accountId r.2 = Some (account_status_qr AccDisconnected None a)
  ∧ (∀ h, sessions w !! accountId = Some h → live r.2 !! h = None).
Proof.
  intros Hcase Ha. cbn zeta.
  destruct (disconnectAccount_clean accountId w Hcase)
    as (Hr & Hs & Hrc & Hl & Hrow & _ & _ & Hlive & _).
  rewrite Hr, Hs, Hrc, Hl, Hrow, Ha, !lookup_delete_eq.
  repeat split; try done.
  intros h Hh. by rewrite (Hlive h Hh), lookup_delete_eq.
Qed.

(** X7: when the logout of the registered handle throws,
    [disconnectAccount] swallows the error and does nothing else: the call
    returns normally, yet the handle stays registered and live, the retry
    counter and the rate-limit timestamp stay, and no status is persisted. *)
Theorem disconnect_with_failing_logout_changes_nothing accountId w h why :
  sessions w !! accountId = Some h →
  ext_throws E (ticks w) = Some why →
  let r := disconnectAccount E accountId w in
  r.1 = Ok ()
  ∧ sessions r.2 = sessions w
  ∧ live r.2 = live w
  ∧ retryCount r.2 = retryCount w
  ∧ lastConnectionTime r.2 = lastConnectionTime w
  ∧ accounts r.2 = accounts w
  ∧ effects r.2 = effects w ++ [EvLogout h false].
Proof.
  intros Hs Hx. cbn zeta.
  unfold disconnectAccount, sock_logout. unmonad. cbn. rewrite Hs. cbn.
  rewrite Hx. done.
Qed.

(** X8: a connect call that follows a [disconnectAccount] whose logout did
    not throw is never turned away by the rate limiter, however soon it
    comes: the reservation went with the disconnect. *)
Theorem connect_after_disconnect_is_not_rate_limited accountId w ms :
  sessions w !! accountId = None ∨ ext_throws E (ticks w) = None →
  ∀ remaining a,
    (connectAccount E accountId (elapse ms (disconnectAccount E accountId w).2)).1
    ≠ Throw (RateLimited remaining a).
Proof.
  intros Hcase remaining a.
  destruct (disconnectAccount_clean accountId w Hcase) as (_ & _ & _ & Hl & _).
  destruct (connectAccount_allowed E accountId
              (elapse ms (disconnectAccount E accountId w).2))
    as [_ [-> | [[why ->] | ->]]]; [|done..].
  left. cbn. by rewrite Hl, lookup_delete_eq.
Qed.

(** [forceReconnectAccount] up to its connect call. *)
Lemma forceReconnect_reaches_connect accountId w :
  ∃ w0,
    lastConnectionTime w0 !! accountId = None
    ∧ sessions w0 = delete accountId (sessions w)
    ∧ retryCount w0 = delete accountId (retryCount w)
    ∧ timers w0 = timers w
    ∧ (is_Some (account_row E accountId w) → is_Some (account_row E accountId w0))
    ∧ forceReconnectAccount E accountId w
      = match connectAccount E accountId w0 with
        | (Ok _, w1) => (Ok (), w1)
        | (Throw error, w1) =>
            (Throw error, (Account_update E (account_status AccError) accountId w1).2)
        end.
Proof.
  unfold forceReconnectAccount, sock_logout, cleanSessionFiles, Account_update.
  unmonad. cbn.
  destruct (sessions w !! accountId) as [h|] eqn:Hs; cbn;
    [destruct (ext_throws E (ticks w)); cbn|];
    match goal with
    | |- context [connectAccount E accountId ?x] => exists x
    end;
    (split; [cbn; apply lookup_delete_eq|]);
    (split; [cbn; first [done | by rewrite delete_id]|]);
    (split; [done|]); (split; [done|]);
    (split; [intros [a Ha]; unfold account_row in *; cbn in *;
             destruct (db_id E accountId) as [k|]; cbn in *; [|done];
             rewrite lookup_alter_eq, Ha; eauto|]);
    match goal with
    | |- context [connectAccount E accountId ?x] =>
        by destruct (connectAccount E accountId x) as [[?|?] ?]
    end.
Qed.

(** X9: [forceReconnectAccount] is never turned away by the rate limiter,
    whenever the last attempt was and whether or not the logout of the old
    handle throws; when it throws for another reason the old registration
    is gone and [error] is persisted. *)
Theorem forceReconnect_is_not_rate_limited accountId w :
  let r := forceReconnectAccount E accountId w in
  (∀ remaining a, r.1 ≠ Throw (RateLimited remaining a))
  ∧ (∀ error, r.1 = Throw error →
       sessions r.2 !! accountId = None
       ∧ (is_Some (account_row E accountId w) →
          acc_status <$> account_row E accountId r.2 = Some AccError)).
Proof.
  cbn zeta.
  destruct (forceReconnect_reaches_connect accountId w)
    as (w0 & Hl & Hs & _ & _ & Hrow & Hrun).
  rewrite Hrun.
  destruct (connectAccount_allowed E accountId w0) as [_ Hout]; [by left|].
  destruct (connectAccount E accountId w0) as [[h|error] w1] eqn:Hc;
    cbn [fst snd] in *.
  - split; [done|]. intros error. done.
  - split.
    + intros remaining a. destruct Hout as [[= ->] | [[why [= ->]] | ?]]; done.
    + intros ? _.
      destruct (connectAccount_throws accountId w0 error w1 Hc)
        as (Hacc1 & Hs1 & _).
      split.
      * unfold Account_update. unmonad. cbn. by rewrite Hs1, Hs, lookup_delete_eq.
      * intros Ha. destruct (Hrow Ha) as [a0 Ha0].
        rewrite account_row_update. unfold account_row in *. rewrite Hacc1.
        destruct (db_id E accountId) as [k|]; cbn in *; [|done].
        by rewrite lookup_alter_eq, Ha0.
Qed.

(** ** [getAccountStatus] *)

(** X10: as soon as a connect call has returned, and before any open event,
    [getAccountStatus] answers [connected] for the account, while the
    persisted status is [connecting]. *)
Theorem status_is_connected_before_open accountId w h w' :
  connectAccount E accountId w = (Ok h, w') →
  getAccountStatus accountId w' = AccConnected
  ∧ sessions w' !! accountId = Some h
  ∧ acc_status <$> account_row E accountId w' = Some AccConnecting.
Proof.
  unfold connectAccount, Date_now, getAccountStatus. unmonad. cbn.
  unfold Account_findByPk, makeWASocket, external, Account_update, account_row.
  unmonad.
  destruct (truthy_num _ && _); cbn; [done|].
  destruct (db_id E accountId) as [k|]; cbn; [|done].
  destruct (accounts w !! k) as [a|] eqn:Ha; cbn; [|done].
  destruct (ext_throws E (ticks w)); cbn; [done|].
  intros [= <- <-]. cbn. by rewrite !lookup_insert_eq, lookup_alter_eq, Ha.
Qed.

(** X11: when [getAccountStatus] answers [connected] for an identifier that
    [parseInt] or [String] leaves as it is, [sendMessage] finds a session
    for it: it does not throw "Account not connected". *)
Theorem connected_status_means_a_session_is_found
    accountId phone text mediaPath mimeType originalName w :
  js_parseInt E accountId = accountId ∨ JStr (js_String E accountId) = accountId →
  getAccountStatus accountId w = AccConnected →
  (sendMessage E accountId phone text mediaPath mimeType originalName w).1
  ≠ Throw AccountNotConnected.
Proof.
  intros Hid Hst. unfold getAccountStatus in Hst.
  destruct (sessions w !! accountId) as [h|] eqn:Hs; [|done].
  assert (Hfound : ∃ h', (lookupSession E accountId w) = (Ok (Some h'), w)).
  { unfold lookupSession. unmonad.
    destruct Hid as [-> | ->].
    - rewrite Hs. eauto.
    - destruct (sessions w !! js_parseInt E accountId); [eauto|]. rewrite Hs. eauto. }
  destruct Hfound as [h' Hfound].
  unfold sendMessage, ActivityLog_create. unmonad. rewrite Hfound. cbn.
  destruct (truthy_str mediaPath); cbn.
  - unfold mediaContent. unmonad.
    destruct (fs_media E (default "" mediaPath)); cbn; [done..|].
    destruct (String.prefix "image/" _);
      [|destruct (String.prefix "video/" _);
        [|destruct (String.prefix "audio/" _)]];
      unfold sock_sendMessage; cbn; destruct (ext_throws E (ticks w)); done.
  - unfold sock_sendMessage; destruct (ext_throws E (ticks w)); done.
Qed.

(** ** The retry bookkeeping *)


Lemma delayMs_monotone n m : 0 ≤ n ≤ m → delayMs n ≤ delayMs m.
Proof.
  intros Hnm. unfold delayMs.
  assert (3 ^ n ≤ 3 ^ m) by (apply Z.pow_le_mono_r; lia). lia.
Qed.











Lemma logoutEach_frame entries :
  ∀ w, (logoutEach E entries w).1 = Ok ()
       ∧ timers (logoutEach E entries w).2 = timers w
       ∧ accounts (logoutEach E entries w).2 = accounts w
       ∧ campaigns (logoutEach E entries w).2 = campaigns w
       ∧ campaign_messages (logoutEach E entries w).2 = campaign_messages w.
Proof.
  induction entries as [|entry rest IH]; intros w; [done|].
  cbn [logoutEach]. unfold sock_logout. unmonad.
  destruct (ext_throws E (ticks w)); cbn;
    match goal with
    | |- context [logoutEach E rest ?x] =>
        destruct (IH x) as (Hok & Ht & Ha & Hc & Hm);
        destruct (logoutEach E rest x) as [res w2]
    end; cbn in *; by rewrite Hok, Ht, Ha, Hc, Hm.
Qed.



(** ** Sending *)

(** X13: for an identifier that selects an account row, every call of
    [sendMessage] appends exactly one entry to the activity log, for the
    account as it was passed: [message_sent] when the call returns,
    [message_failed] when it throws; and it writes to no other table. *)
Theorem sendMessage_logs_once accountId phone text mediaPath mimeType originalName w :
  is_Some (account_row E accountId w) →
  let r := sendMessage E accountId phone text mediaPath mimeType originalName w in
  accounts r.2 = accounts w
  ∧ campaigns r.2 = campaigns w
  ∧ campaign_messages r.2 = campaign_messages w
  ∧ ∃ description,
      activity_logs r.2
      = activity_logs w
        ++ [mkActivityLog accountId
              (match r.1 with Ok _ => "message_sent" | Throw _ => "message_failed" end)
              description].
Proof.
  intros _.
  cbn zeta. unfold sendMessage, lookupSession, ActivityLog_create. unmonad. cbn.
  destruct (match sessions w !! js_parseInt E accountId with
            | Some sock => Some sock
            | None => sessions w !! JStr (js_String E accountId)
            end) as [h|]; cbn; [|by eauto 10].
  destruct (truthy_str mediaPath); cbn.
  - unfold mediaContent. unmonad.
    destruct (fs_media E (default "" mediaPath)) as [?|?|buf]; cbn; [by eauto 10..|].
    destruct (String.prefix "image/" _);
      [|destruct (String.prefix "video/" _);
        [|destruct (String.prefix "audio/" _)]];
      unfold sock_sendMessage; cbn;
      destruct (ext_throws E (ticks w)); cbn; eauto 10.
  - unfold sock_sendMessage; destruct (ext_throws E (ticks w)); cbn; eauto 10.
Qed.

(** X14: [sendTextMessage] writes to no table, the activity log included,
    and every error it throws has a message that starts with
    "Failed to send message: "; for an account without a session the message
    is "Failed to send message: Account <id> is not connected". *)
Theorem sendTextMessage_wraps_and_logs_nothing accountId toNumber text w :
  let r := sendTextMessage E accountId toNumber text w in
  activity_logs r.2 = activity_logs w
  ∧ accounts r.2 = accounts w
  ∧ campaign_messages r.2 = campaign_messages w
  ∧ (∀ error, r.1 = Throw error →
       ∃ why, message E error = "Failed to send message: " +:+ why)
  ∧ (sessions w !! js_parseInt E accountId = None →
     sessions w !! JStr (js_String E accountId) = None →
     r.1 = Throw (ErrorOf ("Failed to send message: Account "
                           +:+ js_String E accountId +:+ " is not connected"))
     ∧ effects r.2 = effects w).
Proof.
  cbn zeta. unfold sendTextMessage, lookupSession, sock_sendMessage. unmonad. cbn.
  destruct (sessions w !! js_parseInt E accountId) as [h|]; cbn.
  - destruct (ext_throws E (ticks w)); cbn; repeat split; try done.
    intros ? [= <-]. cbn. eauto.
  - destruct (sessions w !! JStr (js_String E accountId)) as [h|]; cbn.
    + destruct (ext_throws E (ticks w)); cbn; repeat split; try done.
      intros ? [= <-]. cbn. eauto.
    + repeat split; try done. intros ? [= <-]. cbn. eauto.
Qed.

(** X15: when the media file cannot be stat'ed or read, [sendMessage] for an
    identifier that selects an account row throws the file error before it
    reaches the transport: no send is made, and the failure is logged with
    the file error's text. *)
Theorem unreadable_media_is_not_sent accountId phone text mediaPath mimeType originalName w h :
  is_Some (account_row E accountId w) →
  (lookupSession E accountId w).1 = Ok (Some h) →
  mediaPath ≠ "" →
  (∀ bytes, fs_media E mediaPath ≠ MediaBuffer bytes) →
  let r := sendMessage E accountId phone text (Some mediaPath) mimeType originalName w in
  ∃ error,
    r.1 = Throw error
    ∧ (error = MediaFileNotFound mediaPath ∨ ∃ why, error = MediaReadFailed why)
    ∧ effects r.2 = effects w
    ∧ ticks r.2 = ticks w
    ∧ activity_logs r.2
      = activity_logs w
        ++ [mkActivityLog accountId "message_failed"
              ("Failed to send message to " +:+ phone +:+ ": " +:+ message E error)].
Proof.
  intros _ Hl Hne Hfs. cbn zeta.
  unfold sendMessage, ActivityLog_create, lookupSession in *. unmonad. cbn in *.
  injection Hl as ->. cbn.
  apply String.eqb_neq in Hne. rewrite Hne. cbn.
  unfold mediaContent. unmonad.
  destruct (fs_media E mediaPath) as [?|why|buf] eqn:Hm; cbn.
  - eauto 10.
  - eexists. repeat split; eauto.
  - by destruct (Hfs buf).
Qed.

Lemma prefix_audio_not_image_video s :
  String.prefix "audio/" s = true →
  String.prefix "image/" s = false ∧ String.prefix "video/" s = false.
Proof.
  intros Ha. apply String.prefix_correct in Ha. cbn [String.length] in Ha.
  split;
    (match goal with |- ?p = false => destruct p eqn:Hp end; [|done];
     apply String.prefix_correct in Hp; cbn [String.length] in Hp; congruence).
Qed.

(** X16: for a media file whose MIME type starts with "audio/", the content
    handed to the transport is the audio buffer with its MIME type: the
    text of the message is not sent, whatever it is. *)
Theorem audio_is_sent_without_its_text
    accountId phone text mediaPath mimeType originalName w h bytes :
  (lookupSession E accountId w).1 = Ok (Some h) →
  mediaPath ≠ "" →
  fs_media E mediaPath = MediaBuffer bytes →
  String.prefix "audio/" (or_str mimeType (getMimeType E mediaPath)) = true →
  let r := sendMessage E accountId phone text (Some mediaPath) mimeType originalName w in
  ∃ jid ok,
    effects r.2
    = effects w
      ++ [EvSend h jid
            (AudioContent bytes (or_str mimeType (getMimeType E mediaPath))) ok].
Proof.
  intros Hl Hne Hfs Haudio. cbn zeta.
  destruct (prefix_audio_not_image_video _ Haudio) as [Hi Hv].
  unfold sendMessage, ActivityLog_create, lookupSession in *. unmonad. cbn in *.
  injection Hl as ->. cbn.
  apply String.eqb_neq in Hne. rewrite Hne. cbn.
  unfold mediaContent. unmonad. rewrite Hfs, Hi, Hv, Haudio. cbn.
  unfold sock_sendMessage. destruct (ext_throws E (ticks w)); cbn; eauto.
Qed.

(** X17: a media file whose extension is not in the table of
    [getMimeType], sent without a MIME type of its own, goes out as a
    document of type "application/octet-stream" under its original name or,
    failing that, the base name of its path. *)
Theorem unknown_extension_is_sent_as_document
    accountId phone text mediaPath originalName w h bytes :
  (lookupSession E accountId w).1 = Ok (Some h) →
  mediaPath ≠ "" →
  fs_media E mediaPath = MediaBuffer bytes →
  js_toLowerCase E (path_extname E mediaPath) ∉ mimeTypes.*1 →
  let r := sendMessage E accountId phone text (Some mediaPath) None originalName w in
  getMimeType E mediaPath = "application/octet-stream"
  ∧ ∃ jid ok,
      effects r.2
      = effects w
        ++ [EvSend h jid
              (DocumentContent bytes "application/octet-stream"
                 (or_str originalName (path_basename E mediaPath))
                 (caption_of E text)) ok].
Proof.
  intros Hl Hne Hfs Hext. cbn zeta.
  assert (Hmime : getMimeType E mediaPath = "application/octet-stream").
  { unfold getMimeType.
    destruct (list_find _ mimeTypes) as [[i kv]|] eqn:Hfind; [|done].
    apply list_find_Some in Hfind as (Hin & Heq & _).
    destruct Hext. rewrite <- Heq. apply list_elem_of_fmap. exists kv. split; [done|].
    by eapply list_elem_of_lookup_2. }
  split; [done|].
  unfold sendMessage, ActivityLog_create, lookupSession in *. unmonad. cbn in *.
  injection Hl as ->. cbn.
  apply String.eqb_neq in Hne. rewrite Hne. cbn.
  unfold mediaContent. unmonad. rewrite Hfs. cbn [or_str]. rewrite Hmime. cbn.
  unfold sock_sendMessage. destruct (ext_throws E (ticks w)); cbn; eauto.
Qed.

(** ** A pass that no other task interferes with *)

Lemma interleave_quiet i w :
  (∀ i w, concurrent E i w = w) → interleave E i w = w.
Proof. intros Hq. unfold interleave. rewrite Hq. by destruct w. Qed.

(** [sendMessage] leaves the maps of the service and the account table
    alone. *)
Lemma sendMessage_frame accountId phone text mediaPath mimeType originalName w :
  let r := sendMessage E accountId phone text mediaPath mimeType originalName w in
  sessions r.2 = sessions w
  ∧ accounts r.2 = accounts w
  ∧ timers r.2 = timers w.
Proof.
  cbn zeta. unfold sendMessage, lookupSession, ActivityLog_create. unmonad. cbn.
  destruct (match sessions w !! js_parseInt E accountId with
            | Some sock => Some sock
            | None => sessions w !! JStr (js_String E accountId)
            end) as [h|]; cbn; [|done].
  assert (Hsend : ∀ content jid,
    let r := sock_sendMessage E h jid content w in
    sessions r.2 = sessions w ∧ accounts r.2 = accounts w ∧ timers r.2 = timers w).
  { intros content jid. unfold sock_sendMessage.
    destruct (ext_throws E (ticks w)); done. }
  destruct (truthy_str mediaPath); cbn.
  - unfold mediaContent. unmonad.
    destruct (fs_media E (default "" mediaPath)) as [?|?|buf]; cbn; [done..|].
    destruct (String.prefix "image/" _); [|destruct (String.prefix "video/" _);
      [|destruct (String.prefix "audio/" _)]]; cbn;
      match goal with
      | |- context [sock_sendMessage E h ?jid ?content w] =>
          pose proof (Hsend content jid) as Hf; cbn zeta in Hf;
          destruct (sock_sendMessage E h jid content w) as [[[]|] ?]; exact Hf
      end.
  - match goal with
    | |- context [sock_sendMessage E h ?jid ?content w] =>
        pose proof (Hsend content jid) as Hf; cbn zeta in Hf;
        destruct (sock_sendMessage E h jid content w) as [[[]|] ?]; exact Hf
    end.
Qed.

(** One iteration while the campaign is [running] and nothing interferes:
    the message is written [sent] or [failed], and counted. *)
Lemma dispatchOne_quiet campaignId accountId c i m cnt w :
  (∀ i w, concurrent E i w = w) →
  cmp_status <$> campaign_row E campaignId w = Some CmpRunning →
  ∃ f cnt' w',
    dispatchOne E campaignId accountId c i m cnt w = (Ok (Continue, cnt'), w')
    ∧ campaigns w' = campaigns w
    ∧ accounts w' = accounts w
    ∧ sessions w' = sessions w
    ∧ campaign_messages w' = alter f m.1 (campaign_messages w)
    ∧ (∀ row, msg_status (f row) ≠ MsgPending)
    ∧ cnt'.1 + cnt'.2 = cnt.1 + cnt.2 + 1
    ∧ cnt.1 ≤ cnt'.1 ∧ cnt.2 ≤ cnt'.2.
Proof.
  intros Hq Hrun.
  assert (Hobs : cmp_status <$> observed E campaignId i w = Some CmpRunning).
  { unfold observed. by rewrite interleave_quiet. }
  assert (Hi : interleave E i w = w) by by apply interleave_quiet.
  pose proof (sendMessage_log E accountId (msg_phone m.2) (msg_message_text m.2)
                (msg_media_path m.2) None None w) as (Hm & Hc & _).
  pose proof (sendMessage_frame accountId (msg_phone m.2) (msg_message_text m.2)
                (msg_media_path m.2) None None w) as (Hs & Ha & _).
  destruct (sendMessage E accountId (msg_phone m.2) (msg_message_text m.2)
              (msg_media_path m.2) None None w)
    as [[[]|error] w1] eqn:Hsend; cbn in Hm, Hc, Hs, Ha;
    rewrite <- Hi in Hsend at 1.
  - rewrite (dispatchOne_sent _ _ _ _ _ _ _ _ _ Hobs Hsend).
    exists (message_sent (clock w1)). eexists _, _. split; [done|].
    unfold delay, CampaignMessage_update. unmonad. cbn.
    rewrite Hm, Hc, Hs, Ha. repeat split; try done; lia.
  - rewrite (dispatchOne_failed _ _ _ _ _ _ _ _ _ _ Hobs Hsend).
    exists (message_failed (message E error)). eexists _, _. split; [done|].
    unfold CampaignMessage_update. unmonad. cbn.
    rewrite Hm, Hc, Hs, Ha. repeat split; try done; lia.
Qed.

Lemma dispatchLoop_quiet campaignId accountId c pendingMessages :
  (∀ i w, concurrent E i w = w) →
  ∀ i cnt w,
  cmp_status <$> campaign_row E campaignId w = Some CmpRunning →
  ∃ cnt' w',
    dispatchLoop E campaignId accountId c i pendingMessages cnt w
    = (Ok (Continue, cnt'), w')
    ∧ campaigns w' = campaigns w
    ∧ accounts w' = accounts w
    ∧ sessions w' = sessions w
    ∧ cnt'.1 + cnt'.2 = cnt.1 + cnt.2 + Z.of_nat (length pendingMessages)
    ∧ cnt.1 ≤ cnt'.1 ∧ cnt.2 ≤ cnt'.2
    ∧ (∀ k, k ∈ pendingMessages.*1 →
         msg_status <$> campaign_messages w' !! k ≠ Some MsgPending)
    ∧ (∀ k, k ∉ pendingMessages.*1 →
         campaign_messages w' !! k = campaign_messages w !! k).
Proof.
  intros Hq. induction pendingMessages as [|m rest IH]; intros i cnt w Hrun.
  - exists cnt, w. cbn. repeat split; try done; try lia.
    intros k Hk. by apply elem_of_nil in Hk.
  - rewrite dispatchLoop_cons.
    destruct (dispatchOne_quiet campaignId accountId c i m cnt w Hq Hrun)
      as (f & cnt1 & w1 & -> & Hc1 & Ha1 & Hs1 & Hm1 & Hf & Hn1 & Hl1 & Hr1).
    destruct (IH (S i) cnt1 w1) as (cnt2 & w2 & -> & Hc2 & Ha2 & Hs2 & Hn2 & Hl2 & Hr2 & Hin & Hout).
    { unfold campaign_row in *. by rewrite Hc1. }
    exists cnt2, w2. split; [done|].
    rewrite Hc2, Ha2, Hs2, Hc1, Ha1, Hs1. cbn [length].
    repeat split; try done; try lia.
    + intros k Hk. cbn in Hk. apply elem_of_cons in Hk.
      destruct (decide (k ∈ rest.*1)) as [Hrest|Hrest]; [by apply Hin|].
      destruct Hk as [->|Hk]; [|done].
      rewrite (Hout _ Hrest), Hm1, lookup_alter_eq.
      destruct (campaign_messages w !! m.1) as [row|]; cbn; [|done].
      intros [= Habs]. by apply (Hf row).
    + intros k Hk. cbn in Hk. apply not_elem_of_cons in Hk as [Hne Hk].
      rewrite (Hout _ Hk), Hm1. by apply lookup_alter_ne.
Qed.

Lemma pending_rows_lookup campaignId w k row :
  (k, row) ∈ pending_rows E campaignId w ↔
  campaign_messages w !! k = Some row
  ∧ is_Some (db_id E campaignId)
  ∧ msg_campaign_id row = db_id E campaignId
  ∧ msg_status row = MsgPending.
Proof.
  unfold pending_rows. destruct (db_id E campaignId) as [kc|].
  - rewrite list_elem_of_filter, elem_of_map_to_list. cbn.
    split; [intros [[? ?] ?]|intros (? & ? & ? & ?)]; eauto.
  - rewrite elem_of_nil. split; [done|]. intros (_ & [? ?] & _). done.
Qed.

(** X18: a pass over a running campaign that no other task touches works
    the whole pending list off: every message that was pending is counted
    as sent or as failed, none is left pending, and the campaign ends
    [completed] with both counters raised by what the pass returns. *)
Theorem uninterfered_pass_completes campaignId w c a :
  (∀ i w, concurrent E i w = w) →
  campaign_row E campaignId w = Some c →
  cmp_status c = CmpRunning →
  accounts w !! cmp_account_id c = Some a →
  let r := sendBulkMessages E campaignId w in
  ∃ sent failed,
    r.1 = Ok (sent, failed)
    ∧ 0 ≤ sent ∧ 0 ≤ failed
    ∧ sent + failed = Z.of_nat (length (pending_rows E campaignId w))
    ∧ pending_rows E campaignId r.2 = []
    ∧ campaign_row E campaignId r.2
      = Some (mkCampaign (cmp_account_id c) CmpCompleted (cmp_delay_seconds c)
                (cmp_sent_count c + sent) (cmp_failed_count c + failed)
                (Some (clock r.2))).
Proof.
  intros Hq Hc Hs Ha. cbn zeta.
  destruct (dispatchLoop_quiet campaignId (JNum (cmp_account_id c)) c
              (merge_sort id_le (pending_rows E campaignId w)) Hq 0%nat (0, 0) w)
    as ([sent failed] & w1 & Hloop & Hc1 & _ & _ & Hn & Hl & Hr & Hin & Hout).
  { by rewrite Hc; cbn; rewrite Hs. }
  cbn in Hn, Hl, Hr.
  rewrite (sendBulkMessages_running E _ _ _ _ _ _ _ Hc Hs Ha Hloop).
  assert (Hnone : pending_rows E campaignId w1 = []).
  { destruct (pending_rows E campaignId w1) as [|[k row] l] eqn:Hp; [done|].
    assert (Hk : (k, row) ∈ pending_rows E campaignId w1) by (rewrite Hp; left).
    apply pending_rows_lookup in Hk as (Hrow & Hid & Hcid & Hst).
    destruct (decide (k ∈ (merge_sort id_le (pending_rows E campaignId w)).*1))
      as [Hk|Hk].
    - apply Hin in Hk. rewrite Hrow in Hk. cbn in Hk. by rewrite Hst in Hk.
    - exfalso. apply Hk. rewrite (Hout _ Hk) in Hrow.
      apply list_elem_of_fmap. exists (k, row). split; [done|].
      rewrite merge_sort_Permutation. apply pending_rows_lookup. done. }
  exists sent, failed.
  unfold finishPass, Campaign_increment_counts, Campaign_update,
    CampaignMessage_count_pending, Date_now. unmonad. cbn.
  assert (Hnone' : ∀ t, pending_rows E campaignId (set_campaigns t w1) = []).
  { intros t. rewrite <- Hnone. done. }
  rewrite Hnone'. cbn [length]. change (Z.of_nat 0 =? 0) with true. cbn.
  split; [done|]. split; [lia|]. split; [lia|].
  split. { rewrite Hn, merge_sort_Permutation. lia. }
  split; [apply Hnone'|].
  unfold campaign_row in *. cbn.
  destruct (db_id E campaignId) as [kc|]; cbn in *; [|done].
  rewrite !lookup_alter_eq, Hc1, Hc. cbn.
  done.
Qed.

(** ** A pass over a reliable transport *)

(** [sendMessage] for a text message through a registered handle, when the
    transport call returns. *)
Lemma sendMessage_text accountId phone text mediaPath w h :
  (lookupSession E accountId w).1 = Ok (Some h) →
  truthy_str mediaPath = false →
  ext_throws E (ticks w) = None →
  sendMessage E accountId phone text mediaPath None None w
  = (Ok (),
     set_activity_logs
       (λ l, l ++ [mkActivityLog accountId "message_sent" ("Message sent to " +:+ phone)])
       (set_effects
          (λ l, l ++ [EvSend h (if includes phone "@" then phone
                                else phone +:+ "@s.whatsapp.net")
                        (TextContent text) true])
          (set_ticks S w))).
Proof.
  unfold sendMessage, lookupSession, ActivityLog_create, sock_sendMessage.
  unmonad. cbn. intros [= ->] -> ->. done.
Qed.

Lemma dispatchLoop_reliable campaignId accountId c h pendingMessages :
  (∀ i w, concurrent E i w = w) →
  (∀ n, ext_throws E n = None) →
  Forall (λ m, truthy_str (msg_media_path m.2) = false) pendingMessages →
  ∀ i cnt w,
  cmp_status <$> campaign_row E campaignId w = Some CmpRunning →
  (lookupSession E accountId w).1 = Ok (Some h) →
  ∃ w',
    dispatchLoop E campaignId accountId c i pendingMessages cnt w
    = (Ok (Continue, (cnt.1 + Z.of_nat (length pendingMessages), cnt.2)), w')
    ∧ effects w'
      = effects w
        ++ (pendingMessages ≫= sent_and_slept h (cmp_delay_seconds c * 1000))
    ∧ (∀ k, k ∈ pendingMessages.*1 → is_Some (campaign_messages w !! k) →
         msg_status <$> campaign_messages w' !! k = Some MsgSent)
    ∧ (∀ k, msg_status <$> campaign_messages w !! k = Some MsgSent →
         msg_status <$> campaign_messages w' !! k = Some MsgSent).
Proof.
  intros Hq Hx Hmedia.
  induction Hmedia as [|m rest Hm Hrest IH]; intros i cnt w Hrun Hsock.
  - exists w. cbn. rewrite app_nil_r, Z.add_0_r. repeat split; try done.
    + by destruct cnt.
    + intros k Hk. by apply elem_of_nil in Hk.
  - rewrite dispatchLoop_cons.
    assert (Hobs : cmp_status <$> observed E campaignId i w = Some CmpRunning).
    { unfold observed. by rewrite interleave_quiet. }
    pose proof (sendMessage_text accountId (msg_phone m.2) (msg_message_text m.2)
                  (msg_media_path m.2) w h Hsock Hm (Hx _)) as Hsend.
    rewrite <- (interleave_quiet i w Hq) in Hsend at 1.
    rewrite (dispatchOne_sent _ _ _ _ _ _ _ _ _ Hobs Hsend).
    match goal with
    | |- context [dispatchLoop _ _ _ _ _ _ _ ?x] => set (w1 := x)
    end.
    destruct (IH (S i) (cnt.1 + 1, cnt.2) w1) as (w2 & -> & He & Hin & Hkeep).
    { done. }
    { done. }
    exists w2. split.
    { cbn [fst snd length].
      replace (cnt.1 + 1 + Z.of_nat (length rest))
        with (cnt.1 + Z.of_nat (S (length rest))) by lia. done. }
    split.
    { rewrite He. subst w1. unfold delay, CampaignMessage_update. unmonad. cbn.
      by rewrite <- !app_assoc. }
    assert (Hw1 : campaign_messages w1
                  = alter (message_sent (clock w)) m.1 (campaign_messages w)) by done.
    split.
    + intros k Hk Hsome. cbn in Hk. apply elem_of_cons in Hk.
      destruct (decide (k = m.1)) as [->|Hne].
      * apply Hkeep. rewrite Hw1, lookup_alter_eq.
        destruct Hsome as [row ->]. done.
      * destruct Hk as [?|Hk]; [done|]. apply Hin; [done|].
        by rewrite Hw1, lookup_alter_ne.
    + intros k Hk. apply Hkeep. rewrite Hw1.
      destruct (decide (k = m.1)) as [->|Hne].
      * rewrite lookup_alter_eq.
        destruct (campaign_messages w !! m.1); done.
      * by rewrite lookup_alter_ne.
Qed.

(** X19: with a transport that answers, a registered session for the
    campaign's account and text messages only, an uninterfered pass sends
    every pending message once, in ascending order of the message ids, each
    send followed by the campaign's delay; it returns the number of pending
    messages as the sent count and zero failures, and every one of them is
    written [sent]. *)
Theorem reliable_pass_sends_in_id_order campaignId w c a h :
  (∀ i w, concurrent E i w = w) →
  (∀ n, ext_throws E n = None) →
  campaign_row E campaignId w = Some c →
  cmp_status c = CmpRunning →
  accounts w !! cmp_account_id c = Some a →
  (lookupSession E (JNum (cmp_account_id c)) w).1 = Ok (Some h) →
  (∀ m, m ∈ pending_rows E campaignId w → truthy_str (msg_media_path m.2) = false) →
  let r := sendBulkMessages E campaignId w in
  ∃ order,
    order ≡ₚ pending_rows E campaignId w
    ∧ Sorted id_le order
    ∧ r.1 = Ok (Z.of_nat (length order), 0)
    ∧ effects r.2
      = effects w ++ (order ≫= sent_and_slept h (cmp_delay_seconds c * 1000))
    ∧ (∀ m, m ∈ order →
         msg_status <$> campaign_messages r.2 !! m.1 = Some MsgSent).
Proof.
  intros Hq Hx Hc Hs Ha Hsock Hmedia. cbn zeta.
  set (order := merge_sort id_le (pending_rows E campaignId w)).
  assert (Hperm : order ≡ₚ pending_rows E campaignId w)
    by apply merge_sort_Permutation.
  destruct (dispatchLoop_reliable campaignId (JNum (cmp_account_id c)) c h order
              Hq Hx) with (i := 0%nat) (cnt := (0, 0)) (w := w)
    as (w1 & Hloop & He & Hin & _).
  { apply Forall_forall. intros m Hm. apply Hmedia. by rewrite <- Hperm. }
  { by rewrite Hc; cbn; rewrite Hs. }
  { done. }
  cbn [fst snd] in Hloop. rewrite Z.add_0_l in Hloop.
  rewrite (sendBulkMessages_running E _ _ _ _ _ _ _ Hc Hs Ha Hloop).
  destruct (finishPass_frame E campaignId (Z.of_nat (length order), 0) w1)
    as (Hres & Hmsgs & Heff).
  exists order. rewrite Hres, Hmsgs, Heff.
  split; [done|]. split; [apply (Sorted_merge_sort id_le)|].
  split; [done|]. split; [done|].
  intros [k row] Hm. apply Hin.
  - apply list_elem_of_fmap. by exists (k, row).
  - rewrite Hperm in Hm. apply pending_rows_lookup in Hm as (Hrow & _). by exists row.
Qed.

(** X20: a pass that breaks off because the campaign was paused or
    cancelled, and that leaves at least the message it stopped at pending,
    does not complete the campaign: the row keeps the status the re-read
    found, and its counters are raised by what the pass returns. *)
Theorem interrupted_pass_keeps_the_observed_status campaignId w c a pre m rest cnt wk c' :
  campaign_row E campaignId w = Some c →
  cmp_status c = CmpRunning →
  accounts w !! cmp_account_id c = Some a →
  merge_sort id_le (pending_rows E campaignId w) = pre ++ m :: rest →
  dispatchLoop E campaignId (JNum (cmp_account_id c)) c 0 pre (0, 0) w
  = (Ok (Continue, cnt), wk) →
  observed E campaignId (length pre) wk = Some c' →
  cmp_status c' ≠ CmpRunning →
  m ∈ pending_rows E campaignId (interleave E (length pre) wk) →
  let r := sendBulkMessages E campaignId w in
  r.1 = Ok cnt
  ∧ campaign_row E campaignId r.2 = Some (campaign_increment cnt.1 cnt.2 c')
  ∧ cmp_status <$> campaign_row E campaignId r.2 = Some (cmp_status c')
  ∧ m ∈ pending_rows E campaignId r.2.
Proof.
  intros Hc Hs Ha Hpending Hpre Hseen Hstatus Hm. cbn zeta.
  assert (Hloop :
    dispatchLoop E campaignId (JNum (cmp_account_id c)) c 0
      (merge_sort id_le (pending_rows E campaignId w)) (0, 0) w
    = (Ok (Break, cnt), interleave E (length pre) wk)).
  { rewrite Hpending, dispatchLoop_app, Hpre. cbn [Nat.add].
    rewrite dispatchLoop_cons, dispatchOne_break; [done|].
    rewrite Hseen. cbn. congruence. }
  rewrite (sendBulkMessages_running E _ _ _ _ _ _ _ Hc Hs Ha Hloop).
  set (seen := interleave E (length pre) wk) in *.
  unfold observed in Hseen. fold seen in Hseen.
  unfold finishPass, Campaign_increment_counts, Campaign_update,
    CampaignMessage_count_pending, Date_now. unmonad. cbn.
  assert (Hsame : ∀ t, pending_rows E campaignId (set_campaigns t seen)
                       = pending_rows E campaignId seen) by done.
  rewrite Hsame.
  destruct (pending_rows E campaignId seen) as [|m0 l] eqn:Hp.
  { by apply elem_of_nil in Hm. }
  cbn [length]. rewrite <- Hp in *.
  replace (Z.of_nat (S (length l)) =? 0) with false by (symmetry; apply Z.eqb_neq; lia).
  cbn. rewrite Hsame.
  assert (Hrow : campaign_row E campaignId
                   (set_campaigns
                      (λ t, match db_id E campaignId with
                            | Some k => alter (campaign_increment cnt.1 cnt.2) k t
                            | None => t
                            end) seen)
                 = Some (campaign_increment cnt.1 cnt.2 c')).
  { unfold campaign_row in *. cbn.
    destruct (db_id E campaignId) as [kc|]; cbn in *; [|done].
    by rewrite lookup_alter_eq, Hseen. }
  rewrite Hrow. done.
Qed.

(** ** The control routes *)

Lemma Campaign_update_where_other allowed f id w k c :
  campaigns w !! k = Some c →
  cmp_status c ∉ allowed →
  campaigns (Campaign_update_where E allowed f id w).2 !! k = Some c.
Proof.
  intros Hk Hs. unfold Campaign_update_where, campaign_row, Campaign_update.
  unmonad.
  destruct (db_id E id) as [kid|] eqn:Hid; cbn; [|done].
  destruct (campaigns w !! kid) as [c0|] eqn:Hc0; cbn; [|done].
  destruct (bool_decide (cmp_status c0 ∈ allowed)) eqn:Hin; cbn; [|done].
  apply bool_decide_eq_true in Hin.
  destruct (decide (kid = k)) as [->|Hne].
  - rewrite Hk in Hc0. by simplify_eq.
  - by rewrite lookup_alter_ne.
Qed.

Lemma Campaign_update_where_hit allowed f id w c :
  campaign_row E id w = Some c →
  cmp_status c ∈ allowed →
  Campaign_update_where E allowed f id w
  = (Ok 1%nat, (Campaign_update E f id w).2).
Proof.
  intros Hc Hs. unfold Campaign_update_where. rewrite Hc.
  by rewrite bool_decide_eq_true_2.
Qed.

Lemma Campaign_update_where_miss allowed f id w c :
  campaign_row E id w = Some c →
  cmp_status c ∉ allowed →
  Campaign_update_where E allowed f id w = (Ok 0%nat, w).
Proof.
  intros Hc Hs. unfold Campaign_update_where. rewrite Hc.
  by rewrite bool_decide_eq_false_2.
Qed.

Lemma control_other ctl w k c :
  campaigns w !! k = Some c →
  cmp_status c = CmpCompleted ∨ cmp_status c = CmpCancelled →
  campaigns (control E ctl w).2 !! k = Some c.
Proof.
  intros Hk Hs.
  assert (Hkeep : ∀ allowed f id,
            allowed ⊆ [CmpRunning; CmpPaused; CmpDraft] →
            campaigns (Campaign_update_where E allowed f id w).2 !! k = Some c).
  { intros allowed f id Hsub. apply Campaign_update_where_other; [done|].
    intros Hin. apply Hsub in Hin.
    rewrite !elem_of_cons, elem_of_nil in Hin. destruct Hs; intuition congruence. }
  destruct ctl as [id|id|id|id]; cbn;
    unfold route_start, route_pause, route_resume, route_cancel; unmonad;
    match goal with
    | |- context [Campaign_update_where E ?allowed ?f id w] =>
        pose proof (Hkeep allowed f id) as Hk';
        destruct (Campaign_update_where E allowed f id w) as [[n|?] w'];
        cbn in *; [destruct (bool_decide (n = 0%nat))|]; cbn; apply Hk'
    end;
    intros x; rewrite !elem_of_cons, elem_of_nil; tauto.
Qed.

(** X21: a campaign that is [completed] or [cancelled] stays exactly as it
    is under any sequence of start, pause, resume and cancel requests, to
    whatever campaigns they are addressed; each such request addressed to it
    is answered 400 and schedules no pass. *)
Theorem finished_campaign_ignores_control_requests id w c :
  campaign_row E id w = Some c →
  cmp_status c = CmpCompleted ∨ cmp_status c = CmpCancelled →
  (∀ cs, campaign_row E id (controls E cs w) = Some c)
  ∧ (∀ ctl, ctl ∈ [Start id; Pause id; Resume id; Cancel id] →
       control E ctl w = (Ok (400, false), w)).
Proof.
  intros Hc Hs. split.
  - intros cs. revert w Hc. induction cs as [|ctl cs IH]; intros w Hc; [done|].
    cbn [controls]. apply IH.
    unfold campaign_row in *. destruct (db_id E id) as [k|]; cbn in *; [|done].
    by apply control_other.
  - intros ctl Hctl. rewrite !elem_of_cons, elem_of_nil in Hctl.
    assert (Hmiss : ∀ allowed f,
              allowed ⊆ [CmpRunning; CmpPaused; CmpDraft] →
              Campaign_update_where E allowed f id w = (Ok 0%nat, w)).
    { intros allowed f Hsub. apply (Campaign_update_where_miss _ _ _ _ c Hc).
      intros Hin. apply Hsub in Hin.
      rewrite !elem_of_cons, elem_of_nil in Hin. destruct Hs; intuition congruence. }
    destruct Hctl as [->|[->|[->|[->|[]]]]]; cbn;
      unfold route_start, route_pause, route_resume, route_cancel; unmonad;
      rewrite Hmiss; try done;
      intros x; rewrite !elem_of_cons, elem_of_nil; tauto.
Qed.

(** X22: [start] on a [draft] campaign and [resume] on a [paused] one answer
    200 and schedule a pass, and when nothing else touches the campaign
    before the pass begins, the pass finds it [running] and returns its
    counts, provided the campaign's account exists. *)
Theorem started_campaign_is_dispatched id w c a ctl :
  campaign_row E id w = Some c →
  accounts w !! cmp_account_id c = Some a →
  (ctl = Start id ∧ cmp_status c = CmpDraft)
  ∨ (ctl = Resume id ∧ cmp_status c = CmpPaused) →
  let r := control E ctl w in
  r.1 = Ok (200, true)
  ∧ campaign_row E id r.2 = Some (campaign_status CmpRunning c)
  ∧ ∃ cnt, (sendBulkMessages E id r.2).1 = Ok cnt.
Proof.
  intros Hc Ha Hctl. cbn zeta.
  assert (Hrun : control E ctl w
                 = (Ok (200, true),
                    (Campaign_update E (campaign_status CmpRunning) id w).2)).
  { destruct Hctl as [[-> Hs]|[-> Hs]]; cbn;
      unfold route_start, route_resume; unmonad;
      rewrite (Campaign_update_where_hit _ _ _ _ c Hc); try done;
      rewrite Hs, list_elem_of_singleton; done. }
  rewrite Hrun. cbn [fst snd].
  assert (Hrow : campaign_row E id (Campaign_update E (campaign_status CmpRunning) id w).2
                 = Some (campaign_status CmpRunning c)).
  { by rewrite campaign_row_update, Hc. }
  split; [done|]. split; [done|].
  by apply (running_pass_returns E id _ (campaign_status CmpRunning c) a).
Qed.

(** X23: a campaign that is paused after [start] or [resume] has answered
    and before the scheduled pass begins does not stay [paused]: the pass
    finds it not running, throws, and its handler writes [cancelled]. *)
Theorem pause_before_the_pass_cancels_the_campaign id w c ctl :
  campaign_row E id w = Some c →
  (ctl = Start id ∧ cmp_status c = CmpDraft)
  ∨ (ctl = Resume id ∧ cmp_status c = CmpPaused) →
  let started := (control E ctl w).2 in
  let paused := route_pause E id started in
  let r := sendBulkMessages E id paused.2 in
  paused.1 = Ok (200, false)
  ∧ cmp_status <$> campaign_row E id paused.2 = Some CmpPaused
  ∧ r.1 = Throw CampaignNotRunning
  ∧ cmp_status <$> campaign_row E id r.2 = Some CmpCancelled
  ∧ effects r.2 = effects w.
Proof.
  intros Hc Hctl. cbn zeta.
  assert (Hrun : (control E ctl w).2
                 = (Campaign_update E (campaign_status CmpRunning) id w).2).
  { destruct Hctl as [[-> Hs]|[-> Hs]]; cbn;
      unfold route_start, route_resume; unmonad;
      rewrite (Campaign_update_where_hit _ _ _ _ c Hc); try done;
      rewrite Hs, list_elem_of_singleton; done. }
  rewrite Hrun.
  set (w1 := (Campaign_update E (campaign_status CmpRunning) id w).2).
  assert (Hrow1 : campaign_row E id w1 = Some (campaign_status CmpRunning c)).
  { subst w1. by rewrite campaign_row_update, Hc. }
  assert (Hpause : route_pause E id w1
                   = (Ok (200, false),
                      (Campaign_update E (campaign_status CmpPaused) id w1).2)).
  { unfold route_pause. unmonad.
    rewrite (Campaign_update_where_hit _ _ _ _ _ Hrow1); [done|].
    cbn. by rewrite list_elem_of_singleton. }
  rewrite Hpause. cbn [fst snd].
  set (w2 := (Campaign_update E (campaign_status CmpPaused) id w1).2).
  assert (Hrow2 : campaign_row E id w2
                  = Some (campaign_status CmpPaused (campaign_status CmpRunning c))).
  { subst w2. by rewrite campaign_row_update, Hrow1. }
  split; [done|]. split; [by rewrite Hrow2|].
  unfold sendBulkMessages, Campaign_findOne_running. unmonad. rewrite Hrow2. cbn.
  split; [done|]. split; [|done].
  change (cmp_status <$> campaign_row E id
            (Campaign_update E (campaign_status CmpCancelled) id w2).2
          = Some CmpCancelled).
  by rewrite campaign_row_update, Hrow2.
Qed.

(** ** The key under which a session is registered *)

(** X24: [disconnectAccount] looks the session up under the key it is
    given and nowhere else.  When the session of the account is registered
    under another key of the same row, as a number where the caller passes a
    string, the call persists [disconnected] for the account and returns,
    but logs nothing out: the handle stays registered and live, and
    [sendMessage] for the same account id still finds it. *)
Theorem disconnect_under_another_key_leaves_the_session accountId other w h a :
  other ≠ accountId →
  db_id E other = db_id E accountId →
  sessions w !! other = Some h →
  sessions w !! accountId = None →
  account_row E accountId w = Some a →
  let r := disconnectAccount E accountId w in
  r.1 = Ok ()
  ∧ account_row E other r.2 = Some (account_status_qr AccDisconnected None a)
  ∧ sessions r.2 !! other = Some h
  ∧ live r.2 = live w
  ∧ effects r.2 = effects w
  ∧ (js_parseInt E accountId = other →
     (lookupSession E accountId r.2).1 = Ok (Some h)).
Proof.
  intros Hne Hid Hs Hnone Ha. cbn zeta.
  destruct (disconnectAccount_clean accountId w (or_introl Hnone))
    as (Hr & Hss & _ & _ & Hrow & _ & _ & _ & Hlive).
  assert (Hother : sessions (disconnectAccount E accountId w).2 !! other = Some h).
  { by rewrite Hss, lookup_delete_ne. }
  split; [done|]. split.
  { unfold account_row in *. rewrite Hid. by rewrite Hrow, Ha. }
  split; [done|]. split; [by apply Hlive|]. split.
  { unfold disconnectAccount, Account_update. unmonad. cbn. by rewrite Hnone. }
  intros Hp. unfold lookupSession. unmonad. cbn. by rewrite Hp, Hother.
Qed.

(** ** Startup and shutdown *)

(** One round of the loop of [initialize], for an account with no
    rate-limit reservation. *)
Lemma connect_or_mark_error k a w :
  db_id E (JNum k) = Some k →
  accounts w !! k = Some a →
  lastConnectionTime w !! JNum k = None →
  let r :=
    try_catch (connectAccount E (JNum k);; mret tt)
      (λ accountError, Account_update E (account_status AccError) (JNum k)) w in
  r.1 = Ok ()
  ∧ ((∃ h, sessions r.2 !! JNum k = Some h
           ∧ accounts r.2 !! k = Some (account_status AccConnecting a))
     ∨ (sessions r.2 !! JNum k = sessions w !! JNum k
        ∧ accounts r.2 !! k = Some (account_status AccError a)))
  ∧ (∀ k', k' ≠ k →
       accounts r.2 !! k' = accounts w !! k'
       ∧ sessions r.2 !! JNum k' = sessions w !! JNum k'
       ∧ lastConnectionTime r.2 !! JNum k' = lastConnectionTime w !! JNum k').
Proof.
  intros Hid Ha Hl. cbn zeta.
  assert (Hne : ∀ k', k' ≠ k → JNum k' ≠ JNum k) by congruence.
  unfold connectAccount, Date_now. unmonad. cbn. rewrite Hl. cbn.
  unfold Account_findByPk, makeWASocket, external, Account_update, account_row.
  unmonad. cbn. rewrite Hid. cbn. rewrite Ha. cbn.
  destruct (ext_throws E (ticks w)); cbn.
  - split; [done|]. split.
    + right. split; [done|]. by rewrite !lookup_alter_eq, Ha.
    + intros k' Hk'. rewrite !lookup_alter_ne by done.
      rewrite lookup_insert_ne by by apply not_eq_sym, Hne. done.
  - split; [done|]. split.
    + left. exists (next_handle w). rewrite lookup_insert_eq, lookup_alter_eq, Ha. done.
    + intros k' Hk'. rewrite lookup_alter_ne by done.
      rewrite !lookup_insert_ne by by apply not_eq_sym, Hne. done.
Qed.

Lemma connectEach_cons account rest w :
  connectEach E (account :: rest) w
  = match try_catch (connectAccount E (JNum account.1);; mret tt)
            (λ accountError,
               Account_update E (account_status AccError) (JNum account.1)) w with
    | (Ok _, w1) => connectEach E rest w1
    | (Throw error, w1) => (Throw error, w1)
    end.
Proof.
  cbn [connectEach]. unfold mbind at 1. unfold M_bind at 1.
  by destruct (try_catch _ _ w) as [[?|?] ?].
Qed.

Lemma connectEach_outcome l :
  (∀ k, db_id E (JNum k) = Some k) →
  NoDup l.*1 →
  ∀ w,
  (∀ k a, (k, a) ∈ l →
     accounts w !! k = Some a ∧ lastConnectionTime w !! JNum k = None) →
  let r := connectEach E l w in
  r.1 = Ok ()
  ∧ (∀ k a, (k, a) ∈ l →
       (∃ h, sessions r.2 !! JNum k = Some h
             ∧ accounts r.2 !! k = Some (account_status AccConnecting a))
       ∨ (sessions r.2 !! JNum k = sessions w !! JNum k
          ∧ accounts r.2 !! k = Some (account_status AccError a)))
  ∧ (∀ k, k ∉ l.*1 →
       accounts r.2 !! k = accounts w !! k
       ∧ sessions r.2 !! JNum k = sessions w !! JNum k
       ∧ lastConnectionTime r.2 !! JNum k = lastConnectionTime w !! JNum k).
Proof.
  intros Hid. cbn zeta.
  induction l as [|[k a] rest IH]; intros Hnd w Hrows.
  - cbn. repeat split; try done. intros k a Hk. by apply elem_of_nil in Hk.
  - cbn in Hnd. apply NoDup_cons in Hnd as [Hk Hnd].
    destruct (Hrows k a) as [Ha Hl]; [left|].
    destruct (connect_or_mark_error k a w (Hid k) Ha Hl) as (Hok & Hout & Hframe).
    rewrite connectEach_cons. cbn [fst snd].
    destruct (try_catch (connectAccount E (JNum k);; mret tt)
                (λ accountError, Account_update E (account_status AccError) (JNum k)) w)
      as [res w1].
    cbn in Hok, Hout, Hframe. subst res.
    destruct (IH Hnd w1) as (Hok2 & Hout2 & Hframe2).
    { intros k' a' Hin.
      assert (k' ≠ k).
      { intros ->. apply Hk. apply list_elem_of_fmap. by exists (k, a'). }
      destruct (Hframe k') as (-> & _ & ->); [done|].
      apply Hrows. by right. }
    destruct (connectEach E rest w1) as [res w2]. cbn in *. subst res.
    split; [done|]. split.
    + intros k' a' Hin. apply elem_of_cons in Hin as [[= -> ->]|Hin].
      * destruct (Hframe2 k Hk) as (-> & -> & _). done.
      * assert (k' ≠ k).
        { intros ->. apply Hk. apply list_elem_of_fmap. by exists (k, a'). }
        destruct (Hframe k') as (_ & <- & _); [done|]. by apply Hout2.
    + intros k' Hk'. apply not_elem_of_cons in Hk' as [Hne Hk'].
      destruct (Hframe2 k' Hk') as (-> & -> & ->). by apply Hframe.
Qed.

(** X25: [initialize] never throws.  In a process that has made no
    connection attempt yet, it takes every account whose stored status is
    not [disconnected] to one of two ends, whatever the order of the rows:
    registered under its numeric id with [connecting] persisted, or, when
    its connect call threw, [error] persisted and its entry in the session
    store as it was.  Accounts stored as [disconnected] are not touched, and
    when the sessions directory cannot be made no account is. *)
Theorem initialize_connects_or_marks_error w :
  (∀ k, db_id E (JNum k) = Some k) →
  lastConnectionTime w = ∅ →
  let r := initialize E w in
  r.1 = Ok ()
  ∧ (is_Some (ext_throws E (ticks w)) →
     accounts r.2 = accounts w ∧ sessions r.2 = sessions w)
  ∧ (ext_throws E (ticks w) = None →
     ∀ k a, accounts w !! k = Some a →
       if decide (acc_status a = AccDisconnected)
       then accounts r.2 !! k = Some a
            ∧ sessions r.2 !! JNum k = sessions w !! JNum k
       else (∃ h, sessions r.2 !! JNum k = Some h
                  ∧ accounts r.2 !! k = Some (account_status AccConnecting a))
            ∨ (sessions r.2 !! JNum k = sessions w !! JNum k
               ∧ accounts r.2 !! k = Some (account_status AccError a))).
Proof.
  intros Hid Hfresh. cbn zeta. unfold initialize, external. unmonad.
  destruct (ext_throws E (ticks w)) as [why|] eqn:Hx; cbn.
  { split; [done|]. split; [done|]. done. }
  set (w0 := set_ticks S w).
  set (l := accounts_to_connect w0).
  assert (Hl : ∀ k a, (k, a) ∈ l ↔ accounts w !! k = Some a
                                     ∧ acc_status a ≠ AccDisconnected).
  { intros k a. subst l. unfold accounts_to_connect.
    rewrite list_elem_of_filter, elem_of_map_to_list. cbn. tauto. }
  destruct (connectEach_outcome l Hid) with (w := w0) as (Hok & Hout & Hframe).
  { subst l. unfold accounts_to_connect.
    eapply sublist_NoDup; [|apply fmap_sublist, sublist_filter; apply _].
    apply NoDup_fst_map_to_list. }
  { intros k a Hin. apply Hl in Hin as [Ha _]. split; [done|].
    cbn. by rewrite Hfresh. }
  destruct (connectEach E l w0) as [res w1]. cbn in Hok, Hout, Hframe. subst res.
  cbn. split; [done|]. split; [by intros [? ?]|].
  intros _ k a Ha. destruct (decide (acc_status a = AccDisconnected)) as [Hd|Hd].
  - destruct (Hframe k) as (-> & -> & _); [|done].
    intros Hin. apply list_elem_of_fmap in Hin as ([k' a'] & Hk & Hin).
    cbn in Hk. subst k'.
    apply Hl in Hin as [Ha' Hs]. rewrite Ha in Ha'. by simplify_eq.
  - apply Hout. by apply Hl.
Qed.

Lemma logoutEach_live entries :
  (∀ n, ext_throws E n = None) →
  ∀ w h,
  (live w !! h = None ∨ h ∈ entries.*2) →
  live (logoutEach E entries w).2 !! h = None.
Proof.
  intros Hx. induction entries as [|entry rest IH]; intros w h Hh.
  - destruct Hh as [?|Hh]; [done|]. by apply elem_of_nil in Hh.
  - cbn [logoutEach]. unfold sock_logout. unmonad. rewrite Hx. cbn.
    match goal with
    | |- context [logoutEach E rest ?x] =>
        pose proof (IH x h) as IHx; destruct (logoutEach E rest x) as [res w2]
    end.
    cbn in *. apply IHx.
    destruct (decide (h = entry.2)) as [->|Hne].
    + left. apply lookup_delete_eq.
    + rewrite lookup_delete_ne by done.
      destruct Hh as [?|Hh]; [by left|]. right.
      apply elem_of_cons in Hh as [?|?]; done.
Qed.

(** X26: [disconnectAll] never throws and always empties the three maps of
    the service, and when no logout throws no registered handle is left
    live.  It persists no status, so the accounts keep the status they had,
    and it cancels no reconnection timer: the timers set before shutdown
    are still pending after it. *)
Theorem disconnectAll_clears_the_maps_only w :
  let r := disconnectAll E w in
  r.1 = Ok ()
  ∧ sessions r.2 = ∅ ∧ retryCount r.2 = ∅ ∧ lastConnectionTime r.2 = ∅
  ∧ accounts r.2 = accounts w
  ∧ timers r.2 = timers w
  ∧ ((∀ n, ext_throws E n = None) →
     ∀ accountId h, sessions w !! accountId = Some h → live r.2 !! h = None).
Proof.
  cbn zeta. unfold disconnectAll. unmonad. cbn.
  destruct (logoutEach_frame (map_to_list (sessions w)) w) as (Hok & Ht & Ha & _).
  pose proof (λ Hx h, logoutEach_live (map_to_list (sessions w)) Hx w h) as Hlive.
  destruct (logoutEach E (map_to_list (sessions w)) w) as [res w1].
  cbn in *. subst res. cbn.
  repeat split; try done.
  intros Hx accountId h Hs. apply (Hlive Hx h). right.
  apply list_elem_of_fmap. exists (accountId, h). split; [done|].
  by apply elem_of_map_to_list.
Qed.

(** ** What the light cleanup of a session directory removes *)

Lemma cleanPattern_sub unlink_ok filePattern files :
  ∀ dir file, file ∈ cleanPattern unlink_ok filePattern files dir → file ∈ dir.
Proof.
  induction files as [|f rest IH]; intros dir file; cbn; [done|].
  destruct (cleanMatches filePattern f); [destruct (unlink_ok f)|]; try done.
  - intros Hin. apply IH in Hin. by apply list_elem_of_filter in Hin as [_ ?].
  - apply IH.
Qed.

Lemma cleanPattern_keeps unlink_ok filePattern files :
  ∀ dir file,
  file ∈ dir → cleanMatches filePattern file = false →
  file ∈ cleanPattern unlink_ok filePattern files dir.
Proof.
  induction files as [|f rest IH]; intros dir file Hin Hm; cbn; [done|].
  destruct (cleanMatches filePattern f) eqn:Hf; [destruct (unlink_ok f)|]; try done.
  - apply IH; [|done]. apply list_elem_of_filter. split; [|done].
    intros ->. congruence.
  - by apply IH.
Qed.

Lemma cleanPattern_removes unlink_ok filePattern files :
  (∀ f, unlink_ok f = true) →
  ∀ dir file,
  file ∈ files → cleanMatches filePattern file = true →
  file ∉ cleanPattern unlink_ok filePattern files dir.
Proof.
  intros Hok. induction files as [|f rest IH]; intros dir file Hin Hm; cbn.
  { by apply elem_of_nil in Hin. }
  destruct (decide (file = f)) as [->|Hne].
  - rewrite Hm, Hok. intros Hin'. apply cleanPattern_sub in Hin'.
    by apply list_elem_of_filter in Hin' as [? _].
  - apply elem_of_cons in Hin as [?|Hin]; [done|].
    destruct (cleanMatches filePattern f); [rewrite Hok|]; by apply IH.
Qed.

(** X27: the light cleanup of a session directory removes only files that
    match [filesToClean], and with a working [unlink] all of them.  A file
    matches when it is named [app-state-sync-version.json] or
    [sender-keys.json], or when its name contains [session-.json]: the
    pattern [session-*.json] is matched with the star taken out, not as a
    wildcard, so a file such as [session-6281.json] is never removed. *)
Theorem light_cleanup_removes_what_matches remove_ok unlink_ok dir :
  ∃ left,
    cleanSessionDir false remove_ok unlink_ok (Some dir) = Some left
    ∧ (∀ file, file ∈ left → file ∈ dir)
    ∧ (∀ file, file ∈ dir → cleanable file = false → file ∈ left)
    ∧ ((∀ f, unlink_ok f = true) →
       ∀ file, file ∈ left → cleanable file = false)
    ∧ (∀ file,
         cleanable file
         = String.eqb file "app-state-sync-version.json"
           || includes file "session-.json"
           || String.eqb file "sender-keys.json").
Proof.
  eexists. split; [reflexivity|]. cbn [foldl filesToClean].
  set (d1 := cleanPattern unlink_ok "app-state-sync-version.json" dir dir).
  set (d2 := cleanPattern unlink_ok "session-*.json" d1 d1).
  set (d3 := cleanPattern unlink_ok "sender-keys.json" d2 d2).
  assert (Hc : ∀ file,
            cleanable file
            = cleanMatches "app-state-sync-version.json" file
              || cleanMatches "session-*.json" file
              || cleanMatches "sender-keys.json" file).
  { intros file. unfold cleanable. cbn [existsb filesToClean].
    by rewrite orb_false_r, orb_assoc. }
  split; [|split; [|split]].
  - intros file H3. by do 3 apply cleanPattern_sub in H3.
  - intros file Hin Hm. rewrite Hc in Hm.
    apply orb_false_iff in Hm as [Hm H3]. apply orb_false_iff in Hm as [H1 H2].
    do 3 (apply cleanPattern_keeps; [|done]). done.
  - intros Hok file H3. rewrite Hc.
    pose proof (cleanPattern_sub _ _ _ _ _ H3) as H2.
    pose proof (cleanPattern_sub _ _ _ _ _ H2) as H1.
    pose proof (cleanPattern_sub _ _ _ _ _ H1) as H0.
    destruct (cleanMatches "sender-keys.json" file) eqn:Hm3.
    { exfalso.
      by apply (cleanPattern_removes unlink_ok "sender-keys.json" d2 Hok d2 file). }
    destruct (cleanMatches "session-*.json" file) eqn:Hm2.
    { exfalso.
      by apply (cleanPattern_removes unlink_ok "session-*.json" d1 Hok d1 file). }
    destruct (cleanMatches "app-state-sync-version.json" file) eqn:Hm1; [|done].
    exfalso.
    by apply (cleanPattern_removes unlink_ok "app-state-sync-version.json" dir Hok
                dir file).
  - intros file. rewrite Hc. reflexivity.
Qed.

(** ** Uploads *)

(** X28: for an uploaded file, the MIME type that the upload declares
    decides how [sendMediaMessage] sends it; the file name is not looked at.
    An upload declared as an image goes out as an image with the trimmed
    caption, whatever its extension. *)
Theorem upload_declared_as_image_is_sent_as_image
    accountId toNumber file caption w h mime buffer :
  (lookupSession E accountId w).1 = Ok (Some h) →
  file_path file ≠ "" →
  fs_media E (file_path file) = MediaBuffer buffer →
  file_mimetype file = Some mime →
  String.prefix "image/" mime = true →
  ext_throws E (ticks w) = None →
  let r := sendMediaMessage E accountId toNumber (inr file) caption w in
  r.1 = Ok ()
  ∧ effects r.2
    = effects w
      ++ [EvSend h (if includes toNumber "@" then toNumber
                    else toNumber +:+ "@s.whatsapp.net")
            (ImageContent buffer (caption_of E (Some caption))) true].
Proof.
  intros Hsock Hpath Hfs Hmime Hprefix Hx. cbn zeta.
  assert (Hne : String.eqb mime "" = false).
  { destruct mime; [done|]. done. }
  assert (Hp : String.eqb (file_path file) "" = false).
  { by apply String.eqb_neq. }
  unfold lookupSession in Hsock. unmonad. cbn in Hsock. injection Hsock as Hsock.
  unfold sendMediaMessage, sendMessage, lookupSession, ActivityLog_create,
    mediaContent, sock_sendMessage.
  unmonad. cbn [fst snd]. rewrite Hsock. cbn [truthy_str default negb].
  rewrite Hp. cbn [negb]. unfold id. rewrite Hfs.
  assert (Hfinal : ∀ d1 d2, or_str (Some (or_str (file_mimetype file) d1)) d2 = mime).
  { intros d1 d2. rewrite Hmime. unfold or_str. rewrite Hne.
    change (if false then d1 else mime) with mime. by rewrite Hne. }
  rewrite !Hfinal, Hprefix, Hx. done.
Qed.

End MoreProperties.

(** * The properties at concrete inputs *)

Import Sample.

Lemma backoff_sequence_witness :
  timer_delayMs <$> timers (afterFailures down (JNum 7) (Some 428) 4 idle)
  = [5000; 15000; 45000; 135000; 300000]
  ∧ timers (afterFailures down (JNum 7) (Some 428) 5 idle)
    = timers (afterFailures down (JNum 7) (Some 428) 4 idle)
  ∧ acc_status <$> account_row down (JNum 7) (afterFailures down (JNum 7) (Some 428) 5 idle)
    = Some AccError.
Proof.
  assert (Hfail : ∀ n, (n ≤ 4)%nat →
            timerFails down (afterFailures down (JNum 7) (Some 428) n idle)).
  { intros n Hn.
    do 5 (destruct n as [|n]; [vm_compute; eexists; reflexivity|]). lia. }
  pose proof (backoff_sequence down (JNum 7) (Some 428) idle account0
                eq_refl eq_refl Hfail) as (Hseq & Hstop & Herr & _).
  destruct (Hseq 4%nat (le_n 4)) as (Ht & _).
  split; [|split; [exact Hstop|exact Herr]].
  rewrite Ht. reflexivity.
Defined.

Lemma returning_reconnect_witness :
  timer_delayMs <$> timers reclosed = [5000; 5000]
  ∧ retryCount reclosed !! JNum 7 = Some 1
  ∧ acc_status <$> account_row up (JNum 7) reclosed = Some AccReconnecting.
Proof.
  destruct (returning_reconnect_restarts_the_backoff up (JNum 7) account0 (closed 428)
              sock0 online account0 eq_refl) as (Ht & _ & _ & _ & _ & Hagain).
  - vm_compute. repeat split; congruence.
  - reflexivity.
  - vm_compute. reflexivity.
  - intros Hfail. vm_compute in Hfail. destruct Hfail as [error Hfail].
    discriminate Hfail.
  - destruct (Hagain account0 sock0) as (Ht' & Hr' & Hs').
    unfold reclosed, close_and_retry. rewrite Ht', Hr', Hs', Ht.
    repeat split; reflexivity.
Defined.

Lemma rate_limiter_keys_witness :
  string_connect.1 = Ok 1%nat
  ∧ live string_connect.2 !! 0%nat = Some (JNum 7)
  ∧ live string_connect.2 !! 1%nat = Some (JStr "7")
  ∧ account_row up (JStr "7") string_connect.2
    = account_row up (JNum 7) string_connect.2.
Proof.
  destruct (rate_limiter_is_keyed_by_the_value_passed up (JNum 7) (JStr "7") idle
              account0 1000) as (_ & _ & Hr & Hl0 & Hl1 & Hrow & _).
  - congruence.
  - reflexivity.
  - reflexivity.
  - reflexivity.
  - reflexivity.
  - reflexivity.
  - reflexivity.
  - vm_compute. congruence.
  - unfold CONNECTION_COOLDOWN. lia.
  - repeat split; assumption.
Defined.

Lemma forbidden_close_witness :
  isPermanentError up (Some 403) = true
  ∧ acc_status <$> account_row up (JNum 7) after_forbidden = Some AccDisconnected
  ∧ timers after_forbidden = timers online.
Proof.
  exact (forbidden_close_persists_disconnected up (JNum 7) account0 (closed 403)
           sock0 online account0 eq_refl (or_introl eq_refl) eq_refl).
Defined.


Lemma connect_leaves_old_handle_witness :
  second_connect.1 = Ok 1%nat
  ∧ 1%nat ≠ 0%nat
  ∧ sessions second_connect.2 !! JNum 7 = Some 1%nat
  ∧ live second_connect.2 !! 0%nat = Some (JNum 7)
  ∧ live second_connect.2 !! 1%nat = Some (JNum 7)
  ∧ effects second_connect.2 = [EvOpen 1 (JNum 7)].
Proof.
  apply (connect_leaves_old_handle_live up (JNum 7)
           (elapse 60000 online) 0%nat account0);
    try reflexivity.
  - vm_compute. lia.
  - right. exists 1699999000000. split; [reflexivity|]. vm_compute. congruence.
Defined.

Lemma rate_limiter_witness :
  hasty_connect.1 = Throw (RateLimited 18 (JNum 7)).
Proof.
  destruct (proj2 (rate_limiter_reserves_then_rejects up (JNum 7)) idle
              (elapse 12500 (connectAccount up (JNum 7) idle).2))
    as (remaining & Hr & _ & Hv).
  - left. reflexivity.
  - vm_compute. congruence.
  - reflexivity.
  - vm_compute. reflexivity.
  - unfold hasty_connect. rewrite Hr, Hv. reflexivity.
Defined.


Lemma failed_send_witness :
  (sendMessage up (JNum 7) "111" (Some "hello") None None None idle).1
  = Throw AccountNotConnected
  ∧ ∃ w2,
      dispatchLoop up (JStr "1") (JNum 7) (campaign0 CmpRunning) 0
        [ (1, message0 "111"); (2, message0 "222") ] (0, 0) two_pending_offline
      = dispatchLoop up (JStr "1") (JNum 7) (campaign0 CmpRunning) 1
          [ (2, message0 "222") ] (0, 1) w2
      ∧ campaign_messages w2 !! 1
        = Some (mkCampaignMessage (Some 1) "111" (Some "hello") None MsgFailed
                  (Some "Account not connected") None)
      ∧ campaign_messages w2 !! 2 = Some (message0 "222").
Proof.
  destruct (failed_send_is_recorded_and_dispatch_continues up (JNum 7))
    as (Hnc & _ & Hgo & _).
  split.
  - destruct (Hnc "111" (Some "hello") None None None idle) as [Hr _].
    + exists account0. reflexivity.
    + reflexivity.
    + reflexivity.
    + exact Hr.
  - destruct (Hgo (JStr "1") (campaign0 CmpRunning) 0%nat (1, message0 "111")
                [ (2, message0 "222") ] (0, 0) two_pending_offline AccountNotConnected
                (sendMessage up (JNum 7) "111" (Some "hello") None None None
                   two_pending_offline).2)
      as (w2 & _ & Hloop & Hrow & Hother & _).
    + reflexivity.
    + reflexivity.
    + exists w2. split; [exact Hloop|]. split.
      * apply (Hrow (message0 "111")). reflexivity.
      * rewrite (Hother 2); [reflexivity|]. vm_compute. congruence.
Defined.

Lemma pause_stops_dispatch_witness :
  paused_pass.1 = Ok (1, 0)
  ∧ msg_status <$> campaign_messages paused_pass.2 !! 1 = Some MsgSent
  ∧ msg_status <$> campaign_messages paused_pass.2 !! 2 = Some MsgPending
  ∧ msg_status <$> campaign_messages paused_pass.2 !! 3 = Some MsgPending
  ∧ effects paused_pass.2
    = [ EvSend 0 "111@s.whatsapp.net" (TextContent (Some "hello")) true;
        EvDelay 2000 ].
Proof.
  pose proof (pause_stops_dispatch paused_midway (JStr "1") three_pending
                (campaign0 CmpRunning) account0
                [ (1, message0 "111") ] (2, message0 "222") [ (3, message0 "333") ]
                (1, 0)
                (dispatchLoop paused_midway (JStr "1") (JNum 7) (campaign0 CmpRunning) 0
                   [ (1, message0 "111") ] (0, 0) three_pending).2) as H.
  destruct H as (Hr & Hm & He & _).
  - reflexivity.
  - reflexivity.
  - reflexivity.
  - vm_compute. reflexivity.
  - vm_compute. reflexivity.
  - vm_compute. congruence.
  - unfold paused_pass. rewrite Hr, Hm, He. vm_compute. repeat split; reflexivity.
Defined.

(** The open handler does not touch the retry counter.  The account was in
    its third retry when it was connected by hand; after the open event the
    counter still reads 3. *)
Lemma open_leaves_retry_counter :
  acc_status <$> account_row up (JNum 7) after_open = Some AccConnected
  ∧ retryCount retrying !! JNum 7 = Some 3
  ∧ retryCount after_open !! JNum 7 = Some 3
  ∧ default 0 (retryCount after_open !! JNum 7) ≠ 0.
Proof. vm_compute. repeat split; congruence. Qed.

Lemma open_persists_connected_witness :
  account_row up (JNum 7) after_open
  = Some (mkAccount "sales" (Some "6289999") AccConnected None (Some 1700000000000))
  ∧ retryCount retrying !! JNum 7 = Some 3
  ∧ retryCount after_open !! JNum 7 = Some 3
  ∧ log_action <$> activity_logs after_open = ["phone_updated"].
Proof.
  destruct (open_persists_connected up (JNum 7) account0 opened sock0 retrying
              account0 eq_refl eq_refl) as (Hr & _ & Hfree & _).
  destruct Hfree as (Hrow & description & Hlog).
  { intros p k' a' _ Hin _.
    destruct (decide (k' = 7)) as [->|Hne]; [reflexivity|].
    change (accounts retrying) with ({[ 7 := account0 ]} : gmap Z Account) in Hin.
    rewrite lookup_singleton_ne in Hin by congruence. discriminate Hin. }
  unfold after_open. rewrite Hrow, Hr, Hlog. repeat split; reflexivity.
Defined.

(** The same open event when account 8 holds the detected number: the
    update is refused, account 7 is marked [error] and keeps its stored
    phone, and no audit entry is written. *)
Example open_with_a_taken_phone :
  (λ a, (acc_status a, acc_phone a)) <$>
    account_row up (JNum 7)
      (handleConnectionUpdate up (JNum 7) account0 opened sock0 shared_number).2
  = Some (AccError, Some "6281234")
  ∧ activity_logs
      (handleConnectionUpdate up (JNum 7) account0 opened sock0 shared_number).2
    = [].
Proof. vm_compute. split; reflexivity. Qed.

Lemma dispatch_of_paused_campaign_witness :
  idle_pass.1 = Throw CampaignNotRunning
  ∧ cmp_status <$> campaign_row up (JStr "1") (with_campaign CmpPaused [] online)
    = Some CmpPaused
  ∧ cmp_status <$> campaign_row up (JStr "1") idle_pass.2 = Some CmpCancelled.
Proof.
  destruct (dispatch_of_idle_campaign_cancels_it up (JStr "1")
              (with_campaign CmpPaused [] online)) as (Hr & _ & _ & Hs & _).
  - vm_compute. congruence.
  - unfold idle_pass. rewrite Hr, Hs. repeat split; reflexivity.
Defined.

(** A pass over a campaign whose account is not connected: every message
    is marked [failed] with the error's text, the pass returns, and the
    campaign, with no message left [pending], is marked [completed]. *)
Example offline_pass_fails_every_message :
  (sendBulkMessages up (JStr "1") two_pending_offline).1 = Ok (0, 2)
  ∧ (λ m, (msg_status m, msg_error_message m)) <$>
      campaign_messages (sendBulkMessages up (JStr "1") two_pending_offline).2 !! 1
    = Some (MsgFailed, Some "Account not connected")
  ∧ (λ m, (msg_status m, msg_error_message m)) <$>
      campaign_messages (sendBulkMessages up (JStr "1") two_pending_offline).2 !! 2
    = Some (MsgFailed, Some "Account not connected")
  ∧ effects (sendBulkMessages up (JStr "1") two_pending_offline).2 = []
  ∧ cmp_status <$>
      campaign_row up (JStr "1") (sendBulkMessages up (JStr "1") two_pending_offline).2
    = Some CmpCompleted.
Proof. vm_compute. repeat split; reflexivity. Qed.

(** A retry that comes due less than 30 s after the last attempt is turned
    away by the rate limiter, and counts as a failure like any other. *)
Example early_retry_is_rate_limited :
  (connectAccount down (JNum 7)
     (elapse 15000 (afterFailures down (JNum 7) (Some 428) 1 idle))).1
  = Throw (RateLimited 15 (JNum 7)).
Proof. vm_compute. reflexivity. Qed.

(** ** The further properties at concrete inputs *)

Lemma close_unregisters_witness :
  getAccountStatus (JNum 7)
    (handleConnectionUpdate up (JNum 7) account0 (closed 428) sock0 online).2
  = AccDisconnected
  ∧ live (handleConnectionUpdate up (JNum 7) account0 (closed 428) sock0 online).2
      !! 0%nat
    = Some (JNum 7).
Proof.
  destruct (close_unregisters_the_account up (JNum 7) account0 (closed 428) sock0
              online eq_refl) as (_ & Hg & Hl & _).
  split; [exact Hg|]. rewrite Hl. reflexivity.
Defined.

Lemma transient_close_witness :
  timers (handleConnectionUpdate up (JNum 7) account0 (closed 428) sock0 retrying).2
  = [mkTimer 135000 (JNum 7) (Some 428)]
  ∧ retryCount (handleConnectionUpdate up (JNum 7) account0 (closed 428) sock0 retrying).2
      !! JNum 7
    = Some 4.
Proof.
  destruct (transient_close_schedules_reconnect up (JNum 7) account0 (closed 428)
              sock0 retrying account0 eq_refl) as (_ & Hlt & _).
  - vm_compute. repeat split; congruence.
  - reflexivity.
  - destruct Hlt as (Ht & Hr & _); [vm_compute; reflexivity|].
    rewrite Ht, Hr. split; reflexivity.
Defined.

Lemma multidevice_mismatch_witness :
  acc_status <$> account_row up (JNum 7)
    (handleConnectionUpdate up (JNum 7) account0 (closed 411) sock0 online).2
  = Some AccError
  ∧ timers (handleConnectionUpdate up (JNum 7) account0 (closed 411) sock0 online).2
    = [].
Proof.
  destruct (multidevice_mismatch_is_permanent up (JNum 7) account0 (closed 411)
              sock0 online account0 eq_refl eq_refl) as (Hs & _ & Ht & _).
  - vm_compute. congruence.
  - vm_compute. congruence.
  - vm_compute. congruence.
  - reflexivity.
  - reflexivity.
  - split; [exact Hs|]. rewrite Ht. reflexivity.
Defined.

Lemma rate_limit_close_witness :
  lastConnectionTime just_connected !! JNum 7 = Some 1700000000000
  ∧ lastConnectionTime
      (handleConnectionUpdate up (JNum 7) account0 rate_limited_close sock0
         just_connected).2 !! JNum 7
    = None
  ∧ (connectAccount up (JNum 7)
       (handleConnectionUpdate up (JNum 7) account0 rate_limited_close sock0
          just_connected).2).1
    ≠ Throw (RateLimited 30 (JNum 7)).
Proof.
  destruct (rate_limit_close_clears_the_limiter up (JNum 7) account0
              rate_limited_close sock0 just_connected
              (account_status AccConnecting account0) "rate limit exceeded"
              eq_refl eq_refl eq_refl eq_refl) as (_ & _ & Hl & Hc).
  split; [reflexivity|]. split; [exact Hl|]. apply Hc.
Defined.

Lemma failed_connect_witness :
  hasty_connect.1 = Throw (RateLimited 18 (JNum 7))
  ∧ acc_status <$> account_row up (JNum 7) hasty_connect.2 = Some AccError
  ∧ getAccountStatus (JNum 7) hasty_connect.2 = AccConnected.
Proof.
  destruct (failed_connect_marks_error up (JNum 7)
              (elapse 12500 (connectAccount up (JNum 7) idle).2)
              (RateLimited 18 (JNum 7)) hasty_connect.2
              (account_status AccConnecting account0)) as (Hrow & Hg & _).
  - vm_compute. reflexivity.
  - vm_compute. reflexivity.
  - split; [vm_compute; reflexivity|]. rewrite Hrow, Hg. split; reflexivity.
Defined.

Lemma disconnect_clears_witness :
  sessions (disconnectAccount up (JNum 7) online).2 !! JNum 7 = None
  ∧ lastConnectionTime (disconnectAccount up (JNum 7) online).2 !! JNum 7 = None
  ∧ account_row up (JNum 7) (disconnectAccount up (JNum 7) online).2
    = Some (account_status_qr AccDisconnected None account0)
  ∧ live (disconnectAccount up (JNum 7) online).2 !! 0%nat = None.
Proof.
  destruct (disconnect_clears_the_account up (JNum 7) online account0
              (or_intror eq_refl) eq_refl) as (_ & Hs & _ & Hl & Hrow & Hlive).
  split; [exact Hs|]. split; [exact Hl|]. split; [exact Hrow|].
  apply Hlive. reflexivity.
Defined.

Lemma disconnect_with_failing_logout_witness :
  (disconnectAccount down (JNum 7) online).1 = Ok ()
  ∧ sessions (disconnectAccount down (JNum 7) online).2 !! JNum 7 = Some 0%nat
  ∧ acc_status <$> accounts (disconnectAccount down (JNum 7) online).2 !! 7
    = Some AccConnected.
Proof.
  destruct (disconnect_with_failing_logout_changes_nothing down (JNum 7) online
              0%nat "Connection Failure" eq_refl eq_refl)
    as (Hr & Hs & _ & _ & _ & Ha & _).
  rewrite Hr, Hs, Ha. repeat split; reflexivity.
Defined.

Lemma connect_after_disconnect_witness :
  (connectAccount up (JNum 7)
     (elapse 1000 (disconnectAccount up (JNum 7) just_connected).2)).1
  ≠ Throw (RateLimited 29 (JNum 7)).
Proof.
  apply (connect_after_disconnect_is_not_rate_limited up (JNum 7) just_connected 1000).
  right. reflexivity.
Defined.

Lemma forceReconnect_witness :
  (forceReconnectAccount up (JNum 7) just_connected).1
  ≠ Throw (RateLimited 30 (JNum 7)).
Proof.
  apply (forceReconnect_is_not_rate_limited up (JNum 7) just_connected).
Defined.

Lemma status_before_open_witness :
  getAccountStatus (JNum 7) just_connected = AccConnected
  ∧ acc_status <$> account_row up (JNum 7) just_connected = Some AccConnecting.
Proof.
  destruct (status_is_connected_before_open up (JNum 7) idle 0%nat just_connected)
    as (Hg & _ & Hs).
  - vm_compute. reflexivity.
  - split; assumption.
Defined.

Lemma connected_status_witness :
  (sendMessage up (JNum 7) "111" (Some "hello") None None None online).1
  ≠ Throw AccountNotConnected.
Proof.
  apply (connected_status_means_a_session_is_found up (JNum 7)).
  - left. reflexivity.
  - reflexivity.
Defined.


Lemma sendMessage_logs_once_witness :
  log_action <$>
    activity_logs (sendMessage up (JNum 7) "111" (Some "hello") None None None online).2
  = ["message_sent"].
Proof.
  destruct (sendMessage_logs_once up (JNum 7) "111" (Some "hello") None None None
              online) as (_ & _ & _ & description & Hlog).
  - exists account0. reflexivity.
  - rewrite Hlog. reflexivity.
Defined.

Lemma sendTextMessage_witness :
  (sendTextMessage up (JNum 7) "111" "hello" idle).1
  = Throw (ErrorOf "Failed to send message: Account 7 is not connected")
  ∧ activity_logs (sendTextMessage up (JNum 7) "111" "hello" idle).2 = [].
Proof.
  destruct (sendTextMessage_wraps_and_logs_nothing up (JNum 7) "111" "hello" idle)
    as (Hlog & _ & _ & _ & Hnone).
  destruct Hnone as (Hr & _); [reflexivity..|].
  rewrite Hr, Hlog. split; reflexivity.
Defined.

Lemma unreadable_media_witness :
  ∃ error,
    (sendMessage up (JNum 7) "111" (Some "hello") (Some "uploads/gone.jpg") None None
       online).1 = Throw error
    ∧ message up error = "Media file not found: uploads/gone.jpg"
    ∧ effects (sendMessage up (JNum 7) "111" (Some "hello") (Some "uploads/gone.jpg")
                 None None online).2 = [].
Proof.
  destruct (unreadable_media_is_not_sent up (JNum 7) "111" (Some "hello")
              "uploads/gone.jpg" None None online 0%nat)
    as (error & Hr & Herr & He & _).
  - exists account0. reflexivity.
  - reflexivity.
  - vm_compute. congruence.
  - intros bytes. vm_compute. congruence.
  - exists error. split; [exact Hr|]. split; [|exact He].
    destruct Herr as [->|[why ->]]; [reflexivity|].
    vm_compute in Hr. discriminate Hr.
Defined.

Lemma audio_witness :
  ∃ jid ok,
    effects (sendMessage with_files (JNum 7) "111" (Some "listen to this")
               (Some "uploads/voice.ogg") None None online).2
    = [EvSend 0 jid (AudioContent "OggS" "audio/ogg") ok].
Proof.
  destruct (audio_is_sent_without_its_text with_files (JNum 7) "111"
              (Some "listen to this") "uploads/voice.ogg" None None online 0%nat "OggS")
    as (jid & ok & He).
  - reflexivity.
  - vm_compute. congruence.
  - reflexivity.
  - reflexivity.
  - exists jid, ok. rewrite He. reflexivity.
Defined.

Lemma unknown_extension_witness :
  ∃ jid ok,
    effects (sendMessage with_files (JNum 7) "111" (Some " see notes ")
               (Some "uploads/notes.xyz") None None online).2
    = [EvSend 0 jid
         (DocumentContent "notes" "application/octet-stream" "notes.xyz"
            (Some "see notes")) ok].
Proof.
  destruct (unknown_extension_is_sent_as_document with_files (JNum 7) "111"
              (Some " see notes ") "uploads/notes.xyz" None online 0%nat "notes")
    as (_ & jid & ok & He).
  - reflexivity.
  - vm_compute. congruence.
  - reflexivity.
  - intros Hin. apply list_elem_of_In in Hin. vm_compute in Hin.
    repeat (destruct Hin as [Hin|Hin]; [discriminate Hin|]). exact Hin.
  - exists jid, ok. rewrite He. reflexivity.
Defined.

Lemma uninterfered_pass_witness :
  ∃ sent failed,
    (sendBulkMessages up (JStr "1") two_pending_offline).1 = Ok (sent, failed)
    ∧ sent + failed = 2
    ∧ cmp_status <$>
        campaign_row up (JStr "1") (sendBulkMessages up (JStr "1") two_pending_offline).2
      = Some CmpCompleted.
Proof.
  destruct (uninterfered_pass_completes up (JStr "1") two_pending_offline
              (campaign0 CmpRunning) account0)
    as (sent & failed & Hr & _ & _ & Hn & _ & Hrow).
  - intros i w. reflexivity.
  - reflexivity.
  - reflexivity.
  - reflexivity.
  - exists sent, failed. split; [exact Hr|]. split; [exact Hn|].
    rewrite Hrow. reflexivity.
Defined.

Lemma reliable_pass_witness :
  ∃ order,
    (sendBulkMessages up (JStr "1") two_pending).1 = Ok (Z.of_nat (length order), 0)
    ∧ length order = 2%nat
    ∧ Sorted id_le order.
Proof.
  destruct (reliable_pass_sends_in_id_order up (JStr "1") two_pending
              (campaign0 CmpRunning) account0 0%nat)
    as (order & Hperm & Hsorted & Hr & _).
  - intros i w. reflexivity.
  - intros n. reflexivity.
  - reflexivity.
  - reflexivity.
  - reflexivity.
  - reflexivity.
  - intros m Hm. apply list_elem_of_In in Hm. vm_compute in Hm.
    destruct Hm as [<-|[<-|[]]]; reflexivity.
  - exists order. split; [exact Hr|]. split; [|exact Hsorted].
    rewrite Hperm. reflexivity.
Defined.

Lemma interrupted_pass_witness :
  paused_pass.1 = Ok (1, 0)
  ∧ cmp_status <$> campaign_row paused_midway (JStr "1") paused_pass.2 = Some CmpPaused
  ∧ cmp_sent_count <$> campaign_row paused_midway (JStr "1") paused_pass.2 = Some 1.
Proof.
  pose proof (interrupted_pass_keeps_the_observed_status paused_midway (JStr "1")
                three_pending (campaign0 CmpRunning) account0
                [ (1, message0 "111") ] (2, message0 "222") [ (3, message0 "333") ]
                (1, 0)
                (dispatchLoop paused_midway (JStr "1") (JNum 7) (campaign0 CmpRunning) 0
                   [ (1, message0 "111") ] (0, 0) three_pending).2
                (campaign0 CmpPaused)) as H.
  destruct H as (Hr & Hrow & _).
  - reflexivity.
  - reflexivity.
  - reflexivity.
  - vm_compute. reflexivity.
  - vm_compute. reflexivity.
  - vm_compute. reflexivity.
  - vm_compute. congruence.
  - apply list_elem_of_In. vm_compute. repeat ((left; reflexivity) || right).
  - unfold paused_pass. rewrite Hr, Hrow. repeat split; reflexivity.
Defined.

Lemma finished_campaign_witness :
  campaign_row up (JStr "1")
    (controls up [Start (JStr "1"); Resume (JNum 1); Cancel (JStr "1")] finished)
  = Some (campaign0 CmpCompleted)
  ∧ control up (Cancel (JStr "1")) finished = (Ok (400, false), finished).
Proof.
  destruct (finished_campaign_ignores_control_requests up (JStr "1") finished
              (campaign0 CmpCompleted) eq_refl (or_introl eq_refl)) as (Hall & Hone).
  split; [apply Hall|]. apply Hone.
  apply list_elem_of_In. vm_compute. tauto.
Defined.

Lemma started_campaign_witness :
  (control up (Start (JStr "1")) drafted).1 = Ok (200, true)
  ∧ ∃ cnt, (sendBulkMessages up (JStr "1") (control up (Start (JStr "1")) drafted).2).1
           = Ok cnt.
Proof.
  destruct (started_campaign_is_dispatched up (JStr "1") drafted (campaign0 CmpDraft)
              account0 (Start (JStr "1")) eq_refl eq_refl
              (or_introl (conj eq_refl eq_refl))) as (Hr & _ & Hpass).
  split; assumption.
Defined.

Lemma pause_before_the_pass_witness :
  (sendBulkMessages up (JStr "1")
     (route_pause up (JStr "1") (control up (Start (JStr "1")) drafted).2).2).1
  = Throw CampaignNotRunning
  ∧ cmp_status <$>
      campaign_row up (JStr "1")
        (sendBulkMessages up (JStr "1")
           (route_pause up (JStr "1") (control up (Start (JStr "1")) drafted).2).2).2
    = Some CmpCancelled.
Proof.
  destruct (pause_before_the_pass_cancels_the_campaign up (JStr "1") drafted
              (campaign0 CmpDraft) (Start (JStr "1")) eq_refl
              (or_introl (conj eq_refl eq_refl))) as (_ & _ & Hr & Hs & _).
  split; assumption.
Defined.

Lemma disconnect_under_another_key_witness :
  acc_status <$> account_row up (JNum 7) (disconnectAccount up (JStr "7") online).2
  = Some AccDisconnected
  ∧ sessions (disconnectAccount up (JStr "7") online).2 !! JNum 7 = Some 0%nat
  ∧ (lookupSession up (JStr "7") (disconnectAccount up (JStr "7") online).2).1
    = Ok (Some 0%nat).
Proof.
  destruct (disconnect_under_another_key_leaves_the_session up (JStr "7") (JNum 7)
              online 0%nat account0) as (_ & Hrow & Hs & _ & _ & Hfound).
  - congruence.
  - reflexivity.
  - reflexivity.
  - reflexivity.
  - reflexivity.
  - rewrite Hrow. split; [reflexivity|]. split; [exact Hs|]. apply Hfound. reflexivity.
Defined.

Lemma initialize_witness :
  (initialize up at_boot).1 = Ok ()
  ∧ accounts (initialize up at_boot).2 !! 8
    = Some (account_status AccDisconnected account0)
  ∧ ((∃ h, sessions (initialize up at_boot).2 !! JNum 7 = Some h
           ∧ accounts (initialize up at_boot).2 !! 7
             = Some (account_status AccConnecting account0))
     ∨ (sessions (initialize up at_boot).2 !! JNum 7 = None
        ∧ accounts (initialize up at_boot).2 !! 7
          = Some (account_status AccError account0))).
Proof.
  destruct (initialize_connects_or_marks_error up at_boot) as (Hr & _ & Hrows).
  - intros k. reflexivity.
  - reflexivity.
  - split; [exact Hr|]. split.
    + apply (Hrows eq_refl 8 (account_status AccDisconnected account0) eq_refl).
    + apply (Hrows eq_refl 7 account0 eq_refl).
Defined.

Lemma disconnectAll_witness :
  sessions (disconnectAll up online).2 = ∅
  ∧ live (disconnectAll up online).2 !! 0%nat = None
  ∧ acc_status <$> accounts (disconnectAll up online).2 !! 7 = Some AccConnected.
Proof.
  destruct (disconnectAll_clears_the_maps_only up online)
    as (_ & Hs & _ & _ & Ha & _ & Hlive).
  split; [exact Hs|]. split.
  - apply (Hlive (λ n, eq_refl) (JNum 7) 0%nat). reflexivity.
  - rewrite Ha. reflexivity.
Defined.

Lemma light_cleanup_witness :
  ∃ left,
    cleanSessionDir false true (λ _, true) (Some session_dir) = Some left
    ∧ "creds.json" ∈ left
    ∧ "session-6281.json" ∈ left
    ∧ "sender-keys.json" ∉ left.
Proof.
  destruct (light_cleanup_removes_what_matches true (λ _, true) session_dir)
    as (left & Heq & _ & Hkeep & Hgone & _).
  exists left. split; [exact Heq|].
  split; [|split].
  - apply Hkeep; [|reflexivity]. apply list_elem_of_In. vm_compute. tauto.
  - apply Hkeep; [|reflexivity]. apply list_elem_of_In. vm_compute. tauto.
  - intros Hin. apply Hgone in Hin; [|reflexivity]. vm_compute in Hin. discriminate Hin.
Defined.

Lemma upload_witness :
  effects (sendMediaMessage with_files (JNum 7) "111" (inr upload0) " see attached "
             online).2
  = [EvSend 0 "111@s.whatsapp.net" (ImageContent "PNG" (Some "see attached")) true].
Proof.
  destruct (upload_declared_as_image_is_sent_as_image with_files (JNum 7) "111"
              upload0 " see attached " online 0%nat "image/png" "PNG")
    as (_ & He).
  - reflexivity.
  - vm_compute. congruence.
  - reflexivity.
  - reflexivity.
  - reflexivity.
  - reflexivity.
  - rewrite He. reflexivity.
Defined.
